(** * A shallow embedding of the MCP gateway (dublyo/mcp-gateway)

    The development follows the Go packages of the repository:
    - [crypto]   : the parts of Go's standard library the gateway calls
                   (crypto/sha256, encoding/hex, crypto/subtle);
    - [json]     : decoded JSON values and the way encoding/json stores
                   them into the gateway's structs;
    - [mcp]      : internal/mcp, the JSON-RPC protocol handler;
    - [gateway]  : internal/gateway, tenants, credentials, limits, metrics,
                   configuration application and the poller;
    - [server]   : internal/server, the two HTTP transports.

    Pointers to [Connection] are locations of an explicit heap, Go maps are
    [gmap]s, machine integers are [Z] with their wrap-around written out,
    and every reading of the clock is an input. *)

From Stdlib Require Import ZArith Lia Ascii String List Bool Floats DecimalString.
From stdpp Require Import base option list gmap strings fin_maps sorting.

Local Open Scope Z_scope.
#[global] Set Warnings "-register-all".
#[global] Set Warnings "-notation-overridden".
#[global] Set Warnings "-ambiguous-paths".

(* ===================================================================== *)
(** * Part of the Go standard library used by the gateway                *)
(* ===================================================================== *)

Module crypto.

(** ** crypto/sha256 (FIPS 180-4), on 32-bit words carried as [Z] *)

Definition mask32 : Z := 0xffffffff.

Definition add32 (a b : Z) : Z := (a + b) mod 2 ^ 32.

Definition rotr (n x : Z) : Z :=
  Z.lor (Z.shiftr x n) (Z.land (Z.shiftl x (32 - n)) mask32).

Definition not32 (x : Z) : Z := Z.lxor x mask32.

Definition Ch (x y z : Z) : Z := Z.lxor (Z.land x y) (Z.land (not32 x) z).
Definition Maj (x y z : Z) : Z :=
  Z.lxor (Z.lxor (Z.land x y) (Z.land x z)) (Z.land y z).
Definition bsig0 (x : Z) : Z := Z.lxor (Z.lxor (rotr 2 x) (rotr 13 x)) (rotr 22 x).
Definition bsig1 (x : Z) : Z := Z.lxor (Z.lxor (rotr 6 x) (rotr 11 x)) (rotr 25 x).
Definition ssig0 (x : Z) : Z := Z.lxor (Z.lxor (rotr 7 x) (rotr 18 x)) (Z.shiftr x 3).
Definition ssig1 (x : Z) : Z := Z.lxor (Z.lxor (rotr 17 x) (rotr 19 x)) (Z.shiftr x 10).

(** The round constants are the first 32 bits of the fractional parts of
    the cube roots of the first 64 primes, the initial hash value those of
    the square roots of the first 8 primes. *)
Definition is_prime (n : Z) : bool :=
  forallb (fun d => negb (n mod Z.of_nat d =? 0)) (seq 2 (Z.to_nat n - 2)).

Definition primes : list Z :=
  Eval vm_compute in filter is_prime (map Z.of_nat (seq 2 310)).

(** The integer cube root, found bit by bit from bit 40 down. *)
Definition cbrt (n : Z) : Z :=
  fold_left
    (fun r b => let r' := r + 2 ^ Z.of_nat b in
                if r' * r' * r' <=? n then r' else r)
    (rev (seq 0 41)) 0.

Definition K : list Z :=
  Eval vm_compute in map (fun p => cbrt (p * 2 ^ 96) mod 2 ^ 32) primes.

Definition H0 : list Z :=
  Eval vm_compute in map (fun p => Z.sqrt (p * 2 ^ 64) mod 2 ^ 32) (firstn 8 primes).

(** Big-endian bytes of a [n]-byte unsigned integer. *)
Fixpoint be_bytes (n : nat) (x : Z) : list Z :=
  match n with
  | O => []
  | S k => (Z.shiftr x (8 * Z.of_nat k)) mod 256 :: be_bytes k x
  end.

(** Message padding: 0x80, zeroes up to 56 mod 64, then the bit length. *)
Definition pad (msg : list Z) : list Z :=
  let len := Z.of_nat (length msg) in
  let zeros := Z.to_nat ((55 - len) mod 64) in
  msg ++ 0x80 :: repeat 0 zeros ++ be_bytes 8 (8 * len).

Fixpoint words_of (fuel : nat) (bs : list Z) : list Z :=
  match fuel, bs with
  | S f, a :: b :: c :: d :: rest =>
      (a * 2 ^ 24 + b * 2 ^ 16 + c * 2 ^ 8 + d) :: words_of f rest
  | _, _ => []
  end.

Fixpoint blocks_of (fuel : nat) (bs : list Z) : list (list Z) :=
  match fuel with
  | O => []
  | S f =>
      match bs with
      | [] => []
      | _ => firstn 64 bs :: blocks_of f (skipn 64 bs)
      end
  end.

Definition word_at (w : list Z) (i : nat) : Z := nth i w 0.

(** The message schedule, extended one word at a time from 16 to 64. *)
Fixpoint schedule (n : nat) (w : list Z) : list Z :=
  match n with
  | O => w
  | S k =>
      let t := length w in
      let x := add32 (add32 (ssig1 (word_at w (t - 2))) (word_at w (t - 7)))
                     (add32 (ssig0 (word_at w (t - 15))) (word_at w (t - 16))) in
      schedule k (w ++ [x])
  end.

Record regs := Regs { ra : Z; rb : Z; rc : Z; rd : Z; re : Z; rf : Z; rg : Z; rh : Z }.

Definition round (s : regs) (kw : Z * Z) : regs :=
  let t1 := add32 (add32 (add32 (rh s) (bsig1 (re s))) (Ch (re s) (rf s) (rg s)))
                  (add32 (fst kw) (snd kw)) in
  let t2 := add32 (bsig0 (ra s)) (Maj (ra s) (rb s) (rc s)) in
  Regs (add32 t1 t2) (ra s) (rb s) (rc s) (add32 (rd s) t1) (re s) (rf s) (rg s).

Definition regs_of (h : list Z) : regs :=
  Regs (word_at h 0) (word_at h 1) (word_at h 2) (word_at h 3)
       (word_at h 4) (word_at h 5) (word_at h 6) (word_at h 7).

Definition compress (h : list Z) (block : list Z) : list Z :=
  let w := schedule 48 (words_of 16 block) in
  let s := fold_left round (combine K w) (regs_of h) in
  [ add32 (word_at h 0) (ra s); add32 (word_at h 1) (rb s);
    add32 (word_at h 2) (rc s); add32 (word_at h 3) (rd s);
    add32 (word_at h 4) (re s); add32 (word_at h 5) (rf s);
    add32 (word_at h 6) (rg s); add32 (word_at h 7) (rh s) ].

(** [sha256.Sum256]: the 32 bytes of the digest. *)
Definition Sum256 (msg : list Z) : list Z :=
  let p := pad msg in
  let h := fold_left compress (blocks_of (length p) p) H0 in
  flat_map (be_bytes 4) h.

(** ** encoding/hex *)

Definition hextable : string := "0123456789abcdef".

Definition hex_digit (n : Z) : ascii :=
  match String.get (Z.to_nat n) hextable with
  | Some c => c
  | None => "0"%char
  end.

(** [hex.EncodeToString]: two lower-case digits per byte. *)
Fixpoint EncodeToString (bs : list Z) : string :=
  match bs with
  | [] => EmptyString
  | b :: rest =>
      String (hex_digit (Z.shiftr b 4))
        (String (hex_digit (Z.land b 0x0f)) (EncodeToString rest))
  end.

(** [[]byte(s)]: the bytes of a Go string. *)
Definition bytes_of_string (s : string) : list Z :=
  map (fun c => Z.of_N (N_of_ascii c)) (list_ascii_of_string s).

(** ** crypto/subtle *)

(** [subtle.ConstantTimeCompare]: 0 at once when the lengths differ,
    otherwise the OR of the XORs of all byte pairs is compared to 0. *)
Fixpoint xor_acc (v : Z) (x y : list Z) : Z :=
  match x, y with
  | a :: x', b :: y' => xor_acc (Z.lor v (Z.lxor a b)) x' y'
  | _, _ => v
  end.

Definition ConstantTimeCompare (x y : list Z) : Z :=
  if negb (Nat.eqb (length x) (length y)) then 0
  else if Z.eqb (xor_acc 0 x y) 0 then 1 else 0.

End crypto.

Example sha256_abc :
  crypto.EncodeToString (crypto.Sum256 (crypto.bytes_of_string "abc"))
  = "ba7816bf8f01cfea414140de5dae2223b00361a396177a9cb410ff61f20015ad"%string.
Proof. vm_compute. reflexivity. Qed.

Example sha256_empty :
  crypto.EncodeToString (crypto.Sum256 [])
  = "e3b0c44298fc1c149afbf4c8996fb92427ae41e4649b934ca495991b7852b855"%string.
Proof. vm_compute. reflexivity. Qed.

(* ===================================================================== *)
(** * Decoded JSON and encoding/json's storing rules                     *)
(* ===================================================================== *)

Module json.

(** A JSON text that passed the syntax check of encoding/json.  A number
    whose literal fits float64 is carried as that float64 ([JNumber]); a
    literal outside the range ([JBigNumber], such as 1e999) is valid syntax
    but cannot be stored into an [interface{}]. Object members keep their
    order and their duplicates. *)
Inductive value : Type :=
| JNull
| JBool (b : bool)
| JNumber (f : PrimFloat.float)
| JBigNumber (literal : string)
| JString (s : string)
| JArray (vs : list value)
| JObject (kvs : list (string * value)).

(** What [json.Unmarshal] is given: bytes that are not JSON at all, or a
    JSON value. *)
Inductive payload : Type :=
| Malformed
| Parsed (v : value).

(** *** Member names *)

Definition upper (c : ascii) : ascii :=
  let n := N_of_ascii c in
  if ((97 <=? n) && (n <=? 122))%N then ascii_of_N (n - 32) else c.

(** The folding of encoding/json for member names: ASCII letters to upper
    case; the Kelvin sign (E2 84 AA) folds to K and the long s (C5 BF) to S,
    the only two runes outside ASCII that fold into it. Other bytes stay. *)
Fixpoint foldName (s : string) : string :=
  match s with
  | EmptyString => EmptyString
  | String c1 r1 =>
      match N_of_ascii c1, r1 with
      | 197%N, String c2 r2 =>
          if (N_of_ascii c2 =? 191)%N then String "S"%char (foldName r2)
          else String c1 (foldName r1)
      | 226%N, String c2 (String c3 r3) =>
          if ((N_of_ascii c2 =? 132) && (N_of_ascii c3 =? 170))%N
          then String "K"%char (foldName r3)
          else String c1 (foldName r1)
      | _, _ => String (upper c1) (foldName r1)
      end
  end.

(** The struct field a member name selects: the field with exactly that
    name, else the first field with the same folded name. *)
Definition field_of (fields : list string) (key : string) : option string :=
  match find (String.eqb key) fields with
  | Some f => Some f
  | None => find (fun f => String.eqb (foldName key) (foldName f)) fields
  end.

(** *** Storing into [interface{}] *)

Fixpoint assoc (k : string) (kvs : list (string * value)) : option value :=
  match kvs with
  | [] => None
  | (k', v) :: rest => if String.eqb k k' then Some v else assoc k rest
  end.

Definition has_key (k : string) (kvs : list (string * value)) : bool :=
  match assoc k kvs with Some _ => true | None => false end.

(** Insertion in the byte order of the keys, which is the order in which
    [json.Marshal] writes a map. *)
Fixpoint insert_sorted (k : string) (v : value) (kvs : list (string * value))
  : list (string * value) :=
  match kvs with
  | [] => [(k, v)]
  | (k', v') :: rest =>
      if String.ltb k k' then (k, v) :: kvs
      else (k', v') :: insert_sorted k v rest
  end.

(** A Go map holds one value per key, the last one stored. *)
Definition put_unless_later (k : string) (v : value) (later : list (string * value))
  : list (string * value) :=
  if has_key k later then later else insert_sorted k v later.

(** The Go value stored into an [interface{}]: [JNull] is nil, an object a
    [map[string]interface{}] (listed in key order), an array a slice.
    [None] is the error of a number out of range. *)
Fixpoint to_any (v : value) : option value :=
  match v with
  | JNull => Some JNull
  | JBool b => Some (JBool b)
  | JNumber f => Some (JNumber f)
  | JBigNumber _ => None
  | JString s => Some (JString s)
  | JArray vs =>
      let fix go (l : list value) : option (list value) :=
        match l with
        | [] => Some []
        | x :: r =>
            match to_any x, go r with
            | Some x', Some r' => Some (x' :: r')
            | _, _ => None
            end
        end in
      match go vs with Some l => Some (JArray l) | None => None end
  | JObject kvs =>
      let fix go (l : list (string * value)) : option (list (string * value)) :=
        match l with
        | [] => Some []
        | (k, x) :: r =>
            match to_any x, go r with
            | Some x', Some r' => Some (put_unless_later k x' r')
            | _, _ => None
            end
        end in
      match go kvs with Some l => Some (JObject l) | None => None end
  end.

(** [json.Unmarshal(body, &m)] for [m : map[string]interface{}]: an object
    gives its map, the literal null gives the nil map without an error, and
    everything else is an error. *)
Definition unmarshal_map (p : payload) : option (list (string * value)) :=
  match p with
  | Malformed => None
  | Parsed JNull => Some []
  | Parsed (JObject kvs) =>
      match to_any (JObject kvs) with
      | Some (JObject m) => Some m
      | _ => None
      end
  | Parsed _ => None
  end.

(** Storing into a [string] field: a string is stored, null changes
    nothing, any other value is a type error (decoding goes on, and
    [Unmarshal] returns the error at the end). *)
Definition store_string (v : value) (old : string) : option string :=
  match v with
  | JString s => Some s
  | JNull => Some old
  | _ => None
  end.

End json.

(* ===================================================================== *)
(** * internal/profiles: the profile interface                           *)
(* ===================================================================== *)

Module profiles.

(** [Tool] describes an MCP tool. *)
Record Tool := mkTool {
  Tool_Name : string;
  Tool_Description : string;
  Tool_InputSchema : json.value
}.

(** The [Profile] interface. [CallTool] returns [(string, error)]: [inl] is
    the text with a nil error, [inr] the message of a non-nil error. *)
Record Profile := mkProfile {
  ID : string;
  Tools : list Tool;
  CallTool : string -> json.value -> gmap string string -> string + string
}.

(** [Get] looks a profile up by ID in the registry. *)
Definition Get (Registry : gmap string Profile) (id : string) : option Profile :=
  Registry !! id.

End profiles.

(* ===================================================================== *)
(** * internal/mcp: types and the protocol handler                       *)
(* ===================================================================== *)

Module mcp.
Import json.

(** ** JSON-RPC 2.0 and MCP types *)

Record JSONRPCRequest := mkRequest {
  JSONRPC : string;
  ID : value;          (* interface{}: [JNull] is nil *)
  Method : string;
  Params : value       (* interface{}: [JNull] is nil *)
}.

(** The field [Data interface{}] of the Go struct is never set by the
    handler (it stays nil) and is left out. *)
Record JSONRPCError := mkError {
  Code : Z;
  Message : string
}.

Record ClientInfo := mkClientInfo {
  ClientInfo_Name : string;
  ClientInfo_Version : string
}.

Record InitializeParams := mkInitializeParams {
  InitializeParams_ProtocolVersion : string;
  InitializeParams_Capabilities : option (list (string * value));
  InitializeParams_ClientInfo : option ClientInfo
}.

Record ToolsCapability := mkToolsCapability { ListChanged : bool }.

Record Capabilities := mkCapabilities { Capabilities_Tools : option ToolsCapability }.

Record ServerInfo := mkServerInfo {
  ServerInfo_Name : string;
  ServerInfo_Version : string
}.

Record InitializeResult := mkInitializeResult {
  InitializeResult_ProtocolVersion : string;
  InitializeResult_Capabilities : Capabilities;
  InitializeResult_ServerInfo : ServerInfo
}.

Record ToolDef := mkToolDef {
  ToolDef_Name : string;
  ToolDef_Description : string;
  ToolDef_InputSchema : value
}.

Record ToolCallParams := mkToolCallParams {
  ToolCallParams_Name : string;
  ToolCallParams_Arguments : value   (* map[string]interface{}: [JNull] is nil *)
}.

Record ContentBlock := mkContentBlock {
  ContentBlock_Type : string;
  ContentBlock_Text : string
}.

Record ToolCallResult := mkToolCallResult {
  Content : list ContentBlock;
  IsError : bool
}.

(** The dynamic type of a response's [Result interface{}]. *)
Inductive Result : Type :=
| EmptyResult                                   (* map[string]interface{}{} *)
| OfInitialize (r : InitializeResult)
| OfToolsList (tools : list ToolDef)
| OfToolCall (r : ToolCallResult).

Record JSONRPCResponse := mkResponse {
  Response_JSONRPC : string;
  Response_ID : value;
  Response_Result : option Result;
  Response_Error : option JSONRPCError
}.

(** Standard error codes. *)
Definition ParseError : Z := -32700.
Definition InvalidRequest : Z := -32600.
Definition MethodNotFound : Z := -32601.
Definition InvalidParams : Z := -32602.
Definition InternalError : Z := -32603.

Definition ProtocolVersion : string := "2024-11-05".

(** ** How encoding/json fills the structs *)

(** Members are stored in order; a member that selects no field is
    skipped unread. The first type error makes [Unmarshal] return an error,
    and no caller in this package looks at the struct then. *)
Definition decode_members {S : Type} (fields : list string)
    (store : string -> value -> S -> option S)
    (kvs : list (string * value)) (s0 : S) : option S :=
  fold_left
    (fun acc kv =>
       match acc with
       | None => None
       | Some s =>
           match field_of fields (fst kv) with
           | None => Some s
           | Some f => store f (snd kv) s
           end
       end)
    kvs (Some s0).

(** Storing a JSON value into a struct: an object by members, null with no
    effect, anything else a type error. *)
Definition unmarshal_struct {S : Type} (fields : list string)
    (store : string -> value -> S -> option S) (s0 : S) (v : value) : option S :=
  match v with
  | JObject kvs => decode_members fields store kvs s0
  | JNull => Some s0
  | _ => None
  end.

Definition store_request (f : string) (v : value) (r : JSONRPCRequest)
  : option JSONRPCRequest :=
  if String.eqb f "jsonrpc" then
    match store_string v (JSONRPC r) with
    | Some s => Some (mkRequest s (ID r) (Method r) (Params r))
    | None => None
    end
  else if String.eqb f "id" then
    match to_any v with
    | Some a => Some (mkRequest (JSONRPC r) a (Method r) (Params r))
    | None => None
    end
  else if String.eqb f "method" then
    match store_string v (Method r) with
    | Some s => Some (mkRequest (JSONRPC r) (ID r) s (Params r))
    | None => None
    end
  else
    match to_any v with
    | Some a => Some (mkRequest (JSONRPC r) (ID r) (Method r) a)
    | None => None
    end.

(** [json.Unmarshal(raw, &req)] for [req : JSONRPCRequest]. *)
Definition unmarshal_request (raw : payload) : option JSONRPCRequest :=
  match raw with
  | Malformed => None
  | Parsed v =>
      unmarshal_struct ["jsonrpc"; "id"; "method"; "params"]%string store_request
        (mkRequest "" JNull "" JNull) v
  end.

Definition store_ClientInfo (f : string) (v : value) (c : ClientInfo)
  : option ClientInfo :=
  if String.eqb f "name" then
    match store_string v (ClientInfo_Name c) with
    | Some s => Some (mkClientInfo s (ClientInfo_Version c))
    | None => None
    end
  else
    match store_string v (ClientInfo_Version c) with
    | Some s => Some (mkClientInfo (ClientInfo_Name c) s)
    | None => None
    end.

(** [m[k] = v] on a Go map listed in key order. *)
Fixpoint set_key (k : string) (v : value) (m : list (string * value))
  : list (string * value) :=
  match m with
  | [] => [(k, v)]
  | (k', v') :: rest =>
      if String.eqb k k' then (k, v) :: rest
      else if String.ltb k k' then (k, v) :: m
      else (k', v') :: set_key k v rest
  end.

(** The members of an object stored, in order, into a map that is there
    already: each value is decoded afresh and set under its key, and the
    other entries of the map stay. *)
Definition store_members (kvs : list (string * value)) (m : list (string * value))
  : option (list (string * value)) :=
  fold_left
    (fun acc kv =>
       match acc, to_any (snd kv) with
       | Some m', Some x => Some (set_key (fst kv) x m')
       | _, _ => None
       end)
    kvs (Some m).

(** Storing into a [map[string]interface{}] field that holds [old] ([None]
    is the nil map): null sets the field to nil; an object is stored into
    a new map when the field is nil, and into the map of the field, which
    keeps its entries, when it is not. *)
Definition store_map (v : value) (old : option (list (string * value)))
  : option (option (list (string * value))) :=
  match v with
  | JNull => Some None
  | JObject kvs =>
      match old with
      | None =>
          match to_any v with
          | Some (JObject m) => Some (Some m)
          | _ => None
          end
      | Some m =>
          match store_members kvs m with
          | Some m' => Some (Some m')
          | None => None
          end
      end
  | _ => None
  end.

Definition store_InitializeParams (f : string) (v : value) (p : InitializeParams)
  : option InitializeParams :=
  if String.eqb f "protocolVersion" then
    match store_string v (InitializeParams_ProtocolVersion p) with
    | Some s =>
        Some (mkInitializeParams s (InitializeParams_Capabilities p)
                (InitializeParams_ClientInfo p))
    | None => None
    end
  else if String.eqb f "capabilities" then
    match store_map v (InitializeParams_Capabilities p) with
    | Some m =>
        Some (mkInitializeParams (InitializeParams_ProtocolVersion p) m
                (InitializeParams_ClientInfo p))
    | None => None
    end
  else
    match v with
    | JNull =>
        Some (mkInitializeParams (InitializeParams_ProtocolVersion p)
                (InitializeParams_Capabilities p) None)
    | JObject kvs =>
        let c0 := match InitializeParams_ClientInfo p with
                  | Some c => c
                  | None => mkClientInfo "" ""
                  end in
        match decode_members ["name"; "version"]%string store_ClientInfo kvs c0 with
        | Some c =>
            Some (mkInitializeParams (InitializeParams_ProtocolVersion p)
                    (InitializeParams_Capabilities p) (Some c))
        | None => None
        end
    | _ => None
    end.

(** [json.Marshal(req.Params)] followed by [json.Unmarshal(_, &params)]:
    the members of the Go value are read back in key order. *)
Definition unmarshal_InitializeParams (v : value) : option InitializeParams :=
  unmarshal_struct ["protocolVersion"; "capabilities"; "clientInfo"]%string
    store_InitializeParams (mkInitializeParams "" None None) v.

Definition store_ToolCallParams (f : string) (v : value) (p : ToolCallParams)
  : option ToolCallParams :=
  if String.eqb f "name" then
    match store_string v (ToolCallParams_Name p) with
    | Some s => Some (mkToolCallParams s (ToolCallParams_Arguments p))
    | None => None
    end
  else
    let old := match ToolCallParams_Arguments p with
               | JObject m => Some m
               | _ => None
               end in
    match store_map v old with
    | Some None => Some (mkToolCallParams (ToolCallParams_Name p) JNull)
    | Some (Some m) => Some (mkToolCallParams (ToolCallParams_Name p) (JObject m))
    | None => None
    end.

Definition unmarshal_ToolCallParams (v : value) : option ToolCallParams :=
  unmarshal_struct ["name"; "arguments"]%string
    store_ToolCallParams (mkToolCallParams "" JNull) v.

(** ** The handler *)

(** [Handler] processes MCP JSON-RPC messages for a specific profile. *)
Record Handler := mkHandler {
  profile : profiles.Profile;
  envVars : gmap string string
}.

Definition NewHandler (p : profiles.Profile) (env : gmap string string) : Handler :=
  mkHandler p env.

(** Modelled from the spec: [Handler.UpdateEnvVars], called by
    [ApplyConfig], is not among the source files. The handler holds a
    snapshot of the env map that the registry refreshes on every config
    apply, replacing the map by value and not mutating it in place. *)
Definition UpdateEnvVars (h : Handler) (env : gmap string string) : Handler :=
  mkHandler (profile h) env.

Definition handleInitialize (req : JSONRPCRequest) : JSONRPCResponse :=
  let unsupported : option string :=
    match Params req with
    | JNull => None
    | p =>
        match unmarshal_InitializeParams p with
        | Some params =>
            let v := InitializeParams_ProtocolVersion params in
            if negb (String.eqb v "") && negb (String.eqb v ProtocolVersion)
            then Some v else None
        | None => None
        end
    end in
  match unsupported with
  | Some v =>
      mkResponse "2.0" (ID req) None
        (Some (mkError InvalidParams
                 ("Unsupported protocol version: " ++ v ++ ". Supported: "
                    ++ ProtocolVersion)))
  | None =>
      mkResponse "2.0" (ID req)
        (Some (OfInitialize
                 (mkInitializeResult ProtocolVersion
                    (mkCapabilities (Some (mkToolsCapability false)))
                    (mkServerInfo "dublyo-mcp-gateway" "1.0.0"))))
        None
  end.

Definition handleToolsList (h : Handler) (req : JSONRPCRequest) : JSONRPCResponse :=
  let defs :=
    map (fun t => mkToolDef (profiles.Tool_Name t) (profiles.Tool_Description t)
                    (profiles.Tool_InputSchema t))
        (profiles.Tools (profile h)) in
  mkResponse "2.0" (ID req) (Some (OfToolsList defs)) None.

Definition handleToolsCall (h : Handler) (req : JSONRPCRequest) : JSONRPCResponse :=
  match unmarshal_ToolCallParams (Params req) with
  | None =>
      mkResponse "2.0" (ID req) None
        (Some (mkError InvalidParams "Invalid tool call params"))
  | Some params =>
      match profiles.CallTool (profile h) (ToolCallParams_Name params)
              (ToolCallParams_Arguments params) (envVars h) with
      | inr err =>
          mkResponse "2.0" (ID req)
            (Some (OfToolCall
                     (mkToolCallResult [mkContentBlock "text" ("Error: " ++ err)] true)))
            None
      | inl res =>
          mkResponse "2.0" (ID req)
            (Some (OfToolCall (mkToolCallResult [mkContentBlock "text" res] false)))
            None
      end
  end.

(** [HandleMessage] processes a JSON-RPC request and returns a response;
    [None] is the nil response. *)
Definition HandleMessage (h : Handler) (raw : payload) : option JSONRPCResponse :=
  match unmarshal_request raw with
  | None =>
      Some (mkResponse "2.0" JNull None (Some (mkError ParseError "Parse error")))
  | Some req =>
      if negb (String.eqb (JSONRPC req) "2.0") then
        Some (mkResponse "2.0" (ID req) None
                (Some (mkError InvalidRequest "Invalid JSON-RPC version")))
      else if String.eqb (Method req) "initialize" then Some (handleInitialize req)
      else if String.eqb (Method req) "initialized" then None
      else if String.eqb (Method req) "ping" then
        Some (mkResponse "2.0" (ID req) (Some EmptyResult) None)
      else if String.eqb (Method req) "tools/list" then Some (handleToolsList h req)
      else if String.eqb (Method req) "tools/call" then Some (handleToolsCall h req)
      else if String.eqb (Method req) "notifications/cancelled" then None
      else
        Some (mkResponse "2.0" (ID req) None
                (Some (mkError MethodNotFound ("Method not found: " ++ Method req))))
  end.

End mcp.

(* ===================================================================== *)
(** * internal/gateway: tenants, credentials, limits, metrics            *)
(* ===================================================================== *)

Module gateway.

(** ** Machine integers and time *)

(** The value of a signed [w]-bit integer after an operation whose exact
    result is [x]: Go wraps around on overflow. *)
Definition wrap (w : Z) (x : Z) : Z :=
  (x + 2 ^ (w - 1)) mod 2 ^ w - 2 ^ (w - 1).

Definition int32 (x : Z) : Z := wrap 32 x.
Definition int64 (x : Z) : Z := wrap 64 x.

(** A [time.Time] is an instant, counted in nanoseconds. *)
Abbreviation Time := Z (only parsing).
Definition Minute : Z := 60 * 1000000000.

(** [t.After(u)] and [t.Before(u)]. *)
Definition After (t u : Time) : bool := u <? t.
Definition Before (t u : Time) : bool := t <? u.

(** A pointer to a [Connection]: a location of the heap. *)
Definition loc : Type := positive.

(** ** Data model *)

(** [ConnectionConfig] is a single MCP connection received from the API. *)
Record ConnectionConfig := mkConnectionConfig {
  ID : string;
  Slug : string;
  Domain : string;
  Profile : string;
  APIKeyHash : string;
  PrevKeyHash : string;
  PrevKeyExpiry : string;
  Enabled : bool;
  EnvVars : gmap string string;
  RateLimit : Z;
  MaxConcurrency : Z;
  CreatedAt : string
}.

(** [GatewayConfig] is received from the API sync endpoint. *)
Record GatewayConfig := mkGatewayConfig {
  ServerID : string;
  GatewayID : string;
  Pepper : string;
  Connections : list ConnectionConfig;
  Version : Z
}.

(** [Connection] is a live connection with its MCP handler. The handler is
    owned by its connection alone, so it is kept inside the object. *)
Record Connection := mkConnection {
  Config : ConnectionConfig;
  Handler : mcp.Handler;
  requests : list Time;      (* the sliding rate window *)
  sessions : Z               (* int32 *)
}.

Record Metrics := mkMetrics {
  RequestCount : Z;          (* int64 *)
  ErrorCount : Z;            (* int64 *)
  AuthFailures : Z;          (* int64 *)
  Latencies : list Z;        (* float64 holding whole milliseconds *)
  ActiveSessions : Z;
  LastRequestAt : option Time  (* [None] is the zero Time *)
}.

(** [Gateway] manages all connections and their state. [heap] holds the
    [Connection] objects the pointers of [connections] (and of the running
    sessions) refer to. *)
Record Gateway := mkGateway {
  connections : gmap string loc;   (* keyed by domain *)
  pepper : string;
  version : Z;
  gatewayID : string;
  serverID : string;
  metrics : gmap string Metrics;
  heap : gmap loc Connection
}.

Definition New : Gateway := mkGateway ∅ "" 0 "" "" ∅ ∅.

Definition emptyMetrics : Metrics := mkMetrics 0 0 0 [] 0 None.

(** [g.connections[domain]] followed by the dereference; a nil pointer is
    [None]. *)
Definition existing_at (conns : gmap string loc) (h : gmap loc Connection)
    (domain : string) : option (loc * Connection) :=
  match conns !! domain with
  | Some l => match h !! l with Some c => Some (l, c) | None => None end
  | None => None
  end.

(** ** ApplyConfig *)

(** The state of the loop of [ApplyConfig]: the map being built, the heap
    and the metrics map. *)
Record applying := mkApplying {
  newConns : gmap string loc;
  a_heap : gmap loc Connection;
  a_metrics : gmap string Metrics
}.

(** "Ensure metrics entry exists". *)
Definition ensure_metrics (id : string) (m : gmap string Metrics) : gmap string Metrics :=
  match m !! id with
  | Some _ => m
  | None => <[id := emptyMetrics]> m
  end.

(** One iteration of the loop over [cfg.Connections]. [old] is
    [g.connections], which the loop reads and never writes. *)
Definition apply_one (Registry : gmap string profiles.Profile)
    (old : gmap string loc) (st : applying) (cc : ConnectionConfig) : applying :=
  if negb (Enabled cc) then st
  else
    let reuse :=
      match existing_at old (a_heap st) (Domain cc) with
      | Some (l, existing) =>
          if String.eqb (Profile (Config existing)) (Profile cc)
          then Some (l, existing) else None
      | None => None
      end in
    match reuse with
    | Some (l, existing) =>
        let updated :=
          mkConnection cc (mcp.UpdateEnvVars (Handler existing) (EnvVars cc))
            (requests existing) (sessions existing) in
        mkApplying (<[Domain cc := l]> (newConns st))
          (<[l := updated]> (a_heap st))
          (ensure_metrics (ID cc) (a_metrics st))
    | None =>
        match profiles.Get Registry (Profile cc) with
        | None => st    (* unknown profile: skipped *)
        | Some p =>
            let l := fresh (dom (a_heap st)) in
            let created := mkConnection cc (mcp.NewHandler p (EnvVars cc)) [] 0 in
            mkApplying (<[Domain cc := l]> (newConns st))
              (<[l := created]> (a_heap st))
              (ensure_metrics (ID cc) (a_metrics st))
        end
    end.

(** [ApplyConfig] applies a new config from the API. *)
Definition ApplyConfig (Registry : gmap string profiles.Profile)
    (cfg : GatewayConfig) (g : Gateway) : Gateway :=
  let st := fold_left (apply_one Registry (connections g)) (Connections cfg)
              (mkApplying ∅ (heap g) (metrics g)) in
  mkGateway (newConns st) (Pepper cfg) (Version cfg) (GatewayID cfg) (ServerID cfg)
    (a_metrics st) (a_heap st).

(** [GetConnection] returns the connection for the given domain. *)
Definition GetConnection (g : Gateway) (domain : string) : option loc :=
  connections g !! domain.

(** ** VerifyAPIKey *)

Section Verify.

(** [time.Parse(time.RFC3339, s)] of Go's standard library: the instant a
    timestamp denotes, or [None] for the error. *)
Variable time_Parse : string -> option Time.

Definition computed_hash (pepper apiKey : string) : string :=
  crypto.EncodeToString (crypto.Sum256 (crypto.bytes_of_string (pepper ++ apiKey))).

Definition hash_matches (computed stored : string) : bool :=
  crypto.ConstantTimeCompare (crypto.bytes_of_string computed)
    (crypto.bytes_of_string stored) =? 1.

(** [VerifyAPIKey] checks if the given API key is valid for the
    connection; [now] is the reading of [time.Now()]. *)
Definition VerifyAPIKey (g : Gateway) (conn : Connection) (apiKey : string)
    (now : Time) : bool :=
  let computed := computed_hash (pepper g) apiKey in
  if hash_matches computed (APIKeyHash (Config conn)) then true
  else if negb (String.eqb (PrevKeyHash (Config conn)) "")
          && negb (String.eqb (PrevKeyExpiry (Config conn)) "") then
    match time_Parse (PrevKeyExpiry (Config conn)) with
    | Some expiry =>
        if Before now expiry then
          if hash_matches computed (PrevKeyHash (Config conn)) then true else false
        else false
    | None => false
    end
  else false.

End Verify.

(** ** Rate and concurrency limits *)

(** The loop "Remove expired entries". [valid := conn.requests[:0]] shares
    the backing array of [conn.requests], so [append(valid, t)] overwrites
    slot [w] of the array the loop is still ranging over; [i] is the slot
    being read and [w] the length of [valid]. *)
Fixpoint compact (k : nat) (windowStart : Time) (i w : nat) (arr : list Time)
  : nat * list Time :=
  match k with
  | O => (w, arr)
  | S k' =>
      match arr !! i with
      | Some t =>
          if After t windowStart
          then compact k' windowStart (S i) (S w) (<[w := t]> arr)
          else compact k' windowStart (S i) w arr
      | None => (w, arr)
      end
  end.

(** [conn.requests] after the loop: the first [len(valid)] slots. *)
Definition keep_valid (windowStart : Time) (reqs : list Time) : list Time :=
  let r := compact (length reqs) windowStart 0 0 reqs in
  take (fst r) (snd r).

Definition effective_limit (configured default : Z) : Z :=
  if configured <=? 0 then default else configured.

(** [CheckRateLimit] returns true if the request is within rate limits. *)
Definition CheckRateLimit (conn : Connection) (now : Time) : bool * Connection :=
  let limit := effective_limit (RateLimit (Config conn)) 60 in
  let windowStart := now - Minute in
  let valid := keep_valid windowStart (requests conn) in
  if Z.of_nat (length valid) >=? limit then
    (false, mkConnection (Config conn) (Handler conn) valid (sessions conn))
  else
    (true, mkConnection (Config conn) (Handler conn) (valid ++ [now]) (sessions conn)).

(** [CheckConcurrency] returns true if under the concurrency limit. *)
Definition CheckConcurrency (conn : Connection) : bool :=
  let limit := effective_limit (MaxConcurrency (Config conn)) 10 in
  sessions conn <? limit.

(** [IncrementSessions] increments the active session count. *)
Definition IncrementSessions (conn : Connection) : Connection :=
  mkConnection (Config conn) (Handler conn) (requests conn) (int32 (sessions conn + 1)).

(** [DecrementSessions] decrements the active session count. *)
Definition DecrementSessions (conn : Connection) : Connection :=
  if sessions conn >? 0 then
    mkConnection (Config conn) (Handler conn) (requests conn) (int32 (sessions conn - 1))
  else conn.

(** ** Metrics *)

(** [RecordRequest] records a request metric; [now] is the reading of
    [time.Now()]. *)
Definition RecordRequest (g : Gateway) (connID : string) (latencyMs : Z)
    (isError : bool) (now : Time) : Gateway :=
  let m := match metrics g !! connID with
           | Some m => m
           | None => emptyMetrics
           end in
  let lat := Latencies m ++ [latencyMs] in
  let lat := if (100 <? length lat)%nat then drop (length lat - 100) lat else lat in
  let m' := mkMetrics (int64 (RequestCount m + 1))
              (if isError then int64 (ErrorCount m + 1) else ErrorCount m)
              (AuthFailures m) lat (ActiveSessions m) (Some now) in
  mkGateway (connections g) (pepper g) (version g) (gatewayID g) (serverID g)
    (<[connID := m']> (metrics g)) (heap g).

(** [RecordAuthFailure] records an auth failure. *)
Definition RecordAuthFailure (g : Gateway) (connID : string) : Gateway :=
  let m := match metrics g !! connID with
           | Some m => m
           | None => emptyMetrics
           end in
  let m' := mkMetrics (RequestCount m) (ErrorCount m) (int64 (AuthFailures m + 1))
              (Latencies m) (ActiveSessions m) (LastRequestAt m) in
  mkGateway (connections g) (pepper g) (version g) (gatewayID g) (serverID g)
    (<[connID := m']> (metrics g)) (heap g).

(** [MetricsReport] is what is sent to the API. *)
Record MetricsReport := mkMetricsReport {
  ConnectionID : string;
  Report_RequestCount : Z;
  Report_ErrorCount : Z;
  Report_AuthFailures : Z;
  P95LatencyMs : Z;
  Report_ActiveSessions : Z;
  Report_LastRequestAt : string   (* RFC3339 text; empty for the zero Time *)
}.

(** "Simple sort for P95": [sorted[i], sorted[j] = sorted[j], sorted[i]]
    when [sorted[i] > sorted[j]], on the array [sorted]. *)
Definition swap_if_greater (i j : nat) (sorted : list Z) : list Z :=
  match sorted !! i, sorted !! j with
  | Some a, Some b => if a >? b then <[j := a]> (<[i := b]> sorted) else sorted
  | _, _ => sorted
  end.

(** [for j := i + 1; j < len(sorted); j++], with [k] iterations left. *)
Fixpoint inner_loop (k : nat) (i j : nat) (sorted : list Z) : list Z :=
  match k with
  | O => sorted
  | S k' => inner_loop k' i (S j) (swap_if_greater i j sorted)
  end.

(** [for i := range sorted], with [k] iterations left. *)
Fixpoint outer_loop (k : nat) (i : nat) (sorted : list Z) : list Z :=
  match k with
  | O => sorted
  | S k' => outer_loop k' (S i) (inner_loop (length sorted - S i) i (S i) sorted)
  end.

Definition simple_sort (latencies : list Z) : list Z :=
  outer_loop (length latencies) 0 latencies.

(** [float64(n)] for a length [n], and the conversion [int(f)], which
    drops the fraction. *)
Definition float64_of_int (n : Z) : PrimFloat.float :=
  PrimFloat.of_uint63 (Uint63.of_Z n).

Definition int_of_float64 (f : PrimFloat.float) : Z :=
  match FloatOps.Prim2SF f with
  | SpecFloat.S754_finite s m e =>
      let v := if 0 <=? e then Z.pos m * 2 ^ e else Z.pos m / 2 ^ (- e) in
      if s then - v else v
  | _ => 0
  end.

(** The constant [0.95] as a float64: the nearest one, a little below. *)
Definition float64_0_95 : PrimFloat.float := 0x1.e666666666666p-1%float.

(** [idx := int(float64(len(sorted)) * 0.95)], bounded to the last slot. *)
Definition p95_index (len : Z) : Z :=
  let idx := int_of_float64 (PrimFloat.mul (float64_of_int len) float64_0_95) in
  if idx >=? len then len - 1 else idx.

(** "Calculate P95". *)
Definition p95_of (latencies : list Z) : Z :=
  if (0 <? length latencies)%nat then
    let sorted := simple_sort latencies in
    nth (Z.to_nat (p95_index (Z.of_nat (length sorted)))) sorted 0
  else 0.

(** "Get active session count from connection": the first connection of
    [g.connections] whose config has this ID. Go ranges over the map in no
    fixed order; the order here is that of [map_to_list]. *)
Definition active_sessions_of (g : Gateway) (connID : string) : Z :=
  let has_id (e : string * loc) :=
    match heap g !! snd e with
    | Some c => String.eqb (ID (Config c)) connID
    | None => false
    end in
  match find has_id (map_to_list (connections g)) with
  | Some e => match heap g !! snd e with Some c => sessions c | None => 0 end
  | None => 0
  end.

Definition no_delta (m : Metrics) : bool :=
  (RequestCount m =? 0) && (ErrorCount m =? 0) && (AuthFailures m =? 0).

Section Reports.

(** [t.Format(time.RFC3339)] of Go's standard library: the text of an
    instant, to the whole second. *)
Variable time_Format : Time -> string.

Definition report_of (g : Gateway) (connID : string) (m : Metrics) : MetricsReport :=
  mkMetricsReport connID (RequestCount m) (ErrorCount m) (AuthFailures m)
    (p95_of (Latencies m)) (active_sessions_of g connID)
    (match LastRequestAt m with
     | Some t => time_Format t
     | None => ""%string
     end).

(** "Reset deltas". *)
Definition reset_deltas (m : Metrics) : Metrics :=
  mkMetrics 0 0 0 [] (ActiveSessions m) (LastRequestAt m).

(** [CollectAndResetMetrics] returns current metrics and resets delta
    counters. The reports come in the order in which the map is ranged
    over, which Go leaves open; here it is that of [map_to_list]. *)
Definition CollectAndResetMetrics (g : Gateway) : list MetricsReport * Gateway :=
  let reports :=
    omap (fun e : string * Metrics =>
            if no_delta (snd e) then None else Some (report_of g (fst e) (snd e)))
         (map_to_list (metrics g)) in
  let metrics' :=
    (fun m => if no_delta m then m else reset_deltas m) <$> metrics g in
  (reports,
   mkGateway (connections g) (pepper g) (version g) (gatewayID g) (serverID g)
     metrics' (heap g)).

End Reports.

(** ** The poller *)

(** [Poller] handles config sync and metrics reporting to the API. *)
Record Poller := mkPoller {
  apiURL : string;
  token : string;
  failures : Z;            (* int *)
  traefikDir : string
}.

(** What [io.ReadAll] and [json.Unmarshal] make of the body of a reply:
    the read fails, the decoding into [{success, data}] fails, or it gives
    the two fields. *)
Inductive SyncBody : Type :=
| ReadFailed
| Undecodable
| ApiResp (Success : bool) (Data : GatewayConfig).

(** What one tick gets from the control plane: [http.NewRequest] fails,
    [httpClient.Do] fails (a bare transport failure), or a reply arrives
    with its status, its [X-Gateway-Token] header (empty when absent) and
    its body. *)
Inductive SyncReply : Type :=
| RequestError
| TransportError
| Reply (StatusCode : Z) (newToken : string) (body : SyncBody).

Definition with_failures (p : Poller) (n : Z) : Poller :=
  mkPoller (apiURL p) (token p) n (traefikDir p).

Definition with_token (p : Poller) (tok : string) : Poller :=
  mkPoller (apiURL p) tok (failures p) (traefikDir p).

(** [syncConfig]: one config-sync tick. The Traefik file emitter that runs
    after a successful apply writes files only and is left out. *)
Definition syncConfig (Registry : gmap string profiles.Profile)
    (p : Poller) (g : Gateway) (r : SyncReply) : Poller * Gateway :=
  match r with
  | RequestError => (p, g)
  | TransportError => (with_failures p (int64 (failures p + 1)), g)
  | Reply status newToken body =>
      let p := if negb (String.eqb newToken "") then with_token p newToken else p in
      if status =? 304 then (with_failures p 0, g)
      else if status =? 200 then
        let p := with_failures p 0 in
        match body with
        | ReadFailed => (p, g)
        | Undecodable => (p, g)
        | ApiResp false _ => (p, g)
        | ApiResp true data => (p, ApplyConfig Registry data g)
        end
      else if (status =? 401) || (status =? 403) then
        (with_failures p (int64 (failures p + 1)), g)
      else (with_failures p (int64 (failures p + 1)), g)
  end.

End gateway.

(* ===================================================================== *)
(** * internal/server: the two JSON-RPC entry points                     *)
(* ===================================================================== *)

Module server.
Import gateway.

(** [Session] tracks an active SSE or Streamable HTTP session. [Messages]
    is the content of the buffered channel (capacity 64), oldest first; a
    payload is the response whose JSON encoding it is. *)
Record Session := mkSession {
  Session_ID : string;
  ConnID : string;
  Messages : list mcp.JSONRPCResponse;
  done : bool
}.

(** [Server] is the HTTP server that handles MCP requests. *)
Record Server := mkServer {
  gw : Gateway;
  sessions : gmap string Session   (* sessionID -> *Session *)
}.

(** What a handler needs of an [http.Request]. [Body] is the reader
    [r.Body]: the results of its successive [Read] calls, each one the
    bytes delivered and whether an error (such as [io.EOF]) came with
    them; once the list is used up, [Read] returns no bytes and [io.EOF]. *)
Record Request := mkRequest {
  Authorization : string;        (* header, empty when absent *)
  mcp_session_id : string;       (* header, empty when absent *)
  sessionId : string;            (* query parameter, empty when absent *)
  Body : list (list Byte.byte * bool)
}.

(** What was written to the [http.ResponseWriter]. *)
Inductive Written : Type :=
| NoBody
| Text (s : string)
| Json (r : mcp.JSONRPCResponse).

Record Response := mkResponse {
  StatusCode : Z;
  Header : list (string * string);
  Payload : Written
}.

(** The readings of the clock during one request, in the order of the
    calls of [time.Now()] and [time.Since]. *)
Record Clock := mkClock {
  verify_now : Time;
  limit_now : Time;
  latency_ms : Z;
  record_now : Time;
  mint_UnixNano : Z;
  mint_UnixMicro : Z
}.

(** What a handler did: its reply, the state it left, and the frames it
    gave to the protocol handler ([conn.Handler.HandleMessage]). *)
Record Outcome := mkOutcome {
  reply : Response;
  after : Server;
  handled : list (list Byte.byte)
}.

Definition StatusOK : Z := 200.
Definition StatusAccepted : Z := 202.
Definition StatusBadRequest : Z := 400.
Definition StatusUnauthorized : Z := 401.
Definition StatusNotFound : Z := 404.
Definition StatusRequestEntityTooLarge : Z := 413.
Definition StatusTooManyRequests : Z := 429.

(** [http.Error]. *)
Definition http_Error (msg : string) (code : Z) : Response :=
  mkResponse code
    [("Content-Type", "text/plain; charset=utf-8"); ("X-Content-Type-Options", "nosniff")]%string
    (Text msg).

(** [%d]. *)
Definition fmt_d (z : Z) : string :=
  DecimalString.NilZero.string_of_int (Z.to_int z).

(** [generateSessionID] creates a short unique session ID from two
    readings of the clock. *)
Definition generateSessionID (unixNano unixMicro : Z) : string :=
  ("s_" ++ fmt_d unixNano ++ "_" ++ fmt_d (Z.rem unixMicro 10000))%string.

(** "Read request body": the loop shared by the two entry points. [None]
    is the return after "Request too large". *)
Fixpoint readBody (reads : list (list Byte.byte * bool)) (body : list Byte.byte)
  : option (list Byte.byte) :=
  match reads with
  | [] => Some body
  | (chunk, err) :: rest =>
      let body := body ++ chunk in
      if err then Some body
      else if Z.of_nat (length body) >? 1024 * 1024 then None
      else readBody rest body
  end.

(** The non-blocking send on [session.Messages]: dropped when the buffer
    holds 64 payloads. *)
Definition try_send (sess : Session) (m : mcp.JSONRPCResponse) : Session :=
  if (length (Messages sess) <? 64)%nat
  then mkSession (Session_ID sess) (ConnID sess) (Messages sess ++ [m]) (done sess)
  else sess.

Definition with_gw (s : Server) (g : Gateway) : Server := mkServer g (sessions s).

Definition store_conn (g : Gateway) (l : loc) (c : Connection) : Gateway :=
  mkGateway (connections g) (pepper g) (version g) (gatewayID g) (serverID g)
    (metrics g) (<[l := c]> (heap g)).

Definition is_error (response : option mcp.JSONRPCResponse) : bool :=
  match response with
  | Some r => match mcp.Response_Error r with Some _ => true | None => false end
  | None => false
  end.

Section Handlers.

(** Go's standard library: [time.Parse(time.RFC3339, _)], and the syntax
    check and scanning of encoding/json. *)
Variable time_Parse : string -> option Time.
Variable decode : list Byte.byte -> json.payload.

(** [authenticateRequest] validates the Bearer token and applies the rate
    limit. [conn] points to the object [c]. The result is [inl] of the
    error reply, or [inr] (the function returned true), with the gateway
    state left behind. *)
Definition authenticateRequest (g : Gateway) (conn : loc) (c : Connection)
    (r : Request) (clk : Clock) : (Response + unit) * Gateway :=
  let auth := Authorization r in
  if String.eqb auth "" || negb (String.prefix "Bearer " auth) then
    (inl (http_Error "Unauthorized" StatusUnauthorized),
     RecordAuthFailure g (ID (Config c)))
  else
    let apiKey := String.substring 7 (String.length auth - 7) auth in
    if negb (VerifyAPIKey time_Parse g c apiKey (verify_now clk)) then
      (inl (http_Error "Unauthorized" StatusUnauthorized),
       RecordAuthFailure g (ID (Config c)))
    else
      let (ok, c') := CheckRateLimit c (limit_now clk) in
      let g' := store_conn g conn c' in
      if negb ok then
        (inl (http_Error "Rate limit exceeded" StatusTooManyRequests), g')
      else (inr tt, g').

(** [handleSSEMessage]: POST /message, the sidecar of the SSE transport. *)
Definition handleSSEMessage (s : Server) (conn : loc) (c : Connection)
    (r : Request) (clk : Clock) : Outcome :=
  match authenticateRequest (gw s) conn c r clk with
  | (inl denied, g) => mkOutcome denied (with_gw s g) []
  | (inr _, g) =>
      let sessionID := sessionId r in
      if String.eqb sessionID "" then
        mkOutcome (http_Error "Missing sessionId" StatusBadRequest) (with_gw s g) []
      else
        match sessions s !! sessionID with
        | None =>
            mkOutcome (http_Error "Session not found" StatusNotFound) (with_gw s g) []
        | Some session =>
            match readBody (Body r) [] with
            | None =>
                mkOutcome (http_Error "Request too large" StatusRequestEntityTooLarge)
                  (with_gw s g) []
            | Some body =>
                let response := mcp.HandleMessage (Handler c) (decode body) in
                let g := RecordRequest g (ID (Config c)) (latency_ms clk)
                           (is_error response) (record_now clk) in
                let sessions' :=
                  match response with
                  | Some resp => <[sessionID := try_send session resp]> (sessions s)
                  | None => sessions s
                  end in
                mkOutcome (mkResponse StatusAccepted [] NoBody)
                  (mkServer g sessions') [body]
            end
        end
  end.

(** [handleStreamableHTTP]: POST /mcp. *)
Definition handleStreamableHTTP (s : Server) (conn : loc) (c : Connection)
    (r : Request) (clk : Clock) : Outcome :=
  match authenticateRequest (gw s) conn c r clk with
  | (inl denied, g) => mkOutcome denied (with_gw s g) []
  | (inr _, g) =>
      match readBody (Body r) [] with
      | None =>
          mkOutcome (http_Error "Request too large" StatusRequestEntityTooLarge)
            (with_gw s g) []
      | Some body =>
          let notification :=
            match json.unmarshal_map (decode body) with
            | Some rawMsg => negb (json.has_key "id" rawMsg)
            | None => false
            end in
          if notification then
            (* HandleMessage is called and its result dropped *)
            mkOutcome (mkResponse StatusAccepted [] NoBody) (with_gw s g) [body]
          else
            let response := mcp.HandleMessage (Handler c) (decode body) in
            let g := RecordRequest g (ID (Config c)) (latency_ms clk)
                       (is_error response) (record_now clk) in
            match response with
            | None => mkOutcome (mkResponse StatusAccepted [] NoBody) (with_gw s g) [body]
            | Some resp =>
                let sessionID :=
                  if String.eqb (mcp_session_id r) ""
                  then generateSessionID (mint_UnixNano clk) (mint_UnixMicro clk)
                  else mcp_session_id r in
                mkOutcome
                  (mkResponse StatusOK
                     [("Content-Type", "application/json"); ("mcp-session-id", sessionID)]%string
                     (Json resp))
                  (with_gw s g) [body]
            end
      end
  end.

End Handlers.

End server.

(* ===================================================================== *)
(** * Properties                                                         *)
(* ===================================================================== *)

(** ** The credential verifier *)

Section CredentialVerifier.
Import gateway.

Lemma xor_acc_zero (x y : list Z) (v : Z) :
  length x = length y ->
  crypto.xor_acc v x y = 0 <-> v = 0 /\ x = y.
Proof.
  revert y v. induction x as [|a x IH]; intros [|b y] v Hlen; simpl in *;
    try discriminate.
  - intuition.
  - rewrite IH by congruence.
    rewrite Z.lor_eq_0_iff, Z.lxor_eq_0_iff.
    intuition congruence.
Qed.

Lemma ConstantTimeCompare_one (x y : list Z) :
  crypto.ConstantTimeCompare x y = 1 <-> x = y.
Proof.
  unfold crypto.ConstantTimeCompare.
  destruct (Nat.eqb (length x) (length y)) eqn:Hlen; simpl.
  - apply Nat.eqb_eq in Hlen.
    destruct (Z.eqb (crypto.xor_acc 0 x y) 0) eqn:Hacc.
    + apply Z.eqb_eq in Hacc. apply xor_acc_zero in Hacc; [|exact Hlen].
      intuition.
    + apply Z.eqb_neq in Hacc. split; [discriminate|].
      intros ->. exfalso. apply Hacc. apply xor_acc_zero; auto.
  - apply Nat.eqb_neq in Hlen. split; [discriminate|].
    intros ->. congruence.
Qed.

Lemma bytes_of_string_inj (s1 s2 : string) :
  crypto.bytes_of_string s1 = crypto.bytes_of_string s2 -> s1 = s2.
Proof.
  unfold crypto.bytes_of_string.
  revert s2. induction s1 as [|c1 s1 IH]; intros [|c2 s2] H; simpl in H;
    try discriminate; auto.
  injection H as Hc Hs. f_equal.
  - apply N2Z.inj in Hc.
    rewrite <- (ascii_N_embedding c1), <- (ascii_N_embedding c2). congruence.
  - apply IH. exact Hs.
Qed.

Lemma hash_matches_eq (computed stored : string) :
  hash_matches computed stored = true <-> computed = stored.
Proof.
  unfold hash_matches. rewrite Z.eqb_eq, ConstantTimeCompare_one.
  split; [apply bytes_of_string_inj | congruence].
Qed.

Lemma eqb_empty_false (s : string) : negb (String.eqb s "") = true <-> s <> ""%string.
Proof.
  rewrite negb_true_iff. destruct (String.eqb_spec s ""); intuition congruence.
Qed.

(** C1. [VerifyAPIKey] accepts exactly when the hex SHA-256 digest of the
    applied pepper followed by the credential equals the primary hash, or
    the connection has a non-empty previous hash with an expiry that
    parses and lies strictly after [now], and the digest equals that
    previous hash. In particular a credential that only matches the
    previous hash is rejected once [now] has reached the expiry. *)
Theorem C1_VerifyAPIKey_accepts_iff
    (time_Parse : string -> option Time) (g : Gateway) (conn : Connection)
    (apiKey : string) (now : Time) :
  let H := crypto.EncodeToString
             (crypto.Sum256 (crypto.bytes_of_string (pepper g ++ apiKey))) in
  (VerifyAPIKey time_Parse g conn apiKey now = true <->
     H = APIKeyHash (Config conn) \/
     (PrevKeyHash (Config conn) <> ""%string /\
      (exists expiry,
          PrevKeyExpiry (Config conn) <> ""%string /\
          time_Parse (PrevKeyExpiry (Config conn)) = Some expiry /\
          now < expiry) /\
      H = PrevKeyHash (Config conn)))
  /\
  (forall expiry,
      H <> APIKeyHash (Config conn) ->
      time_Parse (PrevKeyExpiry (Config conn)) = Some expiry ->
      expiry <= now ->
      VerifyAPIKey time_Parse g conn apiKey now = false).
Proof.
  intros H.
  assert (Hiff :
    VerifyAPIKey time_Parse g conn apiKey now = true <->
     H = APIKeyHash (Config conn) \/
     (PrevKeyHash (Config conn) <> ""%string /\
      (exists expiry,
          PrevKeyExpiry (Config conn) <> ""%string /\
          time_Parse (PrevKeyExpiry (Config conn)) = Some expiry /\
          now < expiry) /\
      H = PrevKeyHash (Config conn))).
  { unfold VerifyAPIKey, computed_hash. fold H.
    destruct (hash_matches H (APIKeyHash (Config conn))) eqn:Hprim.
    { apply hash_matches_eq in Hprim. intuition. }
    assert (Hne : H <> APIKeyHash (Config conn)).
    { intros E. apply hash_matches_eq in E. congruence. }
    destruct (negb (String.eqb (PrevKeyHash (Config conn)) "")) eqn:Hph;
      destruct (negb (String.eqb (PrevKeyExpiry (Config conn)) "")) eqn:Hpe; simpl.
    2,3,4: split; [discriminate|];
           intros [E | (Hh & (e & He & _) & _)]; [contradiction|];
           rewrite <- eqb_empty_false in Hh, He; congruence.
    apply eqb_empty_false in Hph, Hpe.
    destruct (time_Parse (PrevKeyExpiry (Config conn))) as [expiry|] eqn:Hparse.
    2: { split; [discriminate|].
         intros [E | (_ & (e & _ & He & _) & _)]; [contradiction | discriminate]. }
    unfold Before. destruct (now <? expiry) eqn:Hlt.
    - apply Z.ltb_lt in Hlt.
      destruct (hash_matches H (PrevKeyHash (Config conn))) eqn:Hprev.
      + apply hash_matches_eq in Hprev. split; [|reflexivity].
        intros _. right. split; [exact Hph|]. split; [|exact Hprev].
        exists expiry. auto.
      + split; [discriminate|].
        intros [E | (_ & _ & E)]; [contradiction|].
        apply hash_matches_eq in E. congruence.
    - apply Z.ltb_ge in Hlt. split; [discriminate|].
      intros [E | (_ & (e & _ & He & Hnow) & _)]; [contradiction|].
      injection He as <-. lia. }
  split; [exact Hiff|].
  intros expiry Hne Hparse Hle.
  apply not_true_is_false. intros Hv.
  apply Hiff in Hv. destruct Hv as [E | (_ & (e & _ & He & Hnow) & _)].
  - contradiction.
  - rewrite Hparse in He. injection He as <-. lia.
Qed.

End CredentialVerifier.

(** ** Sample data for the concrete instances below *)

Module sample.
Import gateway.

(** A profile with one tool that answers with the name it was called by. *)
Definition echo : profiles.Profile :=
  profiles.mkProfile "echo"
    [profiles.mkTool "echo" "Echo the tool name" (json.JObject [])]
    (fun name _ _ => inl name).

Definition Registry : gmap string profiles.Profile := {[ "echo"%string := echo ]}.

(** SHA-256 of the pepper "pepper" followed by the key "secret". *)
Definition secret_hash : string :=
  Eval vm_compute in computed_hash "pepper" "secret".

Definition config (env : gmap string string) (limit : Z) : ConnectionConfig :=
  mkConnectionConfig "conn-1" "demo" "demo.example.com" "echo" secret_hash
    "" "" true env limit 0 "2025-01-01T00:00:00Z".

Definition conn (reqs : list Time) (n : Z) : Connection :=
  mkConnection (config ∅ 3) (mcp.NewHandler echo ∅) reqs n.

(** A stand-in for [t.Format(time.RFC3339)] on the sample instants: the
    whole seconds of the instant, in decimal. *)
Definition time_Format (t : Time) : string := server.fmt_d (t / 1000000000).

End sample.

(** ** The session counter *)

Section SessionCounter.
Import gateway.

Inductive SessionCall : Type := Increment | Decrement.

Definition call (c : Connection) (op : SessionCall) : Connection :=
  match op with
  | Increment => IncrementSessions c
  | Decrement => DecrementSessions c
  end.

(** A sequence of calls on one connection, one after the other. *)
Definition calls (ops : list SessionCall) (c : Connection) : Connection :=
  fold_left call ops c.

(** No [IncrementSessions] of the sequence finds the counter at the
    largest int32. *)
Fixpoint never_at_max (ops : list SessionCall) (c : Connection) : Prop :=
  match ops with
  | [] => True
  | op :: rest =>
      (op = Increment -> sessions c < 2147483647) /\ never_at_max rest (call c op)
  end.

Lemma int32_id (x : Z) : - 2147483648 <= x <= 2147483647 -> int32 x = x.
Proof.
  intros Hx. unfold int32, wrap.
  change (2 ^ (32 - 1)) with 2147483648. change (2 ^ 32) with 4294967296.
  rewrite Z.mod_small; lia.
Qed.

Lemma sessions_Increment (c : Connection) :
  - 2147483648 <= sessions c < 2147483647 ->
  sessions (IncrementSessions c) = sessions c + 1.
Proof. intros H. unfold IncrementSessions. simpl. apply int32_id. lia. Qed.

Lemma sessions_Decrement (c : Connection) :
  0 <= sessions c <= 2147483647 ->
  sessions (DecrementSessions c) = Z.max 0 (sessions c - 1).
Proof.
  intros H. unfold DecrementSessions.
  destruct (sessions c >? 0) eqn:Hpos; simpl.
  - apply Z.gtb_lt in Hpos. rewrite int32_id; lia.
  - rewrite Z.gtb_ltb in Hpos. apply Z.ltb_ge in Hpos. lia.
Qed.

Lemma calls_in_range (ops : list SessionCall) (c : Connection) :
  0 <= sessions c <= 2147483647 ->
  never_at_max ops c ->
  0 <= sessions (calls ops c) <= 2147483647.
Proof.
  revert c. induction ops as [|op ops IH]; intros c Hc Hok; simpl in *.
  - exact Hc.
  - destruct Hok as [Hop Hrest]. apply IH; [|exact Hrest].
    destruct op; unfold call.
    + rewrite sessions_Increment; specialize (Hop eq_refl); lia.
    + rewrite sessions_Decrement; lia.
Qed.

Lemma never_at_max_take (k : nat) (ops : list SessionCall) (c : Connection) :
  never_at_max ops c -> never_at_max (take k ops) c.
Proof.
  revert k c. induction ops as [|op ops IH]; intros [|k] c H; simpl in *; auto.
  destruct H as [H1 H2]. split; auto.
Qed.

Lemma calls_Increment (n : nat) (c : Connection) :
  - 2147483648 <= sessions c ->
  sessions c + Z.of_nat n <= 2147483647 ->
  sessions (calls (repeat Increment n) c) = sessions c + Z.of_nat n.
Proof.
  revert c. induction n as [|n IH]; intros c Hlo Hhi.
  - simpl. lia.
  - change (repeat Increment (S n)) with (Increment :: repeat Increment n).
    unfold calls. simpl fold_left. fold (calls (repeat Increment n) (IncrementSessions c)).
    rewrite IH; rewrite sessions_Increment; lia.
Qed.

(** C10, as stated, fails: on a fresh connection (counter 0) the
    sequence of 2^31 calls of [IncrementSessions] leaves the int32 counter
    at -2^31. *)
Lemma C10_counter_wraps_negative :
  sessions (sample.conn [] 0) = 0 /\
  sessions (calls (repeat Increment (Z.to_nat 2147483647) ++ [Increment])
              (sample.conn [] 0)) = - 2147483648.
Proof.
  split; [reflexivity|].
  assert (Hn : Z.of_nat (Z.to_nat 2147483647) = 2147483647)
    by (apply Z2Nat.id; lia).
  revert Hn. generalize (Z.to_nat 2147483647). intros n Hn.
  unfold calls. rewrite fold_left_app.
  fold (calls (repeat Increment n) (sample.conn [] 0)).
  change (sessions (IncrementSessions (calls (repeat Increment n) (sample.conn [] 0)))
          = - 2147483648).
  unfold IncrementSessions. cbn [sessions].
  rewrite calls_Increment; cbn [sessions sample.conn]; try lia.
  rewrite Hn. reflexivity.
Qed.

(** C10, amended. On a connection whose counter is a non-negative int32,
    after every prefix of a sequence of [IncrementSessions] and
    [DecrementSessions] calls in which no increment finds the counter at
    2^31-1, the counter is >= 0; and [DecrementSessions] applied at 0
    leaves it at 0. *)
Theorem C10_sessions_never_negative (ops : list SessionCall) (c : Connection) :
  0 <= sessions c <= 2147483647 ->
  never_at_max ops c ->
  (forall k : nat, 0 <= sessions (calls (take k ops) c)) /\
  (sessions c = 0 -> sessions (DecrementSessions c) = 0).
Proof.
  intros Hc Hok. split.
  - intros k.
    apply (calls_in_range (take k ops) c Hc (never_at_max_take k ops c Hok)).
  - intros H0. rewrite sessions_Decrement; lia.
Qed.

Lemma C10_sessions_never_negative_witness :
  let c := sample.conn [] 0 in
  let ops := [Decrement; Increment; Increment; Decrement; Decrement; Decrement] in
  (0 <= sessions c <= 2147483647) /\
  never_at_max ops c /\
  (forall k : nat, 0 <= sessions (calls (take k ops) c)) /\
  (sessions c = 0 -> sessions (DecrementSessions c) = 0).
Proof.
  assert (Hc : 0 <= sessions (sample.conn [] 0) <= 2147483647)
    by (simpl; lia).
  assert (Hok : never_at_max
                  [Decrement; Increment; Increment; Decrement; Decrement; Decrement]
                  (sample.conn [] 0))
    by (vm_compute; intuition).
  split; [exact Hc|]. split; [exact Hok|].
  exact (C10_sessions_never_negative _ _ Hc Hok).
Defined.

End SessionCounter.

(** ** The config-sync tick *)

Section ConfigSync.
Import gateway.

Variable Registry : gmap string profiles.Profile.

(** The tick applies a configuration exactly on status 200 with a body
    that decodes to [success = true]. *)
Lemma syncConfig_gateway (p : Poller) (g : Gateway) (r : SyncReply) :
  snd (syncConfig Registry p g r) =
  match r with
  | Reply 200 _ (ApiResp true data) => ApplyConfig Registry data g
  | _ => g
  end.
Proof.
  destruct r as [| |status tok body]; try reflexivity.
  unfold syncConfig.
  destruct (status =? 304) eqn:H304.
  { apply Z.eqb_eq in H304. subst. reflexivity. }
  destruct (status =? 200) eqn:H200.
  { apply Z.eqb_eq in H200. subst. destruct body as [| |[|] data]; reflexivity. }
  apply Z.eqb_neq in H200.
  assert (Hrest : forall b : SyncBody,
             match status with
             | 200 => match b with
                      | ApiResp true data => ApplyConfig Registry data g
                      | _ => g
                      end
             | _ => g
             end = g).
  { intros b. destruct status as [|q|q]; try reflexivity.
    repeat (destruct q as [q|q|]; try reflexivity). congruence. }
  rewrite Hrest.
  destruct ((status =? 401) || (status =? 403)); reflexivity.
Qed.

(** C6. A tick on which the control plane answers 401, 403, 304 or any
    other status outside 2xx, on which the transport fails, or on which a
    2xx body cannot be read or decoded or carries [success = false], leaves
    the gateway state (connection map, pepper, version and all the rest)
    as it was; a tick changes the state only by applying the configuration
    of a 2xx reply that decoded to [success = true]. *)
Theorem C6_failed_sync_keeps_config (p : Poller) (g : Gateway) (r : SyncReply) :
  ((r = TransportError \/ r = RequestError \/
    (exists status tok body,
        r = Reply status tok body /\
        (status = 401 \/ status = 403 \/ status = 304 \/
         ~ (200 <= status < 300) \/
         body = ReadFailed \/ body = Undecodable \/
         exists data, body = ApiResp false data))) ->
   snd (syncConfig Registry p g r) = g)
  /\
  (snd (syncConfig Registry p g r) = g \/
   exists status tok data,
     200 <= status < 300 /\
     r = Reply status tok (ApiResp true data) /\
     snd (syncConfig Registry p g r) = ApplyConfig Registry data g)
  /\
  (forall tok data,
      r = Reply 200 tok (ApiResp true data) ->
      snd (syncConfig Registry p g r) = ApplyConfig Registry data g).
Proof.
  rewrite syncConfig_gateway. split; [|split].
  - intros [-> | [-> | (status & tok & body & -> & Hcase)]]; try reflexivity.
    destruct Hcase as [-> | [-> | [-> | [Hout | [-> | [-> | [data ->]]]]]]];
      try reflexivity.
    + destruct status as [|q|q]; try reflexivity.
      repeat (destruct q as [q|q|]; try reflexivity). lia.
    + destruct status as [|q|q]; try reflexivity.
      repeat (destruct q as [q|q|]; try reflexivity).
    + destruct status as [|q|q]; try reflexivity.
      repeat (destruct q as [q|q|]; try reflexivity).
    + destruct status as [|q|q]; try reflexivity.
      repeat (destruct q as [q|q|]; try reflexivity).
  - destruct r as [| |status tok body]; auto.
    destruct status as [|q|q]; auto.
    repeat (destruct q as [q|q|]; auto).
    destruct body as [| |[|] data]; auto.
    right. exists 200, tok, data. repeat split; lia.
  - intros tok data ->. reflexivity.
Qed.

End ConfigSync.

(** ** The sliding-window rate limiter *)

Section RateLimiter.
Import gateway.

(** The compaction over the shared backing array keeps, in order, what a
    filter into a fresh slice would keep. *)
Lemma compact_spec (ws : Time) (rest : list Time) :
  forall (arr : list Time) (i w : nat),
    drop i arr = rest -> (w <= i)%nat ->
    let r := compact (length rest) ws i w arr in
    take (fst r) (snd r) = take w arr ++ List.filter (fun t => After t ws) rest.
Proof.
  induction rest as [|t rest IH]; intros arr i w Hdrop Hw; simpl.
  - rewrite app_nil_r. reflexivity.
  - assert (Hi : arr !! i = Some t).
    { rewrite <- (Nat.add_0_r i), <- lookup_drop, Hdrop. reflexivity. }
    assert (Hlen : (i < length arr)%nat) by (eapply lookup_lt_Some; exact Hi).
    assert (Hrest : drop (S i) arr = rest).
    { rewrite (drop_S arr t i Hi) in Hdrop. congruence. }
    rewrite Hi. destruct (After t ws) eqn:Hkeep.
    + rewrite IH.
      * rewrite (take_S_r _ w t).
        -- rewrite take_insert_ge by lia. rewrite <- app_assoc. reflexivity.
        -- apply list_lookup_insert_eq. lia.
      * rewrite drop_insert_lt by lia. exact Hrest.
      * lia.
    + apply IH; [exact Hrest | lia].
Qed.

Lemma keep_valid_filter (ws : Time) (reqs : list Time) :
  keep_valid ws reqs = List.filter (fun t => After t ws) reqs.
Proof.
  unfold keep_valid.
  exact (compact_spec ws reqs reqs 0 0 eq_refl (Nat.le_refl 0)).
Qed.

(** The ceiling in force: an unset or non-positive configured one is 60. *)
Definition ceiling (c : Connection) : Z :=
  if RateLimit (Config c) <=? 0 then 60 else RateLimit (Config c).

(** The window a decision at [now] counts: what lies after [now - 60s]. *)
Definition window (now : Time) (reqs : list Time) : list Time :=
  List.filter (fun t => now - Minute <? t) reqs.

Lemma CheckRateLimit_spec (c : Connection) (now : Time) :
  CheckRateLimit c now =
  if ceiling c <=? Z.of_nat (length (window now (requests c)))
  then (false, mkConnection (Config c) (Handler c) (window now (requests c)) (sessions c))
  else (true, mkConnection (Config c) (Handler c) (window now (requests c) ++ [now])
                (sessions c)).
Proof.
  unfold CheckRateLimit, effective_limit, ceiling, window.
  rewrite keep_valid_filter. unfold After.
  rewrite Z.geb_leb. reflexivity.
Qed.

(** Successive decisions on one connection, at the given times. *)
Fixpoint decisions (ts : list Time) (c : Connection) : list bool * Connection :=
  match ts with
  | [] => ([], c)
  | t :: rest =>
      let (ok, c1) := CheckRateLimit c t in
      let (oks, c2) := decisions rest c1 in
      (ok :: oks, c2)
  end.

(** All the times lie within one window of 60 seconds. *)
Definition one_window (ts : list Time) : Prop :=
  forall a b, In a ts -> In b ts -> a - b < Minute.

Lemma window_all (now : Time) (l : list Time) :
  (forall a, In a l -> now - Minute < a) -> window now l = l.
Proof.
  unfold window. induction l as [|a l IH]; intros H; simpl; [reflexivity|].
  assert (Ha : (now - Minute <? a) = true) by (apply Z.ltb_lt; apply H; left; reflexivity).
  rewrite Ha. f_equal. apply IH. intros b Hb. apply H. right. exact Hb.
Qed.

Lemma window_app (now : Time) (l1 l2 : list Time) :
  window now (l1 ++ l2) = window now l1 ++ window now l2.
Proof. unfold window. apply List.filter_app. Qed.

Lemma ceiling_CheckRateLimit (c : Connection) (t : Time) :
  ceiling (snd (CheckRateLimit c t)) = ceiling c.
Proof.
  rewrite CheckRateLimit_spec.
  destruct (ceiling c <=? Z.of_nat (length (window t (requests c)))); reflexivity.
Qed.

(** Admitted requests of one window stay in the window list. *)
Lemma admitted_stay (ts : list Time) :
  forall (c : Connection) (R acc : list Time),
    requests c = R ++ acc ->
    (forall a b, In a (acc ++ ts) -> In b ts -> b - a < Minute) ->
    fst (decisions ts c) = repeat true (length ts) ->
    (exists R', requests (snd (decisions ts c)) = R' ++ acc ++ ts) /\
    ceiling (snd (decisions ts c)) = ceiling c.
Proof.
  induction ts as [|t ts IH]; intros c R acc Hreq Hwin Hall; simpl in *.
  - split; [|reflexivity]. exists R. rewrite app_nil_r. exact Hreq.
  - pose proof (ceiling_CheckRateLimit c t) as Hceil.
    rewrite CheckRateLimit_spec in *.
    destruct (ceiling c <=? Z.of_nat (length (window t (requests c)))) eqn:Hfull.
    + destruct (decisions ts _) as [oks c2]. simpl in Hall. discriminate.
    + simpl in Hceil.
      set (c1 := mkConnection (Config c) (Handler c)
                   (window t (requests c) ++ [t]) (sessions c)) in *.
      destruct (decisions ts c1) as [oks c2] eqn:Hrun. simpl in Hall.
      injection Hall as Hall.
      assert (Hacc : window t acc = acc).
      { apply window_all. intros a Ha.
        assert (t - a < Minute); [|lia].
        apply Hwin; [apply in_or_app; left; exact Ha | left; reflexivity]. }
      destruct (IH c1 (window t R) (acc ++ [t])) as [[R' HR'] Hc'].
      * unfold c1. simpl. rewrite Hreq, window_app, Hacc, app_assoc. reflexivity.
      * intros a b Ha Hb. apply Hwin; [|right; exact Hb].
        rewrite <- app_assoc in Ha. exact Ha.
      * rewrite Hrun. exact Hall.
      * rewrite Hrun in HR', Hc'. simpl in *. split; [|congruence].
        exists R'. rewrite HR', <- app_assoc. reflexivity.
Qed.

(** From an empty window, requests of one window are admitted as long as
    the ceiling is not reached. *)
Lemma admitted_below_ceiling (ts : list Time) :
  forall (c : Connection) (acc : list Time),
    requests c = acc ->
    (forall a b, In a (acc ++ ts) -> In b ts -> b - a < Minute) ->
    Z.of_nat (length (acc ++ ts)) <= ceiling c ->
    fst (decisions ts c) = repeat true (length ts).
Proof.
  induction ts as [|t ts IH]; intros c acc Hreq Hwin Hlen; simpl in *; [reflexivity|].
  rewrite CheckRateLimit_spec.
  assert (Hacc : window t acc = acc).
  { apply window_all. intros a Ha.
    assert (t - a < Minute); [|lia].
    apply Hwin; [apply in_or_app; left; exact Ha | left; reflexivity]. }
  rewrite Hreq, Hacc.
  rewrite length_app in Hlen. simpl in Hlen.
  destruct (ceiling c <=? Z.of_nat (length acc)) eqn:Hfull.
  { apply Z.leb_le in Hfull. lia. }
  set (c1 := mkConnection (Config c) (Handler c) (acc ++ [t]) (sessions c)).
  specialize (IH c1 (acc ++ [t]) eq_refl).
  destruct (decisions ts c1) as [oks c2]. simpl in *. f_equal.
  apply IH.
  - intros a b Ha Hb. apply Hwin; [|right; exact Hb].
    rewrite <- app_assoc in Ha. exact Ha.
  - rewrite length_app, length_app. simpl.
    change (ceiling c1) with (ceiling c). lia.
Qed.

(** C2. A decision of [CheckRateLimit] at [now] keeps of the window exactly
    the timestamps after [now - 60s] (those at or before it are removed),
    rejects if and only if the number kept is >= the ceiling, where a
    configured ceiling <= 0 (or unset) counts as 60, and otherwise appends
    [now] and admits. Consequently, with ceiling N: once N requests of one
    60-second window were admitted, the next request of that window is
    rejected; and on an empty window the first N requests of a 60-second
    window are admitted and the (N+1)th is rejected. *)
Theorem C2_CheckRateLimit_sliding_window (c : Connection) (now : Time) :
  let kept := List.filter (fun t => now - Minute <? t) (requests c) in
  let N := if RateLimit (Config c) <=? 0 then 60 else RateLimit (Config c) in
  let ok := fst (CheckRateLimit c now) in
  let c' := snd (CheckRateLimit c now) in
  (forall t, In t kept <-> In t (requests c) /\ ~ t <= now - Minute) /\
  (ok = false <-> N <= Z.of_nat (length kept)) /\
  requests c' = (if ok then kept ++ [now] else kept) /\
  Config c' = Config c /\ Handler c' = Handler c /\ sessions c' = sessions c /\
  (forall ts : list Time,
      Z.of_nat (length ts) = N ->
      one_window (ts ++ [now]) ->
      (fst (decisions ts c) = repeat true (length ts) ->
       fst (CheckRateLimit (snd (decisions ts c)) now) = false) /\
      (requests c = [] ->
       fst (decisions (ts ++ [now]) c) = repeat true (length ts) ++ [false])).
Proof.
  intros kept N ok c'. subst kept N ok c'.
  assert (Hlast : forall ts : list Time,
             Z.of_nat (length ts) = ceiling c ->
             one_window (ts ++ [now]) ->
             fst (decisions ts c) = repeat true (length ts) ->
             fst (CheckRateLimit (snd (decisions ts c)) now) = false).
  { intros ts Hlen Hwin Hall.
    destruct (admitted_stay ts c (requests c) [] (eq_sym (app_nil_r _)))
      as [[R' HR'] Hceil]; [|exact Hall|].
    { intros a b Ha Hb. simpl in Ha.
      apply Hwin; apply in_or_app; left; assumption. }
    rewrite CheckRateLimit_spec, Hceil, HR'. simpl.
    rewrite window_app, (window_all now ts).
    - rewrite length_app.
      destruct (ceiling c <=? _) eqn:Hfull; [reflexivity|].
      apply Z.leb_gt in Hfull. lia.
    - intros a Ha. assert (now - a < Minute); [|lia].
      apply Hwin; apply in_or_app; [right; left; reflexivity | left; exact Ha]. }
  rewrite CheckRateLimit_spec.
  fold (ceiling c). fold (window now (requests c)).
  split; [|split; [|split; [|split; [|split; [|split]]]]].
  - intros t. unfold window. rewrite List.filter_In, Z.ltb_lt. intuition lia.
  - destruct (ceiling c <=? Z.of_nat (length (window now (requests c)))) eqn:Hfull;
      cbn [fst].
    + apply Z.leb_le in Hfull. tauto.
    + apply Z.leb_gt in Hfull. split; [discriminate | lia].
  - destruct (ceiling c <=? Z.of_nat (length (window now (requests c)))); reflexivity.
  - destruct (ceiling c <=? Z.of_nat (length (window now (requests c)))); reflexivity.
  - destruct (ceiling c <=? Z.of_nat (length (window now (requests c)))); reflexivity.
  - destruct (ceiling c <=? Z.of_nat (length (window now (requests c)))); reflexivity.
  - intros ts Hlen Hwin. split; [apply Hlast; assumption|].
    intros Hempty.
    assert (Hall : fst (decisions ts c) = repeat true (length ts)).
    { apply (admitted_below_ceiling ts c [] Hempty).
      - intros a b Ha Hb. simpl in Ha.
        apply Hwin; apply in_or_app; left; assumption.
      - simpl. lia. }
    specialize (Hlast ts Hlen Hwin Hall).
    clear Hlen Hwin Hempty. revert Hall Hlast. generalize c.
    induction ts as [|t ts IHts]; intros c0 Hall Hlast; simpl in *.
    + destruct (CheckRateLimit c0 now) as [ok c1]. simpl in *. congruence.
    + destruct (CheckRateLimit c0 t) as [ok c1].
      destruct (decisions ts c1) as [oks c2] eqn:Hrun. simpl in *.
      injection Hall as -> Hall.
      specialize (IHts c1). rewrite Hrun in IHts. simpl in IHts.
      destruct (decisions (ts ++ [now]) c1) as [oks' c3]. simpl in *.
      f_equal. apply IHts; assumption.
Qed.

(** Scenario S3: ceiling 3, four requests one second apart on a fresh
    tenant; three are admitted and the fourth is rejected. *)
Example rate_limit_ceiling_3 :
  fst (decisions [1000000000; 2000000000; 3000000000; 4000000000] (sample.conn [] 0))
  = [true; true; true; false].
Proof. vm_compute. reflexivity. Qed.

End RateLimiter.

(** ** Applying a configuration *)

Section ApplyingConfig.
Import gateway.

Variable Registry : gmap string profiles.Profile.

(** *** What the loop never touches *)

Lemma ensure_metrics_keeps (id id' : string) (m : Metrics) (ms : gmap string Metrics) :
  ms !! id' = Some m -> ensure_metrics id ms !! id' = Some m.
Proof.
  intros H. unfold ensure_metrics.
  destruct (ms !! id) eqn:Hid; [exact H|].
  rewrite lookup_insert_ne; [exact H|]. intros ->. congruence.
Qed.

Lemma apply_one_metrics (old : gmap string loc) (st : applying)
    (cc : ConnectionConfig) (id : string) (m : Metrics) :
  a_metrics st !! id = Some m ->
  a_metrics (apply_one Registry old st cc) !! id = Some m.
Proof.
  intros H. unfold apply_one.
  destruct (negb (Enabled cc)); [exact H|].
  destruct (existing_at old (a_heap st) (Domain cc)) as [[l e]|].
  - destruct (String.eqb (Profile (Config e)) (Profile cc)).
    + simpl. apply ensure_metrics_keeps, H.
    + destruct (profiles.Get Registry (Profile cc)); [|exact H].
      simpl. apply ensure_metrics_keeps, H.
  - destruct (profiles.Get Registry (Profile cc)); [|exact H].
    simpl. apply ensure_metrics_keeps, H.
Qed.

(** The live state of a connection object, with the profile it is bound
    to. *)
Definition live (c : Connection) : list Time * Z * profiles.Profile * string :=
  (requests c, sessions c, mcp.profile (Handler c), Profile (Config c)).

Lemma existing_at_Some (old : gmap string loc) (h : gmap loc Connection)
    (d : string) (l : loc) (e : Connection) :
  existing_at old h d = Some (l, e) <-> old !! d = Some l /\ h !! l = Some e.
Proof.
  unfold existing_at. destruct (old !! d) as [l'|]; [|intuition congruence].
  destruct (h !! l') as [e'|] eqn:He; split.
  - intros [= <- <-]. auto.
  - intros [[= <-] He']. congruence.
  - discriminate.
  - intros [[= <-] He']. congruence.
Qed.

Lemma fresh_not_allocated (h : gmap loc Connection) (l : loc) (c : Connection) :
  h !! l = Some c -> fresh (dom h) <> l.
Proof.
  intros H E. apply (is_fresh (dom h)). rewrite E.
  apply elem_of_dom. eauto.
Qed.

Lemma apply_one_frame (old : gmap string loc) (st : applying)
    (cc : ConnectionConfig) (l : loc) (c : Connection) :
  a_heap st !! l = Some c ->
  exists c', a_heap (apply_one Registry old st cc) !! l = Some c' /\ live c' = live c.
Proof.
  intros H. unfold apply_one.
  destruct (negb (Enabled cc)); [eauto|].
  assert (Hcreate :
    exists c', a_heap
      match profiles.Get Registry (Profile cc) with
      | Some p =>
          mkApplying (<[Domain cc := fresh (dom (a_heap st))]> (newConns st))
            (<[fresh (dom (a_heap st)) :=
                 mkConnection cc (mcp.NewHandler p (EnvVars cc)) [] 0]> (a_heap st))
            (ensure_metrics (ID cc) (a_metrics st))
      | None => st
      end !! l = Some c' /\ live c' = live c).
  { destruct (profiles.Get Registry (Profile cc)); [|eauto].
    simpl. exists c. split; [|reflexivity].
    rewrite lookup_insert_ne; [exact H|]. eapply fresh_not_allocated, H. }
  destruct (existing_at old (a_heap st) (Domain cc)) as [[l' e]|] eqn:Hex;
    [|exact Hcreate].
  destruct (String.eqb_spec (Profile (Config e)) (Profile cc)) as [Hp|Hp];
    [|exact Hcreate].
  apply existing_at_Some in Hex. destruct Hex as [_ He].
  simpl. destruct (decide (l' = l)) as [->|Hne].
  - rewrite lookup_insert_eq. eexists. split; [reflexivity|].
    assert (e = c) by congruence. subst e.
    unfold live. simpl. rewrite Hp. reflexivity.
  - rewrite lookup_insert_ne by exact Hne. eauto.
Qed.

Lemma fold_frame (old : gmap string loc) (ccs : list ConnectionConfig) :
  forall (st : applying) (l : loc) (c : Connection),
    a_heap st !! l = Some c ->
    exists c', a_heap (fold_left (apply_one Registry old) ccs st) !! l = Some c' /\
               live c' = live c.
Proof.
  induction ccs as [|cc ccs IH]; intros st l c H; simpl; [eauto|].
  destruct (apply_one_frame old st cc l c H) as (c1 & H1 & Hl1).
  destruct (IH _ l c1 H1) as (c2 & H2 & Hl2).
  exists c2. split; [exact H2 | congruence].
Qed.

Lemma fold_metrics (old : gmap string loc) (ccs : list ConnectionConfig) :
  forall (st : applying) (id : string) (m : Metrics),
    a_metrics st !! id = Some m ->
    a_metrics (fold_left (apply_one Registry old) ccs st) !! id = Some m.
Proof.
  induction ccs as [|cc ccs IH]; intros st id m H; simpl; [exact H|].
  apply IH, apply_one_metrics, H.
Qed.

(** *** The tenant that is kept *)

Section Kept.

Variables (old : gmap string loc) (d : string) (l : loc) (c : Connection)
          (cc : ConnectionConfig).

Hypothesis Hold : old !! d = Some l.
Hypothesis Hone : forall d', old !! d' = Some l -> d' = d.
Hypothesis Hprofile : Profile cc = Profile (Config c).

(** The object after the entry [cc] was applied to it. *)
Definition refreshed : Connection :=
  mkConnection cc (mcp.UpdateEnvVars (Handler c) (EnvVars cc)) (requests c) (sessions c).

(** The loop invariant; [seen] tells whether the entry of the domain was
    met already. *)
Definition kept_inv (st : applying) (seen : bool) : Prop :=
  a_heap st !! l = Some (if seen then refreshed else c) /\
  newConns st !! d = (if seen then Some l else None).

Definition is_entry (x : ConnectionConfig) : bool :=
  Enabled x && String.eqb (Domain x) d.

Lemma apply_one_kept (st : applying) (seen : bool) (x : ConnectionConfig) :
  (is_entry x = true -> x = cc) ->
  kept_inv st seen ->
  kept_inv (apply_one Registry old st x) (seen || is_entry x).
Proof.
  intros Hx [Hheap Hnew]. unfold apply_one, is_entry in *.
  destruct (Enabled x) eqn:Hen; simpl.
  2: { rewrite orb_false_r. split; assumption. }
  destruct (String.eqb_spec (Domain x) d) as [Hd|Hd].
  - (* the entry of the domain: the object is reused *)
    specialize (Hx eq_refl). subst x. rewrite orb_true_r.
    assert (Hex : existing_at old (a_heap st) (Domain cc)
                  = Some (l, if seen then refreshed else c)).
    { apply existing_at_Some. rewrite Hd. auto. }
    rewrite Hex.
    assert (Hsame : String.eqb (Profile (Config (if seen then refreshed else c)))
                      (Profile cc) = true).
    { apply String.eqb_eq. destruct seen; simpl; congruence. }
    rewrite Hsame. split; simpl.
    + rewrite lookup_insert_eq. f_equal. destruct seen; reflexivity.
    + rewrite Hd, lookup_insert_eq. reflexivity.
  - (* an entry of another domain leaves [l] and [d] alone *)
    rewrite orb_false_r.
    assert (Hcreate :
      kept_inv
        match profiles.Get Registry (Profile x) with
        | Some p =>
            mkApplying (<[Domain x := fresh (dom (a_heap st))]> (newConns st))
              (<[fresh (dom (a_heap st)) :=
                   mkConnection x (mcp.NewHandler p (EnvVars x)) [] 0]> (a_heap st))
              (ensure_metrics (ID x) (a_metrics st))
        | None => st
        end seen).
    { destruct (profiles.Get Registry (Profile x)); [|split; assumption].
      split; simpl.
      - rewrite lookup_insert_ne; [exact Hheap|].
        eapply fresh_not_allocated, Hheap.
      - rewrite lookup_insert_ne; [exact Hnew | exact Hd]. }
    destruct (existing_at old (a_heap st) (Domain x)) as [[l' e]|] eqn:Hex;
      [|exact Hcreate].
    destruct (String.eqb (Profile (Config e)) (Profile x)); [|exact Hcreate].
    apply existing_at_Some in Hex. destruct Hex as [Hl' _].
    assert (Hne : l' <> l).
    { intros ->. apply Hd. apply Hone. exact Hl'. }
    split; simpl.
    + rewrite lookup_insert_ne; [exact Hheap | exact Hne].
    + rewrite lookup_insert_ne; [exact Hnew | exact Hd].
Qed.

Lemma fold_kept (ccs : list ConnectionConfig) :
  forall (st : applying) (seen : bool),
    (forall x, In x ccs -> is_entry x = true -> x = cc) ->
    kept_inv st seen ->
    kept_inv (fold_left (apply_one Registry old) ccs st)
             (seen || existsb is_entry ccs).
Proof.
  induction ccs as [|x ccs IH]; intros st seen Huniq Hinv; simpl.
  - rewrite orb_false_r. exact Hinv.
  - rewrite orb_assoc. apply IH.
    + intros y Hy. apply Huniq. right. exact Hy.
    + apply apply_one_kept; [|exact Hinv]. apply Huniq. left. reflexivity.
Qed.

End Kept.

(** C5, amended. Let a tenant be registered for domain [d], as the object
    [c] at [l]. Whatever configuration is applied, the object keeps its rate
    window, its session counter and its bound profile, and every metrics
    entry present before holds the same values after. If moreover the
    object is registered under [d] alone and the configuration has exactly
    one enabled entry for [d], an entry [cc] with the profile selector of
    the tenant, the registry maps [d] to the same object after the apply,
    and the object differs from before only in its configuration record,
    now [cc], and in the environment snapshot of its handler, now
    [EnvVars cc]. *)
Theorem C5_ApplyConfig_preserves_live_state
    (cfg : GatewayConfig) (g : Gateway) (d : string) (l : loc) (c : Connection) :
  connections g !! d = Some l ->
  heap g !! l = Some c ->
  let g' := ApplyConfig Registry cfg g in
  (exists c', heap g' !! l = Some c' /\
              requests c' = requests c /\ sessions c' = sessions c /\
              mcp.profile (Handler c') = mcp.profile (Handler c)) /\
  (forall id m, metrics g !! id = Some m -> metrics g' !! id = Some m) /\
  (forall cc,
      (forall d', connections g !! d' = Some l -> d' = d) ->
      In cc (Connections cfg) ->
      Enabled cc = true -> Domain cc = d -> Profile cc = Profile (Config c) ->
      (forall x, In x (Connections cfg) ->
                 Enabled x = true -> Domain x = d -> x = cc) ->
      connections g' !! d = Some l /\
      heap g' !! l =
        Some (mkConnection cc (mcp.mkHandler (mcp.profile (Handler c)) (EnvVars cc))
                (requests c) (sessions c))).
Proof.
  intros Hd Hl g'. subst g'. unfold ApplyConfig. simpl.
  split; [|split].
  - destruct (fold_frame (connections g) (Connections cfg)
                (mkApplying ∅ (heap g) (metrics g)) l c Hl) as (c' & Hc' & Hlive).
    exists c'. unfold live in Hlive. split; [exact Hc'|].
    injection Hlive as H1 H2 H3 H4. auto.
  - intros id m Hm. apply fold_metrics. exact Hm.
  - intros cc Hone Hin Hen Hdom Hprof Huniq.
    pose proof (fold_kept (connections g) d l c cc Hd Hone Hprof
                  (Connections cfg) (mkApplying ∅ (heap g) (metrics g)) false) as Hk.
    assert (Hseen : existsb (is_entry d) (Connections cfg) = true).
    { apply existsb_exists. exists cc. split; [exact Hin|].
      unfold is_entry. rewrite Hen, Hdom, String.eqb_refl. reflexivity. }
    simpl in Hk. rewrite Hseen in Hk.
    destruct Hk as [Hheap Hnew].
    + intros x Hx Hentry. unfold is_entry in Hentry.
      apply andb_prop in Hentry. destruct Hentry as [He Hdx].
      apply String.eqb_eq in Hdx. apply Huniq; assumption.
    + split; [exact Hl | apply lookup_empty].
    + split; [exact Hnew | exact Hheap].
Qed.

End ApplyingConfig.

Section ApplyConfigInstances.
Import gateway.

(** A gateway serving the sample tenant, with two requests in its window
    and one active session. *)
Definition serving : Gateway :=
  mkGateway {[ "demo.example.com"%string := 1%positive ]} "pepper" 1 "gw" "srv"
    {[ "conn-1"%string := mkMetrics 2 0 0 [3; 4] 0 (Some 2000000000) ]}
    {[ 1%positive := sample.conn [1000000000; 2000000000] 1 ]}.

(** The next configuration: the same tenant, with a changed environment. *)
Definition next_config : GatewayConfig :=
  mkGatewayConfig "srv" "gw" "pepper"
    [sample.config {[ "TZ"%string := "UTC"%string ]} 3] 2.

Lemma C5_ApplyConfig_preserves_live_state_witness :
  let d := "demo.example.com"%string in
  let c := sample.conn [1000000000; 2000000000] 1 in
  let g' := ApplyConfig sample.Registry next_config serving in
  connections serving !! d = Some 1%positive /\
  heap serving !! 1%positive = Some c /\
  (exists c', heap g' !! 1%positive = Some c' /\
              requests c' = requests c /\ sessions c' = sessions c /\
              mcp.profile (Handler c') = mcp.profile (Handler c)) /\
  (forall id m, metrics serving !! id = Some m -> metrics g' !! id = Some m) /\
  (forall cc,
      (forall d', connections serving !! d' = Some 1%positive -> d' = d) ->
      In cc (Connections next_config) ->
      Enabled cc = true -> Domain cc = d -> Profile cc = Profile (Config c) ->
      (forall x, In x (Connections next_config) ->
                 Enabled x = true -> Domain x = d -> x = cc) ->
      connections g' !! d = Some 1%positive /\
      heap g' !! 1%positive =
        Some (mkConnection cc (mcp.mkHandler (mcp.profile (Handler c)) (EnvVars cc))
                (requests c) (sessions c))).
Proof.
  assert (Hd : connections serving !! "demo.example.com"%string = Some 1%positive)
    by reflexivity.
  assert (Hl : heap serving !! 1%positive
               = Some (sample.conn [1000000000; 2000000000] 1))
    by reflexivity.
  split; [exact Hd|]. split; [exact Hl|].
  exact (C5_ApplyConfig_preserves_live_state sample.Registry next_config serving
           "demo.example.com" 1%positive _ Hd Hl).
Defined.

(** Scenario S5: after the apply, the registry still maps the domain to
    the object at 1, whose window holds the two earlier requests and whose
    handler sees the new environment; a third request is admitted. *)
Example config_swap_preserves_state :
  let g' := ApplyConfig sample.Registry next_config serving in
  connections g' !! "demo.example.com"%string = Some 1%positive /\
  (requests <$> heap g' !! 1%positive) = Some [1000000000; 2000000000] /\
  (sessions <$> heap g' !! 1%positive) = Some 1 /\
  ((fun c => mcp.envVars (Handler c) !! "TZ"%string) <$> heap g' !! 1%positive)
    = Some (Some "UTC"%string) /\
  ((fun c => fst (CheckRateLimit c 3000000000)) <$> heap g' !! 1%positive) = Some true /\
  version g' = 2.
Proof. vm_compute. repeat split; reflexivity. Qed.

(** The profile registry with the sample profile under a second name. *)
Definition two_names : gmap string profiles.Profile :=
  <[ "echo2"%string := sample.echo ]> sample.Registry.

(** The sample tenant moved to the profile named echo2. *)
Definition moved : ConnectionConfig :=
  mkConnectionConfig "conn-1" "demo" "demo.example.com" "echo2" sample.secret_hash
    "" "" true ∅ 3 0 "2025-01-01T00:00:00Z".

(** A configuration with two enabled entries for the domain of the sample
    tenant: the first with the profile the tenant runs, the second with
    the profile named echo2. *)
Definition two_entries : GatewayConfig :=
  mkGatewayConfig "srv" "gw" "pepper" [sample.config ∅ 3; moved] 2.

(** C5, as stated, fails: the sample tenant is registered for its domain
    and the configuration has an enabled entry for that domain with the
    profile selector of the tenant, yet after the apply the domain is
    served by a newly allocated object whose rate window is empty and
    whose session counter is zero, where the tenant had two requests in
    its window and one session. The second enabled entry for the domain,
    with another profile, takes the domain over. *)
Lemma C5_second_entry_takes_the_domain :
  let d := "demo.example.com"%string in
  let c := sample.conn [1000000000; 2000000000] 1 in
  let g' := ApplyConfig two_names two_entries serving in
  connections serving !! d = Some 1%positive /\
  heap serving !! 1%positive = Some c /\
  (exists cc, In cc (Connections two_entries) /\ Enabled cc = true /\
              Domain cc = d /\ Profile cc = Profile (Config c)) /\
  requests c = [1000000000; 2000000000] /\ sessions c = 1 /\
  connections g' !! d = Some 2%positive /\
  heap g' !! 2%positive
  = Some (mkConnection moved (mcp.NewHandler sample.echo ∅) [] 0).
Proof.
  split; [reflexivity|]. split; [reflexivity|].
  split; [exists (sample.config ∅ 3); repeat split; left; reflexivity|].
  vm_compute. repeat split; reflexivity.
Qed.

End ApplyConfigInstances.

(** *** The registry never maps two domains to one object *)

Section RegistryShape.
Import gateway.

Variable Registry : gmap string profiles.Profile.

(** Every pointer of the registry is allocated, and no two domains share
    an object. *)
Definition well_formed (g : Gateway) : Prop :=
  (forall d l, connections g !! d = Some l -> is_Some (heap g !! l)) /\
  (forall d1 d2 l,
      connections g !! d1 = Some l -> connections g !! d2 = Some l -> d1 = d2).

Record shape (old : gmap string loc) (h0 : gmap loc Connection) (st : applying)
  : Prop := mkShape {
  shape_grows : forall l, is_Some (h0 !! l) -> is_Some (a_heap st !! l);
  shape_allocated : forall d l, newConns st !! d = Some l -> is_Some (a_heap st !! l);
  shape_same_key : forall d1 d2 l,
      newConns st !! d1 = Some l -> old !! d2 = Some l -> d1 = d2;
  shape_injective : forall d1 d2 l,
      newConns st !! d1 = Some l -> newConns st !! d2 = Some l -> d1 = d2
}.

Lemma fresh_not_is_Some (h : gmap loc Connection) :
  ~ is_Some (h !! fresh (dom h)).
Proof. intros H. apply (is_fresh (dom h)). apply elem_of_dom. exact H. Qed.

Lemma shape_put (old : gmap string loc) (h0 : gmap loc Connection) (st : applying)
    (d : string) (l : loc) (c : Connection) (ms : gmap string Metrics) :
  (forall d', old !! d' = Some l -> d' = d) ->
  (forall d', newConns st !! d' = Some l -> d' = d) ->
  shape old h0 st ->
  shape old h0 (mkApplying (<[d := l]> (newConns st)) (<[l := c]> (a_heap st)) ms).
Proof.
  intros Hold Hnew [G A K I]. constructor; simpl.
  - intros l' Hl'. destruct (decide (l = l')) as [->|Hne].
    + rewrite lookup_insert_eq. eauto.
    + rewrite lookup_insert_ne by exact Hne. apply G, Hl'.
  - intros d' l' Hd'. destruct (decide (l = l')) as [->|Hne].
    + rewrite lookup_insert_eq. eauto.
    + rewrite lookup_insert_ne by exact Hne.
      destruct (decide (d = d')) as [->|Hd].
      * rewrite lookup_insert_eq in Hd'. congruence.
      * rewrite lookup_insert_ne in Hd' by exact Hd. eapply A, Hd'.
  - intros d1 d2 l' H1 H2. destruct (decide (d = d1)) as [->|Hd].
    + rewrite lookup_insert_eq in H1. injection H1 as <-. symmetry. apply Hold, H2.
    + rewrite lookup_insert_ne in H1 by exact Hd. eapply K; eassumption.
  - intros d1 d2 l' H1 H2.
    destruct (decide (d1 = d)) as [E1|Hd1]; destruct (decide (d2 = d)) as [E2|Hd2];
      subst.
    + reflexivity.
    + rewrite lookup_insert_eq in H1. rewrite lookup_insert_ne in H2 by congruence.
      injection H1 as <-. symmetry. apply Hnew, H2.
    + rewrite lookup_insert_eq in H2. rewrite lookup_insert_ne in H1 by congruence.
      injection H2 as <-. apply Hnew, H1.
    + rewrite lookup_insert_ne in H1 by congruence.
      rewrite lookup_insert_ne in H2 by congruence.
      eapply I; eassumption.
Qed.

Lemma apply_one_shape (old : gmap string loc) (h0 : gmap loc Connection)
    (st : applying) (cc : ConnectionConfig) :
  (forall d l, old !! d = Some l -> is_Some (h0 !! l)) ->
  (forall d1 d2 l, old !! d1 = Some l -> old !! d2 = Some l -> d1 = d2) ->
  shape old h0 st -> shape old h0 (apply_one Registry old st cc).
Proof.
  intros Halloc Hinj Hs. unfold apply_one.
  destruct (negb (Enabled cc)); [exact Hs|].
  assert (Hcreate :
    shape old h0
      match profiles.Get Registry (Profile cc) with
      | Some p =>
          mkApplying (<[Domain cc := fresh (dom (a_heap st))]> (newConns st))
            (<[fresh (dom (a_heap st)) :=
                 mkConnection cc (mcp.NewHandler p (EnvVars cc)) [] 0]> (a_heap st))
            (ensure_metrics (ID cc) (a_metrics st))
      | None => st
      end).
  { destruct (profiles.Get Registry (Profile cc)); [|exact Hs].
    apply shape_put; [| |exact Hs].
    - intros d' Hd'. exfalso. apply (fresh_not_is_Some (a_heap st)).
      apply (shape_grows _ _ _ Hs). eapply Halloc, Hd'.
    - intros d' Hd'. exfalso. apply (fresh_not_is_Some (a_heap st)).
      eapply (shape_allocated _ _ _ Hs), Hd'. }
  destruct (existing_at old (a_heap st) (Domain cc)) as [[l e]|] eqn:Hex;
    [|exact Hcreate].
  destruct (String.eqb (Profile (Config e)) (Profile cc)); [|exact Hcreate].
  apply existing_at_Some in Hex. destruct Hex as [Hl _].
  apply shape_put; [| |exact Hs].
  - intros d' Hd'. eapply Hinj; eassumption.
  - intros d' Hd'. eapply (shape_same_key _ _ _ Hs); eassumption.
Qed.

Lemma well_formed_New : well_formed New.
Proof. split; simpl; intros *; rewrite lookup_empty; discriminate. Qed.

Lemma well_formed_ApplyConfig (cfg : GatewayConfig) (g : Gateway) :
  well_formed g -> well_formed (ApplyConfig Registry cfg g).
Proof.
  intros [Halloc Hinj]. unfold ApplyConfig.
  assert (Hs : shape (connections g) (heap g)
                 (fold_left (apply_one Registry (connections g)) (Connections cfg)
                    (mkApplying ∅ (heap g) (metrics g)))).
  { generalize (Connections cfg). intros ccs.
    assert (H0 : shape (connections g) (heap g) (mkApplying ∅ (heap g) (metrics g))).
    { constructor; simpl; auto; intros *; rewrite lookup_empty; discriminate. }
    revert H0. generalize (mkApplying ∅ (heap g) (metrics g)).
    induction ccs as [|cc ccs IH]; intros st Hst; simpl; [exact Hst|].
    apply IH, apply_one_shape; assumption. }
  split; simpl.
  - apply (shape_allocated _ _ _ Hs).
  - apply (shape_injective _ _ _ Hs).
Qed.

End RegistryShape.

(** ** The P95 latency of a metrics report *)

Section P95.
Import gateway.

(** *** The simple sort *)

Lemma put_back (s : list Z) (j : nat) (a b : Z) :
  s !! j = Some b -> b :: <[j := a]> s ≡ₚ a :: s.
Proof.
  revert j. induction s as [|x s IH]; intros [|j] H; simpl in *; try discriminate.
  - injection H as ->. apply perm_swap.
  - rewrite (perm_swap x b), (IH j H). apply perm_swap.
Qed.

Lemma swap_Permutation (s : list Z) (i j : nat) (a b : Z) :
  (i < j)%nat -> s !! i = Some a -> s !! j = Some b ->
  <[j := a]> (<[i := b]> s) ≡ₚ s.
Proof.
  revert i j. induction s as [|x s IH]; intros [|i] [|j] Hij Hi Hj; simpl in *;
    try discriminate; try lia.
  - injection Hi as ->. apply put_back. exact Hj.
  - constructor. apply IH; [lia | assumption | assumption].
Qed.

Lemma swap_if_greater_Permutation (s : list Z) (i j : nat) :
  (i < j)%nat -> swap_if_greater i j s ≡ₚ s.
Proof.
  intros Hij. unfold swap_if_greater.
  destruct (s !! i) as [a|] eqn:Hi; [|reflexivity].
  destruct (s !! j) as [b|] eqn:Hj; [|reflexivity].
  destruct (a >? b); [|reflexivity].
  apply swap_Permutation; assumption.
Qed.

Lemma swap_if_greater_length (s : list Z) (i j : nat) :
  length (swap_if_greater i j s) = length s.
Proof.
  unfold swap_if_greater.
  destruct (s !! i); [|reflexivity]. destruct (s !! j); [|reflexivity].
  destruct (_ >? _); [|reflexivity]. rewrite !length_insert. reflexivity.
Qed.

(** After the step, slot [i] holds the smaller and slot [j] the larger of
    the two values, and the other slots are as before. *)
Lemma swap_if_greater_lookup (s : list Z) (i j q : nat) (a b : Z) :
  (i < j)%nat -> s !! i = Some a -> s !! j = Some b ->
  swap_if_greater i j s !! q =
  if decide (q = i) then Some (Z.min a b)
  else if decide (q = j) then Some (Z.max a b)
  else s !! q.
Proof.
  intros Hij Hi Hj. unfold swap_if_greater. rewrite Hi, Hj.
  assert (Hli : (i < length s)%nat) by (eapply lookup_lt_Some; eassumption).
  assert (Hlj : (j < length s)%nat) by (eapply lookup_lt_Some; eassumption).
  destruct (a >? b) eqn:Hgt.
  - apply Z.gtb_lt in Hgt.
    destruct (decide (q = i)) as [->|Hqi]; [|destruct (decide (q = j)) as [->|Hqj]].
    + rewrite list_lookup_insert_ne by lia.
      rewrite list_lookup_insert_eq by lia. f_equal. lia.
    + rewrite list_lookup_insert_eq by (rewrite length_insert; lia). f_equal. lia.
    + rewrite !list_lookup_insert_ne by congruence. reflexivity.
  - rewrite Z.gtb_ltb in Hgt. apply Z.ltb_ge in Hgt.
    destruct (decide (q = i)) as [->|Hqi]; [|destruct (decide (q = j)) as [->|Hqj]].
    + rewrite Hi. f_equal. lia.
    + rewrite Hj. f_equal. lia.
    + reflexivity.
Qed.

(** The slots before [i] are settled: each holds a value that is at most
    every value to its right. *)
Definition settled (i : nat) (s : list Z) : Prop :=
  forall p q x y, (p < i)%nat -> (p < q)%nat ->
                  s !! p = Some x -> s !! q = Some y -> x <= y.

(** Slot [i] is at most every slot strictly between [i] and [j]. *)
Definition least_upto (i j : nat) (s : list Z) : Prop :=
  forall q x y, (i < q < j)%nat -> s !! i = Some x -> s !! q = Some y -> x <= y.

Lemma swap_if_greater_settled (s : list Z) (i j : nat) :
  (i < j < length s)%nat -> settled i s -> settled i (swap_if_greater i j s).
Proof.
  intros Hij Hs p q x y Hp Hpq Hx Hy.
  destruct (lookup_lt_is_Some_2 s i ltac:(lia)) as [a Ha].
  destruct (lookup_lt_is_Some_2 s j ltac:(lia)) as [b Hb].
  rewrite (swap_if_greater_lookup s i j p a b) in Hx by (lia || assumption).
  rewrite (swap_if_greater_lookup s i j q a b) in Hy by (lia || assumption).
  repeat case_decide; try lia.
  - injection Hy as <-.
    assert (x <= a) by (eapply (Hs p i); [lia | lia | eassumption | eassumption]).
    assert (x <= b) by (eapply (Hs p j); [lia | lia | eassumption | eassumption]).
    lia.
  - injection Hy as <-.
    assert (x <= a) by (eapply (Hs p i); [lia | lia | eassumption | eassumption]).
    assert (x <= b) by (eapply (Hs p j); [lia | lia | eassumption | eassumption]).
    lia.
  - eapply (Hs p q); eassumption.
Qed.

Lemma swap_if_greater_least (s : list Z) (i j : nat) :
  (i < j < length s)%nat -> least_upto i j s ->
  least_upto i (S j) (swap_if_greater i j s).
Proof.
  intros Hij Hs q x y Hq Hx Hy.
  destruct (lookup_lt_is_Some_2 s i ltac:(lia)) as [a Ha].
  destruct (lookup_lt_is_Some_2 s j ltac:(lia)) as [b Hb].
  rewrite (swap_if_greater_lookup s i j i a b) in Hx by (lia || assumption).
  rewrite (swap_if_greater_lookup s i j q a b) in Hy by (lia || assumption).
  repeat case_decide; try lia.
  - injection Hx as <-. injection Hy as <-. lia.
  - injection Hx as <-.
    assert (a <= y) by (eapply (Hs q); [lia | eassumption | eassumption]).
    lia.
Qed.

Lemma inner_loop_spec (k : nat) :
  forall (i j : nat) (s : list Z),
    (i < j)%nat -> (j + k = length s)%nat ->
    settled i s -> least_upto i j s ->
    length (inner_loop k i j s) = length s /\
    inner_loop k i j s ≡ₚ s /\
    settled i (inner_loop k i j s) /\
    least_upto i (length s) (inner_loop k i j s).
Proof.
  induction k as [|k IH]; intros i j s Hij Hlen Hset Hleast; simpl.
  - replace (length s) with j by lia. auto.
  - destruct (IH i (S j) (swap_if_greater i j s)) as (H1 & H2 & H3 & H4).
    + lia.
    + rewrite swap_if_greater_length. lia.
    + apply swap_if_greater_settled; [lia | exact Hset].
    + apply swap_if_greater_least; [lia | exact Hleast].
    + rewrite swap_if_greater_length in H1, H4.
      split; [exact H1|]. split; [|split; assumption].
      rewrite H2. apply swap_if_greater_Permutation. exact Hij.
Qed.

Lemma outer_loop_spec (k : nat) :
  forall (i : nat) (s : list Z),
    (i + k = length s)%nat -> settled i s ->
    outer_loop k i s ≡ₚ s /\
    settled (length s) (outer_loop k i s) /\
    length (outer_loop k i s) = length s.
Proof.
  induction k as [|k IH]; intros i s Hlen Hset; simpl.
  - replace (length s) with i by lia. auto.
  - destruct (inner_loop_spec (length s - S i) i (S i) s) as (H1 & H2 & H3 & H4).
    + lia.
    + lia.
    + exact Hset.
    + intros q x y Hq. lia.
    + destruct (IH (S i) (inner_loop (length s - S i) i (S i) s)) as (G1 & G2 & G3).
      * lia.
      * intros p q x y Hp Hpq Hx Hy.
        destruct (decide (p = i)) as [->|Hne].
        -- eapply (H4 q); [|eassumption|eassumption].
           split; [lia|]. rewrite <- H1. eapply lookup_lt_Some. exact Hy.
        -- eapply (H3 p q); [lia | lia | eassumption | eassumption].
      * rewrite H1 in G2, G3. split; [|split; assumption].
        rewrite G1. exact H2.
Qed.

Lemma settled_StronglySorted (s : list Z) :
  settled (length s) s -> StronglySorted Z.le s.
Proof.
  induction s as [|x s IH]; intros H; constructor.
  - apply IH. intros p q a b Hp Hpq Ha Hb.
    apply (H (S p) (S q) a b); simpl; (lia || assumption).
  - apply Forall_forall. intros y Hy.
    apply list_elem_of_lookup in Hy. destruct Hy as [q Hq].
    apply (H 0%nat (S q) x y); simpl; (lia || reflexivity || assumption).
Qed.

(** The simple sort returns the ascending sort of its input. *)
Lemma simple_sort_sorted (l : list Z) :
  StronglySorted Z.le (simple_sort l) /\ simple_sort l ≡ₚ l.
Proof.
  unfold simple_sort.
  destruct (outer_loop_spec (length l) 0 l) as (H1 & H2 & H3).
  - lia.
  - intros p q x y Hp. lia.
  - split; [|exact H1]. apply settled_StronglySorted. rewrite H3. exact H2.
Qed.

Lemma simple_sort_unique (l sorted : list Z) :
  sorted ≡ₚ l -> Sorted Z.le sorted -> simple_sort l = sorted.
Proof.
  intros Hperm Hsorted.
  destruct (simple_sort_sorted l) as [Hs Hp].
  apply (StronglySorted_unique Z.le); [exact Hs | |].
  - apply Sorted_StronglySorted; [|exact Hsorted]. intros x y z. apply Z.le_trans.
  - rewrite Hp, Hperm. reflexivity.
Qed.

(** *** The index *)

(** On the lengths a latency ring can have, the float64 product
    truncates to the floor of 0.95 n. *)
Lemma p95_index_table :
  forallb (fun n => p95_index (Z.of_nat n)
                    =? Z.min (95 * Z.of_nat n / 100) (Z.of_nat n - 1))
          (seq 1 100) = true.
Proof. vm_compute. reflexivity. Qed.

Lemma p95_index_floor (n : nat) :
  (1 <= n <= 100)%nat ->
  p95_index (Z.of_nat n) = Z.min (95 * Z.of_nat n / 100) (Z.of_nat n - 1).
Proof.
  intros Hn. pose proof p95_index_table as H.
  rewrite forallb_forall in H. apply Z.eqb_eq. apply H.
  apply in_seq. lia.
Qed.

(** *** The ring holds at most 100 samples *)

Definition ring_bounded (g : Gateway) : Prop :=
  forall id m, metrics g !! id = Some m -> (length (Latencies m) <= 100)%nat.

Lemma ring_bounded_New : ring_bounded New.
Proof. intros id m. simpl. rewrite lookup_empty. discriminate. Qed.

Lemma ring_bounded_RecordRequest (g : Gateway) (connID : string) (latencyMs : Z)
    (isError : bool) (now : Time) :
  ring_bounded g -> ring_bounded (RecordRequest g connID latencyMs isError now).
Proof.
  intros Hg id m. unfold RecordRequest. simpl.
  destruct (decide (connID = id)) as [->|Hne].
  - rewrite lookup_insert_eq. intros [= <-]. simpl.
    destruct (_ <? _)%nat eqn:Hlong.
    + rewrite length_drop. apply Nat.ltb_lt in Hlong. lia.
    + apply Nat.ltb_ge in Hlong. exact Hlong.
  - rewrite lookup_insert_ne by exact Hne. apply Hg.
Qed.

Lemma ring_bounded_RecordAuthFailure (g : Gateway) (connID : string) :
  ring_bounded g -> ring_bounded (RecordAuthFailure g connID).
Proof.
  intros Hg id m. unfold RecordAuthFailure. simpl.
  destruct (decide (connID = id)) as [->|Hne].
  - rewrite lookup_insert_eq. intros [= <-]. simpl.
    destruct (metrics g !! id) as [m0|] eqn:Hm; [eapply Hg, Hm | simpl; lia].
  - rewrite lookup_insert_ne by exact Hne. apply Hg.
Qed.

Lemma ring_bounded_Collect (time_Format : Time -> string) (g : Gateway) :
  ring_bounded g -> ring_bounded (snd (CollectAndResetMetrics time_Format g)).
Proof.
  intros Hg id m. simpl. rewrite lookup_fmap.
  destruct (metrics g !! id) as [m0|] eqn:Hm; simpl; [|discriminate].
  intros [= <-]. destruct (no_delta m0); [eapply Hg, Hm | simpl; lia].
Qed.

End P95.

Section MetricsCollection.
Import gateway.

Lemma p95_of_sorted (lat sorted : list Z) :
  (1 <= length lat <= 100)%nat ->
  sorted ≡ₚ lat -> Sorted Z.le sorted ->
  p95_of lat =
  nth (Z.to_nat (Z.min (95 * Z.of_nat (length lat) / 100) (Z.of_nat (length lat) - 1)))
      sorted 0.
Proof.
  intros Hlen Hperm Hsorted. unfold p95_of.
  destruct (0 <? length lat)%nat eqn:Hpos.
  2: { apply Nat.ltb_ge in Hpos. lia. }
  rewrite (simple_sort_unique lat sorted Hperm Hsorted).
  rewrite (Permutation_length Hperm).
  rewrite p95_index_floor by exact Hlen. reflexivity.
Qed.

(** C8. A collection reports, for each tenant with a non-zero delta
    counter, one record whose P95 latency is 0 when the latency ring is
    empty and otherwise the element at index floor(0.95 n), bounded above
    by n - 1, of the ascending sort of the tenant's n samples; the sort
    works on a copy, the ring itself being emptied only by the reset. [n]
    is at most 100, the capacity of the ring. *)
Theorem C8_P95_of_collected_metrics (time_Format : Time -> string) (g : Gateway)
    (connID : string) (m : Metrics) :
  metrics g !! connID = Some m ->
  (RequestCount m <> 0 \/ ErrorCount m <> 0 \/ AuthFailures m <> 0) ->
  (length (Latencies m) <= 100)%nat ->
  let n := Z.of_nat (length (Latencies m)) in
  exists r,
    In r (fst (CollectAndResetMetrics time_Format g)) /\
    ConnectionID r = connID /\
    (Latencies m = [] -> P95LatencyMs r = 0) /\
    (forall sorted,
        Latencies m <> [] ->
        sorted ≡ₚ Latencies m -> Sorted Z.le sorted ->
        P95LatencyMs r = nth (Z.to_nat (Z.min (95 * n / 100) (n - 1))) sorted 0) /\
    (Latencies <$> metrics (snd (CollectAndResetMetrics time_Format g)) !! connID)
      = Some [].
Proof.
  intros Hm Hdelta Hring n.
  assert (Hnz : no_delta m = false).
  { unfold no_delta. apply not_true_is_false. intros H.
    apply andb_prop in H. destruct H as [H H3]. apply andb_prop in H.
    destruct H as [H1 H2]. apply Z.eqb_eq in H1, H2, H3. tauto. }
  exists (report_of time_Format g connID m). split; [|split; [|split; [|split]]].
  - unfold CollectAndResetMetrics. cbn [fst].
    apply list_elem_of_In. apply list_elem_of_omap.
    exists (connID, m). split.
    + apply elem_of_map_to_list. exact Hm.
    + cbn [fst snd]. rewrite Hnz. reflexivity.
  - reflexivity.
  - intros Hempty. unfold report_of. cbn [P95LatencyMs]. rewrite Hempty. reflexivity.
  - intros sorted Hne Hperm Hsorted. unfold report_of. cbn [P95LatencyMs].
    apply p95_of_sorted; [|assumption|assumption].
    destruct (Latencies m); [congruence | simpl in *; lia].
  - unfold CollectAndResetMetrics. cbn [snd metrics].
    rewrite lookup_fmap, Hm. simpl. rewrite Hnz. reflexivity.
Qed.

(** A tenant with 20 samples, 20 down to 1 milliseconds, and one request
    counted. *)
Definition samples_20 : Metrics :=
  mkMetrics 1 0 0 [20;19;18;17;16;15;14;13;12;11;10;9;8;7;6;5;4;3;2;1] 0 None.

Definition measured : Gateway :=
  mkGateway ∅ "" 0 "" "" {[ "conn-1"%string := samples_20 ]} ∅.

Lemma C8_P95_of_collected_metrics_witness :
  let n := Z.of_nat (length (Latencies samples_20)) in
  metrics measured !! "conn-1"%string = Some samples_20 /\
  (RequestCount samples_20 <> 0 \/ ErrorCount samples_20 <> 0 \/
   AuthFailures samples_20 <> 0) /\
  (length (Latencies samples_20) <= 100)%nat /\
  exists r,
    In r (fst (CollectAndResetMetrics sample.time_Format measured)) /\
    ConnectionID r = "conn-1"%string /\
    (Latencies samples_20 = [] -> P95LatencyMs r = 0) /\
    (forall sorted,
        Latencies samples_20 <> [] ->
        sorted ≡ₚ Latencies samples_20 -> Sorted Z.le sorted ->
        P95LatencyMs r = nth (Z.to_nat (Z.min (95 * n / 100) (n - 1))) sorted 0) /\
    (Latencies <$> metrics (snd (CollectAndResetMetrics sample.time_Format measured))
                     !! "conn-1"%string)
      = Some [].
Proof.
  assert (H1 : metrics measured !! "conn-1"%string = Some samples_20)
    by reflexivity.
  assert (H2 : RequestCount samples_20 <> 0 \/ ErrorCount samples_20 <> 0 \/
               AuthFailures samples_20 <> 0)
    by (left; simpl; lia).
  assert (H3 : (length (Latencies samples_20) <= 100)%nat)
    by (simpl; lia).
  split; [exact H1|]. split; [exact H2|]. split; [exact H3|].
  exact (C8_P95_of_collected_metrics sample.time_Format measured "conn-1" samples_20 H1 H2 H3).
Defined.

(** The report of that tenant: sample 19 of the sorted 20, and the ring
    emptied. *)
Example collected_p95_of_20 :
  map P95LatencyMs (fst (CollectAndResetMetrics sample.time_Format measured)) = [20] /\
  (Latencies <$> metrics (snd (CollectAndResetMetrics sample.time_Format measured))
                   !! "conn-1"%string)
    = Some [].
Proof. vm_compute. split; reflexivity. Qed.

End MetricsCollection.

(** ** The initialize handshake *)

Section Initialize.
Import json mcp.

(** The params carry a protocol version the handler refuses: they are
    present, decode as [InitializeParams], and the version decoded is
    neither empty nor the supported one. *)
Definition refused_version (req : JSONRPCRequest) (v : string) : Prop :=
  Params req <> JNull /\
  exists params,
    unmarshal_InitializeParams (Params req) = Some params /\
    InitializeParams_ProtocolVersion params = v /\
    v <> ""%string /\ v <> ProtocolVersion.

Definition initialize_success (id : value) : JSONRPCResponse :=
  mkResponse "2.0" id
    (Some (OfInitialize
             (mkInitializeResult ProtocolVersion
                (mkCapabilities (Some (mkToolsCapability false)))
                (mkServerInfo "dublyo-mcp-gateway" "1.0.0"))))
    None.

Lemma handleInitialize_cases (req : JSONRPCRequest) :
  (exists v, refused_version req v /\
             Response_ID (handleInitialize req) = ID req /\
             Response_Result (handleInitialize req) = None /\
             (Code <$> Response_Error (handleInitialize req)) = Some InvalidParams) \/
  ((forall v, ~ refused_version req v) /\
   handleInitialize req = initialize_success (ID req)).
Proof.
  unfold handleInitialize, refused_version.
  destruct (Params req) as [| | | | |vs|kvs].
  1: { right. split; [|reflexivity]. intros v [Hnil _]. congruence. }
  all: match goal with
       | |- context [unmarshal_InitializeParams ?p] =>
           destruct (unmarshal_InitializeParams p) as [params|] eqn:Hdec
       end.
  all: try (right; split; [|reflexivity];
            intros v (_ & params' & Hd & _); congruence).
  all: destruct (String.eqb_spec (InitializeParams_ProtocolVersion params) "")
         as [He|He];
       destruct (String.eqb_spec (InitializeParams_ProtocolVersion params)
                   ProtocolVersion) as [Hv|Hv]; simpl.
  all: try (right; split; [|reflexivity];
            intros v (_ & params' & Hd & Hver & Hne & Hns);
            injection Hd as <-; congruence).
  all: left; exists (InitializeParams_ProtocolVersion params);
       split; [split; [discriminate | exists params; auto] | auto].
Qed.

(** C4, as stated, fails: the initialize frame of scenario S1 with the
    protocol version string "" carries a version string that does not
    match the supported one, and the reply is the success response. *)
Lemma C4_empty_version_is_accepted :
  let frame :=
    Parsed (JObject
      [("jsonrpc", JString "2.0"); ("id", JNumber 1%float);
       ("method", JString "initialize");
       ("params",
        JObject [("protocolVersion", JString "");
                 ("capabilities", JObject []);
                 ("clientInfo",
                  JObject [("name", JString "c"); ("version", JString "1")])])]%string) in
  ""%string <> ProtocolVersion /\
  HandleMessage (NewHandler sample.echo ∅) frame
  = Some (initialize_success (JNumber 1%float)).
Proof. split; [discriminate | vm_compute; reflexivity]. Qed.

(** C4, amended. For every frame that decodes as a JSON-RPC 2.0 request
    of method initialize: if its params are present, decode as initialize
    parameters and carry a non-empty protocol version string other than
    the supported one, the reply is the JSON-RPC error InvalidParams
    (-32602) with the id of the request and no result; otherwise the reply
    is the success response that echoes the id of the request and whose
    result carries the advertised protocol version, a capabilities object
    announcing tools, and a non-empty server name and version. *)
Theorem C4_initialize_reply (h : Handler) (raw : payload) (req : JSONRPCRequest) :
  unmarshal_request raw = Some req ->
  JSONRPC req = "2.0"%string ->
  Method req = "initialize"%string ->
  exists resp,
    HandleMessage h raw = Some resp /\
    Response_ID resp = ID req /\
    ((exists v, refused_version req v /\
                Response_Result resp = None /\
                (Code <$> Response_Error resp) = Some (-32602))
     \/
     ((forall v, ~ refused_version req v) /\
      Response_Error resp = None /\
      exists r, Response_Result resp = Some (OfInitialize r) /\
                InitializeResult_ProtocolVersion r = ProtocolVersion /\
                is_Some (Capabilities_Tools (InitializeResult_Capabilities r)) /\
                ServerInfo_Name (InitializeResult_ServerInfo r) <> ""%string /\
                ServerInfo_Version (InitializeResult_ServerInfo r) <> ""%string)).
Proof.
  intros Hdec Hver Hmethod.
  exists (handleInitialize req). split.
  - unfold HandleMessage. rewrite Hdec, Hver, Hmethod. reflexivity.
  - destruct (handleInitialize_cases req) as [(v & Hv & Hid & Hres & Herr) | [Hno Heq]].
    + split; [exact Hid|]. left. exists v. auto.
    + rewrite Heq. split; [reflexivity|]. right. split; [exact Hno|].
      split; [reflexivity|]. eexists. split; [reflexivity|].
      simpl. repeat split; try discriminate. eauto.
Qed.

(** The frame of scenario S1. *)
Definition initialize_frame (version : string) : payload :=
  Parsed (JObject
    [("jsonrpc", JString "2.0"); ("id", JNumber 1%float);
     ("method", JString "initialize");
     ("params",
      JObject [("protocolVersion", JString version);
               ("capabilities", JObject []);
               ("clientInfo",
                JObject [("name", JString "c"); ("version", JString "1")])])]%string).

Lemma C4_initialize_reply_witness :
  exists req,
    unmarshal_request (initialize_frame "2024-11-05") = Some req /\
    JSONRPC req = "2.0"%string /\
    Method req = "initialize"%string /\
    exists resp,
      HandleMessage (NewHandler sample.echo ∅) (initialize_frame "2024-11-05")
      = Some resp /\
      Response_ID resp = ID req /\
      ((exists v, refused_version req v /\
                  Response_Result resp = None /\
                  (Code <$> Response_Error resp) = Some (-32602))
       \/
       ((forall v, ~ refused_version req v) /\
        Response_Error resp = None /\
        exists r, Response_Result resp = Some (OfInitialize r) /\
                  InitializeResult_ProtocolVersion r = ProtocolVersion /\
                  is_Some (Capabilities_Tools (InitializeResult_Capabilities r)) /\
                  ServerInfo_Name (InitializeResult_ServerInfo r) <> ""%string /\
                  ServerInfo_Version (InitializeResult_ServerInfo r) <> ""%string)).
Proof.
  eexists.
  assert (Hdec : unmarshal_request (initialize_frame "2024-11-05")
                 = Some (mkRequest "2.0" (JNumber 1%float) "initialize"
                           (JObject [("capabilities", JObject []);
                                     ("clientInfo",
                                      JObject [("name", JString "c");
                                               ("version", JString "1")]);
                                     ("protocolVersion", JString "2024-11-05")]%string)))
    by (vm_compute; reflexivity).
  split; [exact Hdec|]. split; [reflexivity|]. split; [reflexivity|].
  exact (C4_initialize_reply (NewHandler sample.echo ∅) _ _ Hdec eq_refl eq_refl).
Defined.

(** Scenario S1 and its mismatching variant. *)
Example initialize_supported_version :
  HandleMessage (NewHandler sample.echo ∅) (initialize_frame "2024-11-05")
  = Some (initialize_success (JNumber 1%float)).
Proof. vm_compute. reflexivity. Qed.

Example initialize_other_version :
  (fun resp => (Response_ID resp, Code <$> Response_Error resp, Response_Result resp))
    <$> HandleMessage (NewHandler sample.echo ∅) (initialize_frame "2023-01-01")
  = Some (JNumber 1%float, Some (-32602), None).
Proof. vm_compute. reflexivity. Qed.

End Initialize.

(** ** The two JSON-RPC entry points *)

Section EntryPoints.
Import json gateway server.

Variable time_Parse : string -> option Time.
Variable decode : list Byte.byte -> payload.

(** [Header.Get]: the value of a header, empty when absent. *)
Fixpoint Header_Get (h : list (string * string)) (k : string) : string :=
  match h with
  | [] => ""
  | (k', v) :: rest => if String.eqb k k' then v else Header_Get rest k
  end.

(** *** Reading the body *)

(** Reads that bring no error and stay within the cap are accumulated. *)
Lemma readBody_app (pre rest : list (list Byte.byte * bool)) :
  forall body : list Byte.byte,
    Forall (fun r => snd r = false) pre ->
    Z.of_nat (length body) + Z.of_nat (length (concat (map fst pre))) <= 1024 * 1024 ->
    readBody (pre ++ rest) body = readBody rest (body ++ concat (map fst pre)).
Proof.
  induction pre as [|[chunk err] pre IH]; intros body Hok Hlen; simpl in *.
  - rewrite app_nil_r. reflexivity.
  - inversion Hok as [|? ? Herr Hok']; subst. simpl in Herr. subst err.
    rewrite length_app in Hlen.
    assert (Hsmall : (Z.of_nat (length (body ++ chunk)) >? 1024 * 1024) = false).
    { rewrite Z.gtb_ltb. apply Z.ltb_ge. rewrite length_app. lia. }
    rewrite Hsmall, IH.
    + rewrite <- app_assoc. reflexivity.
    + exact Hok'.
    + rewrite length_app. lia.
Qed.

(** The size check comes after the check of the error: a read that
    delivers bytes together with an error ends the loop unchecked. *)
Lemma readBody_last_read_unchecked (pre : list (list Byte.byte * bool))
    (last : list Byte.byte) (rest : list (list Byte.byte * bool)) :
  Forall (fun r => snd r = false) pre ->
  Z.of_nat (length (concat (map fst pre))) <= 1024 * 1024 ->
  readBody (pre ++ (last, true) :: rest) [] = Some (concat (map fst pre) ++ last).
Proof.
  intros Hok Hlen. rewrite readBody_app by (simpl; assumption || lia).
  reflexivity.
Qed.

(** A read without error that brings the body over the cap is refused. *)
Lemma readBody_over_cap (pre : list (list Byte.byte * bool))
    (chunk : list Byte.byte) (rest : list (list Byte.byte * bool)) :
  Forall (fun r => snd r = false) pre ->
  Z.of_nat (length (concat (map fst pre))) <= 1024 * 1024 ->
  Z.of_nat (length (concat (map fst pre) ++ chunk)) > 1024 * 1024 ->
  readBody (pre ++ (chunk, false) :: rest) [] = None.
Proof.
  intros Hok Hlen Hover. rewrite readBody_app by (simpl; assumption || lia).
  simpl.
  assert (Hbig : (Z.of_nat (length (concat (map fst pre) ++ chunk)) >? 1024 * 1024)
                 = true) by (apply Z.gtb_lt; lia).
  rewrite Hbig. reflexivity.
Qed.

(** *** After the authentication gate *)

Lemma handleStreamableHTTP_too_large (s : Server) (conn : loc) (c : Connection)
    (r : Request) (clk : Clock) (g : Gateway) :
  authenticateRequest time_Parse (gw s) conn c r clk = (inr tt, g) ->
  readBody (Body r) [] = None ->
  handleStreamableHTTP time_Parse decode s conn c r clk
  = mkOutcome (http_Error "Request too large" StatusRequestEntityTooLarge)
      (with_gw s g) [].
Proof.
  intros Hauth Hread. unfold handleStreamableHTTP. rewrite Hauth, Hread. reflexivity.
Qed.

Lemma handleSSEMessage_too_large (s : Server) (conn : loc) (c : Connection)
    (r : Request) (clk : Clock) (g : Gateway) (session : Session) :
  authenticateRequest time_Parse (gw s) conn c r clk = (inr tt, g) ->
  sessionId r <> ""%string ->
  sessions s !! sessionId r = Some session ->
  readBody (Body r) [] = None ->
  handleSSEMessage time_Parse decode s conn c r clk
  = mkOutcome (http_Error "Request too large" StatusRequestEntityTooLarge)
      (with_gw s g) [].
Proof.
  intros Hauth Hid Hsess Hread. unfold handleSSEMessage.
  rewrite Hauth, Hsess, Hread.
  destruct (String.eqb_spec (sessionId r) ""); [contradiction | reflexivity].
Qed.

(** What POST /mcp does with a body it has read. *)
Lemma handleStreamableHTTP_read (s : Server) (conn : loc) (c : Connection)
    (r : Request) (clk : Clock) (g : Gateway) (body : list Byte.byte) :
  authenticateRequest time_Parse (gw s) conn c r clk = (inr tt, g) ->
  readBody (Body r) [] = Some body ->
  handleStreamableHTTP time_Parse decode s conn c r clk =
  if match unmarshal_map (decode body) with
     | Some rawMsg => negb (has_key "id" rawMsg)
     | None => false
     end
  then mkOutcome (mkResponse StatusAccepted [] NoBody) (with_gw s g) [body]
  else
    let response := mcp.HandleMessage (Handler c) (decode body) in
    let g' := RecordRequest g (ID (Config c)) (latency_ms clk) (is_error response)
                (record_now clk) in
    match response with
    | None => mkOutcome (mkResponse StatusAccepted [] NoBody) (with_gw s g') [body]
    | Some resp =>
        mkOutcome
          (mkResponse StatusOK
             [("Content-Type", "application/json");
              ("mcp-session-id",
               if String.eqb (mcp_session_id r) ""
               then generateSessionID (mint_UnixNano clk) (mint_UnixMicro clk)
               else mcp_session_id r)]%string
             (Json resp))
          (with_gw s g') [body]
    end.
Proof.
  intros Hauth Hread. unfold handleStreamableHTTP. rewrite Hauth, Hread. reflexivity.
Qed.

(** What POST /message does with a body it has read. *)
Lemma handleSSEMessage_read (s : Server) (conn : loc) (c : Connection)
    (r : Request) (clk : Clock) (g : Gateway) (session : Session)
    (body : list Byte.byte) :
  authenticateRequest time_Parse (gw s) conn c r clk = (inr tt, g) ->
  sessionId r <> ""%string ->
  sessions s !! sessionId r = Some session ->
  readBody (Body r) [] = Some body ->
  handleSSEMessage time_Parse decode s conn c r clk =
  let response := mcp.HandleMessage (Handler c) (decode body) in
  mkOutcome (mkResponse StatusAccepted [] NoBody)
    (mkServer
       (RecordRequest g (ID (Config c)) (latency_ms clk) (is_error response)
          (record_now clk))
       match response with
       | Some resp => <[sessionId r := try_send session resp]> (sessions s)
       | None => sessions s
       end)
    [body].
Proof.
  intros Hauth Hid Hsess Hread. unfold handleSSEMessage.
  rewrite Hauth, Hsess, Hread.
  destruct (String.eqb_spec (sessionId r) ""); [contradiction | reflexivity].
Qed.

End EntryPoints.

(** ** Sample requests *)

Module sample_http.
Import json gateway server.

(** A text between double quotes. *)
Definition quoted (s : string) : string :=
  let dq := String (Ascii.ascii_of_nat 34) EmptyString in (dq ++ s ++ dq)%string.

(** A ping without an id, and the JSON literal null. *)
Definition ping_text : string :=
  ("{" ++ quoted "jsonrpc" ++ ":" ++ quoted "2.0" ++ ","
       ++ quoted "method" ++ ":" ++ quoted "ping" ++ "}")%string.

Definition ping_without_id : value :=
  JObject [("jsonrpc", JString "2.0"); ("method", JString "ping")]%string.

Definition null_text : string := "null".

(** The reading of encoding/json on the sample bodies; other bodies are
    not used and count as malformed. *)
Definition decode (body : list Byte.byte) : payload :=
  let text := string_of_list_byte body in
  if String.eqb text ping_text then Parsed ping_without_id
  else if String.eqb text null_text then Parsed JNull
  else Malformed.

(** No expiry is consulted for the sample tenant. *)
Definition time_Parse (s : string) : option Time := None.

(** The sample gateway with one SSE session attached. *)
Definition running : Server :=
  mkServer serving {[ "s_1"%string := mkSession "s_1" "conn-1" [] false ]}.

(** A POST with the sample credential, arriving in the given reads. *)
Definition post (reads : list (list Byte.byte * bool)) : Request :=
  mkRequest "Bearer secret" "" "s_1" reads.

(** A body delivered by one read, together with [io.EOF]. *)
Definition at_once (text : string) : list (list Byte.byte * bool) :=
  [(list_byte_of_string text, true)].

Definition clock : Clock :=
  mkClock 100000000000 100000000000 5 100000000005
    1700000000000000000 1700000000000000.

(** The gateway after the authentication gate let the sample request
    through: the request is in the rate window. *)
Definition admitted : Gateway :=
  store_conn serving 1%positive (sample.conn [100000000000] 1).

Lemma authenticated (reads : list (list Byte.byte * bool)) :
  authenticateRequest time_Parse (gw running) 1%positive
    (sample.conn [1000000000; 2000000000] 1) (post reads) clock
  = (inr tt, admitted).
Proof. vm_compute. reflexivity. Qed.

End sample_http.

(** ** Frames without an id *)

Section Notifications.
Import json gateway server.

(** *** Which members a decoded map has *)

Definition members_to_any : list (string * value) -> option (list (string * value)) :=
  fix go (l : list (string * value)) : option (list (string * value)) :=
    match l with
    | [] => Some []
    | (k, x) :: r =>
        match to_any x, go r with
        | Some x', Some r' => Some (put_unless_later k x' r')
        | _, _ => None
        end
    end.

Lemma to_any_Object (kvs : list (string * value)) :
  to_any (JObject kvs) =
  match members_to_any kvs with Some l => Some (JObject l) | None => None end.
Proof. reflexivity. Qed.

Lemma has_key_cons (k k' : string) (v : value) (l : list (string * value)) :
  has_key k ((k', v) :: l) = String.eqb k k' || has_key k l.
Proof. unfold has_key. simpl. destruct (String.eqb k k'); reflexivity. Qed.

Lemma has_key_insert_sorted (k k' : string) (v : value) (l : list (string * value)) :
  has_key k (insert_sorted k' v l) = String.eqb k k' || has_key k l.
Proof.
  induction l as [|[k1 v1] l IH]; simpl.
  - apply has_key_cons.
  - destruct (String.ltb k' k1).
    + rewrite has_key_cons. reflexivity.
    + rewrite !has_key_cons, IH.
      destruct (String.eqb k k'), (String.eqb k k1); reflexivity.
Qed.

Lemma has_key_put_unless_later (k k' : string) (v : value) (l : list (string * value)) :
  has_key k (put_unless_later k' v l) = String.eqb k k' || has_key k l.
Proof.
  unfold put_unless_later. destruct (has_key k' l) eqn:Hk'.
  - destruct (String.eqb_spec k k') as [->|]; [|reflexivity].
    rewrite Hk'. reflexivity.
  - apply has_key_insert_sorted.
Qed.

Lemma members_to_any_keys (kvs m : list (string * value)) (k : string) :
  members_to_any kvs = Some m -> has_key k m = has_key k kvs.
Proof.
  revert m. induction kvs as [|[k' x] kvs IH]; intros m H; simpl in H.
  - injection H as <-. reflexivity.
  - destruct (to_any x) as [x'|]; [|discriminate].
    destruct (members_to_any kvs) as [r'|] eqn:Hr; [|discriminate].
    injection H as <-.
    rewrite has_key_put_unless_later, has_key_cons, (IH r' eq_refl). reflexivity.
Qed.

(** The map decoded from an object has the member names of the object. *)
Lemma unmarshal_map_keys (kvs rawMsg : list (string * value)) (k : string) :
  unmarshal_map (Parsed (JObject kvs)) = Some rawMsg ->
  has_key k rawMsg = has_key k kvs.
Proof.
  unfold unmarshal_map. rewrite to_any_Object.
  destruct (members_to_any kvs) as [m|] eqn:Hm; [|discriminate].
  intros [= <-]. eapply members_to_any_keys, Hm.
Qed.

Variable time_Parse : string -> option Time.
Variable decode : list Byte.byte -> payload.

(** On POST /mcp a frame whose top-level object has no id member, and
    which Go decodes into the map, gets status 202 and no body. *)
Lemma mcp_frame_without_id (s : Server) (conn : loc) (c : Connection)
    (r : Request) (clk : Clock) (g : Gateway) (body : list Byte.byte)
    (kvs rawMsg : list (string * value)) :
  authenticateRequest time_Parse (gw s) conn c r clk = (inr tt, g) ->
  readBody (Body r) [] = Some body ->
  decode body = Parsed (JObject kvs) ->
  has_key "id" kvs = false ->
  unmarshal_map (decode body) = Some rawMsg ->
  reply (handleStreamableHTTP time_Parse decode s conn c r clk)
  = mkResponse StatusAccepted [] NoBody.
Proof.
  intros Hauth Hread Hdec Hid Hmap.
  rewrite (handleStreamableHTTP_read _ _ _ _ _ _ _ _ _ Hauth Hread).
  rewrite Hmap. rewrite Hdec in Hmap.
  rewrite (unmarshal_map_keys _ _ _ Hmap), Hid. reflexivity.
Qed.

(** C3 on the sidecar. POST /message has no check of the id member: a
    frame whose top-level object has no id, and for which the protocol
    handler returns a response (every frame but a well-formed
    "initialized" or "notifications/cancelled"), gets that response
    enqueued onto the outbound buffer of the session, where the
    specification has no response to a frame without id. *)
Theorem C3_message_sidecar_enqueues_response
    (s : Server) (conn : loc) (c : Connection) (r : Request) (clk : Clock)
    (g : Gateway) (session : Session) (body : list Byte.byte)
    (kvs : list (string * value)) (resp : mcp.JSONRPCResponse) :
  authenticateRequest time_Parse (gw s) conn c r clk = (inr tt, g) ->
  sessionId r <> ""%string ->
  sessions s !! sessionId r = Some session ->
  readBody (Body r) [] = Some body ->
  decode body = Parsed (JObject kvs) ->
  has_key "id" kvs = false ->
  mcp.HandleMessage (Handler c) (decode body) = Some resp ->
  (length (Messages session) < 64)%nat ->
  let o := handleSSEMessage time_Parse decode s conn c r clk in
  StatusCode (reply o) = 202 /\
  (Messages <$> sessions (after o) !! sessionId r)
  = Some (Messages session ++ [resp]).
Proof.
  intros Hauth Hid Hsess Hread Hdec Hnoid Hresp Hroom o. subst o.
  rewrite (handleSSEMessage_read _ _ _ _ _ _ _ _ _ _ Hauth Hid Hsess Hread).
  rewrite Hresp. cbn [reply after server.sessions StatusCode].
  split; [reflexivity|].
  rewrite lookup_insert_eq. unfold try_send.
  apply Nat.ltb_lt in Hroom. rewrite Hroom. reflexivity.
Qed.

End Notifications.

(** The failing input of C3: a ping without an id, posted to /message
    with the sample credential on the session s_1. The reply to it is put
    on the buffer of the session. *)
Lemma C3_message_sidecar_enqueues_response_witness :
  let r := sample_http.post (sample_http.at_once sample_http.ping_text) in
  let c := sample.conn [1000000000; 2000000000] 1 in
  let o := server.handleSSEMessage sample_http.time_Parse sample_http.decode
             sample_http.running 1%positive c r sample_http.clock in
  json.has_key "id" [("jsonrpc", json.JString "2.0"); ("method", json.JString "ping")]%string
  = false /\
  server.StatusCode (server.reply o) = 202 /\
  (server.Messages <$> server.sessions (server.after o) !! "s_1"%string)
  = Some [mcp.mkResponse "2.0" json.JNull (Some mcp.EmptyResult) None].
Proof.
  split; [reflexivity|].
  refine (C3_message_sidecar_enqueues_response
            sample_http.time_Parse sample_http.decode sample_http.running 1%positive
            (sample.conn [1000000000; 2000000000] 1)
            (sample_http.post (sample_http.at_once sample_http.ping_text))
            sample_http.clock sample_http.admitted
            (server.mkSession "s_1" "conn-1" [] false)
            (list_byte_of_string sample_http.ping_text)
            [("jsonrpc", json.JString "2.0"); ("method", json.JString "ping")]%string
            (mcp.mkResponse "2.0" json.JNull (Some mcp.EmptyResult) None)
            (sample_http.authenticated _) _ _ _ _ _ _ _).
  - discriminate.
  - reflexivity.
  - vm_compute. reflexivity.
  - vm_compute. reflexivity.
  - reflexivity.
  - vm_compute. reflexivity.
  - simpl. lia.
Defined.

(** ** Bodies that do not decode *)

Section ParseErrors.
Import json gateway server.

(** The body is not JSON, or is a JSON array, string, number or boolean:
    the decoding into the map and the decoding into the request both
    return an error. *)
Definition undecodable (p : payload) : Prop :=
  match p with
  | Malformed => True
  | Parsed (JObject _) => False
  | Parsed JNull => False
  | Parsed _ => True
  end.

Lemma undecodable_map (p : payload) : undecodable p -> unmarshal_map p = None.
Proof. destruct p as [|[]]; simpl; intros H; (reflexivity || contradiction). Qed.

Lemma undecodable_request (h : mcp.Handler) (p : payload) :
  undecodable p ->
  mcp.HandleMessage h p
  = Some (mcp.mkResponse "2.0" JNull None (Some (mcp.mkError mcp.ParseError "Parse error"))).
Proof. destruct p as [|[]]; simpl; intros H; (reflexivity || contradiction). Qed.

Lemma generateSessionID_not_empty (n m : Z) : generateSessionID n m <> ""%string.
Proof. unfold generateSessionID. simpl. discriminate. Qed.

Variable time_Parse : string -> option Time.
Variable decode : list Byte.byte -> payload.

(** C9, amended. For every POST to /mcp that passes authentication, whose
    body is read within the size cap and is malformed JSON or a JSON
    array, string, number or boolean, the notification short-circuit is
    skipped and the client receives HTTP 200 with a JSON-RPC error object
    of code -32700 and with the mcp-session-id header set: to the one the
    client sent, or to a freshly minted, non-empty one when it sent none. *)
Theorem C9_undecodable_body_parse_error
    (s : Server) (conn : loc) (c : Connection) (r : Request) (clk : Clock)
    (g : Gateway) (body : list Byte.byte) :
  authenticateRequest time_Parse (gw s) conn c r clk = (inr tt, g) ->
  readBody (Body r) [] = Some body ->
  undecodable (decode body) ->
  let o := handleStreamableHTTP time_Parse decode s conn c r clk in
  let sid := Header_Get (Header (reply o)) "mcp-session-id" in
  StatusCode (reply o) = 200 /\
  (exists resp, Payload (reply o) = Json resp /\
                mcp.Response_Result resp = None /\
                (mcp.Code <$> mcp.Response_Error resp) = Some (-32700)) /\
  sid <> ""%string /\
  (mcp_session_id r <> ""%string -> sid = mcp_session_id r) /\
  (mcp_session_id r = ""%string ->
   sid = generateSessionID (mint_UnixNano clk) (mint_UnixMicro clk)).
Proof.
  intros Hauth Hread Hbad o sid. subst sid o.
  rewrite (handleStreamableHTTP_read _ _ _ _ _ _ _ _ _ Hauth Hread).
  rewrite (undecodable_map _ Hbad), (undecodable_request _ _ Hbad).
  cbn [reply StatusCode Header Payload Header_Get]. simpl String.eqb.
  split; [reflexivity|]. split; [eexists; split; [reflexivity|]; split; reflexivity|].
  destruct (String.eqb_spec (mcp_session_id r) "") as [He|He].
  - split; [apply generateSessionID_not_empty|]. split; [contradiction | reflexivity].
  - split; [exact He|]. split; [reflexivity | contradiction].
Qed.

End ParseErrors.

Lemma C9_undecodable_body_parse_error_witness :
  let r := sample_http.post (sample_http.at_once "not json") in
  let c := sample.conn [1000000000; 2000000000] 1 in
  let o := server.handleStreamableHTTP sample_http.time_Parse sample_http.decode
             sample_http.running 1%positive c r sample_http.clock in
  let sid := Header_Get (server.Header (server.reply o)) "mcp-session-id" in
  undecodable (sample_http.decode (list_byte_of_string "not json")) /\
  server.StatusCode (server.reply o) = 200 /\
  (exists resp, server.Payload (server.reply o) = server.Json resp /\
                mcp.Response_Result resp = None /\
                (mcp.Code <$> mcp.Response_Error resp) = Some (-32700)) /\
  sid <> ""%string /\
  (server.mcp_session_id r <> ""%string -> sid = server.mcp_session_id r) /\
  (server.mcp_session_id r = ""%string ->
   sid = server.generateSessionID (server.mint_UnixNano sample_http.clock)
           (server.mint_UnixMicro sample_http.clock)).
Proof.
  assert (Hbad : undecodable (sample_http.decode (list_byte_of_string "not json")))
    by (vm_compute; exact I).
  split; [exact Hbad|].
  exact (C9_undecodable_body_parse_error sample_http.time_Parse sample_http.decode
           sample_http.running 1%positive (sample.conn [1000000000; 2000000000] 1)
           (sample_http.post (sample_http.at_once "not json")) sample_http.clock
           sample_http.admitted (list_byte_of_string "not json")
           (sample_http.authenticated _) eq_refl Hbad).
Defined.

(** The session id minted for that reply. *)
Example minted_session_id :
  Header_Get
    (server.Header
       (server.reply
          (server.handleStreamableHTTP sample_http.time_Parse sample_http.decode
             sample_http.running 1%positive (sample.conn [1000000000; 2000000000] 1)
             (sample_http.post (sample_http.at_once "not json")) sample_http.clock)))
    "mcp-session-id"
  = "s_1700000000000000000_0"%string.
Proof. vm_compute. reflexivity. Qed.

(** ** The size cap on request bodies *)

Section BodySize.
Import json gateway server.

Variable time_Parse : string -> option Time.
Variable decode : list Byte.byte -> payload.

Lemma handled_status_after_read (s : Server) (conn : loc) (c : Connection)
    (r : Request) (clk : Clock) (g : Gateway) (body : list Byte.byte) :
  authenticateRequest time_Parse (gw s) conn c r clk = (inr tt, g) ->
  readBody (Body r) [] = Some body ->
  let o := handleStreamableHTTP time_Parse decode s conn c r clk in
  (StatusCode (reply o) = 200 \/ StatusCode (reply o) = 202) /\ handled o = [body].
Proof.
  intros Hauth Hread o. subst o.
  rewrite (handleStreamableHTTP_read _ _ _ _ _ _ _ _ _ Hauth Hread).
  destruct (match unmarshal_map (decode body) with
            | Some rawMsg => negb (has_key "id" rawMsg)
            | None => false
            end); [simpl; auto|].
  cbv zeta. destruct (mcp.HandleMessage (Handler c) (decode body)); simpl; auto.
Qed.

(** C7 on the code. A body strictly larger than 1 MiB whose last bytes
    arrive in a read that also returns an error (net/http returns
    [io.EOF] together with the final bytes of a body of known length),
    the earlier reads staying within 1 MiB, is not refused: on POST /mcp
    the status is 200 or 202, not 413, and the whole body is given to the
    protocol handler; the same on POST /message for a known session. *)
Theorem C7_final_read_escapes_size_check
    (s : Server) (conn : loc) (c : Connection) (r : Request) (clk : Clock)
    (g : Gateway) (pre : list (list Byte.byte * bool)) (last : list Byte.byte)
    (rest : list (list Byte.byte * bool)) :
  authenticateRequest time_Parse (gw s) conn c r clk = (inr tt, g) ->
  Body r = pre ++ (last, true) :: rest ->
  Forall (fun rd => snd rd = false) pre ->
  Z.of_nat (length (concat (map fst pre))) <= 1024 * 1024 ->
  Z.of_nat (length (concat (map fst pre) ++ last)) > 1024 * 1024 ->
  let body := concat (map fst pre) ++ last in
  let o := handleStreamableHTTP time_Parse decode s conn c r clk in
  let o' := handleSSEMessage time_Parse decode s conn c r clk in
  StatusCode (reply o) <> 413 /\ handled o = [body] /\
  (sessionId r <> ""%string -> is_Some (sessions s !! sessionId r) ->
   StatusCode (reply o') = 202 /\ handled o' = [body]).
Proof.
  intros Hauth Hbody Hok Hpre Hover body o o'. subst body o o'.
  assert (Hread : readBody (Body r) [] = Some (concat (map fst pre) ++ last)).
  { rewrite Hbody. apply readBody_last_read_unchecked; assumption. }
  destruct (handled_status_after_read s conn c r clk g _ Hauth Hread) as [Hst Hh].
  split; [|split; [exact Hh|]].
  - unfold StatusCode in *. destruct Hst as [-> | ->]; discriminate.
  - intros Hid [session Hsess].
    rewrite (handleSSEMessage_read _ _ _ _ _ _ _ _ _ _ Hauth Hid Hsess Hread).
    split; reflexivity.
Qed.

(** Where the check is reached, it refuses: a read that returns no error
    and brings the body over 1 MiB yields 413, and the protocol handler is
    not called. *)
Lemma over_cap_without_error_413
    (s : Server) (conn : loc) (c : Connection) (r : Request) (clk : Clock)
    (g : Gateway) (pre : list (list Byte.byte * bool)) (chunk : list Byte.byte)
    (rest : list (list Byte.byte * bool)) :
  authenticateRequest time_Parse (gw s) conn c r clk = (inr tt, g) ->
  Body r = pre ++ (chunk, false) :: rest ->
  Forall (fun rd => snd rd = false) pre ->
  Z.of_nat (length (concat (map fst pre))) <= 1024 * 1024 ->
  Z.of_nat (length (concat (map fst pre) ++ chunk)) > 1024 * 1024 ->
  let o := handleStreamableHTTP time_Parse decode s conn c r clk in
  StatusCode (reply o) = 413 /\ handled o = [].
Proof.
  intros Hauth Hbody Hok Hpre Hover o. subst o.
  rewrite (handleStreamableHTTP_too_large _ _ _ _ _ _ _ _ Hauth).
  - split; reflexivity.
  - rewrite Hbody. apply readBody_over_cap; assumption.
Qed.

End BodySize.

(** *** A body of 1 MiB + 1 bytes *)

Section OneByteOver.
Import server.

Definition full_read : list Byte.byte * bool := (repeat Byte.x78 4096, false).

(** 256 reads of 4096 bytes, then the last byte together with [io.EOF]. *)
Definition one_byte_over : list (list Byte.byte * bool) :=
  repeat full_read 256 ++ ([Byte.x78], true) :: [].

Lemma Forall_repeat_read (rd : list Byte.byte * bool) (n : nat) :
  snd rd = false -> Forall (fun x => snd x = false) (repeat rd n).
Proof. intros H. induction n; simpl; constructor; auto. Qed.

Lemma length_repeat_Z {A : Type} (x : A) (n : nat) :
  Z.of_nat (length (repeat x n)) = Z.of_nat n.
Proof. induction n; simpl length; [reflexivity | lia]. Qed.

Lemma length_reads_Z (rd : list Byte.byte * bool) (n : nat) :
  Z.of_nat (length (concat (map fst (repeat rd n))))
  = Z.of_nat n * Z.of_nat (length (fst rd)).
Proof.
  induction n as [|n IH].
  - reflexivity.
  - change (repeat rd (S n)) with (rd :: repeat rd n).
    change (concat (map fst (rd :: repeat rd n)))
      with (fst rd ++ concat (map fst (repeat rd n))).
    rewrite length_app. lia.
Qed.

Lemma length_full_reads :
  Z.of_nat (length (concat (map fst (repeat full_read 256)))) = 1024 * 1024.
Proof.
  rewrite length_reads_Z. unfold full_read. cbn [fst].
  rewrite length_repeat_Z. reflexivity.
Qed.

Lemma C7_final_read_escapes_size_check_witness :
  let r := sample_http.post one_byte_over in
  let c := sample.conn [1000000000; 2000000000] 1 in
  let body := concat (map fst (repeat full_read 256)) ++ [Byte.x78] in
  let o := handleStreamableHTTP sample_http.time_Parse sample_http.decode
             sample_http.running 1%positive c r sample_http.clock in
  let o' := handleSSEMessage sample_http.time_Parse sample_http.decode
              sample_http.running 1%positive c r sample_http.clock in
  Z.of_nat (length body) = 1024 * 1024 + 1 /\
  StatusCode (reply o) <> 413 /\ handled o = [body] /\
  (sessionId r <> ""%string ->
   is_Some (sessions sample_http.running !! sessionId r) ->
   StatusCode (reply o') = 202 /\ handled o' = [body]).
Proof.
  assert (Hlen : Z.of_nat (length (concat (map fst (repeat full_read 256))
                                     ++ [Byte.x78])) = 1024 * 1024 + 1).
  { rewrite length_app, Nat2Z.inj_add, length_full_reads. reflexivity. }
  split; [exact Hlen|].
  refine (C7_final_read_escapes_size_check
            sample_http.time_Parse sample_http.decode sample_http.running 1%positive
            (sample.conn [1000000000; 2000000000] 1)
            (sample_http.post one_byte_over) sample_http.clock sample_http.admitted
            (repeat full_read 256) [Byte.x78] []
            (sample_http.authenticated _) eq_refl _ _ _).
  - apply Forall_repeat_read. reflexivity.
  - rewrite length_full_reads. lia.
  - rewrite Hlen. lia.
Defined.

End OneByteOver.

(** *** Bodies outside the amended C9 *)

Section NotAParseError.
Import server.

(** 257 reads of 4096 bytes, none with an error. *)
Definition too_long : list (list Byte.byte * bool) :=
  repeat full_read 256 ++ full_read :: [].

(** C9, as stated, fails. The body null is not a JSON object, yet
    [json.Unmarshal] stores it into the map without an error (as the nil
    map, which has no id), so the notification short-circuit is taken and
    the reply is 202 with no body. And a body that is no JSON at all but
    exceeds the size cap on a read without error is answered 413. *)
Lemma C9_null_body_is_a_notification :
  let c := sample.conn [1000000000; 2000000000] 1 in
  let o := handleStreamableHTTP sample_http.time_Parse sample_http.decode
             sample_http.running 1%positive c
             (sample_http.post (sample_http.at_once sample_http.null_text))
             sample_http.clock in
  let o' := handleStreamableHTTP sample_http.time_Parse (fun _ => json.Malformed)
              sample_http.running 1%positive c (sample_http.post too_long)
              sample_http.clock in
  (sample_http.decode (list_byte_of_string sample_http.null_text) = json.Parsed json.JNull /\
   reply o = mkResponse 202 [] NoBody) /\
  StatusCode (reply o') = 413.
Proof.
  split; [split|].
  - vm_compute. reflexivity.
  - rewrite (handleStreamableHTTP_read sample_http.time_Parse sample_http.decode
               sample_http.running 1%positive (sample.conn [1000000000; 2000000000] 1)
               (sample_http.post (sample_http.at_once sample_http.null_text))
               sample_http.clock sample_http.admitted
               (list_byte_of_string sample_http.null_text)
               (sample_http.authenticated _) eq_refl).
    vm_compute. reflexivity.
  - refine (proj1 (over_cap_without_error_413
              sample_http.time_Parse (fun _ => json.Malformed)
              sample_http.running 1%positive (sample.conn [1000000000; 2000000000] 1)
              (sample_http.post too_long) sample_http.clock sample_http.admitted
              (repeat full_read 256) (fst full_read) []
              (sample_http.authenticated _) eq_refl _ _ _)).
    + apply Forall_repeat_read. reflexivity.
    + rewrite length_full_reads. lia.
    + rewrite length_app, Nat2Z.inj_add, length_full_reads.
      unfold full_read. cbn [fst]. rewrite length_repeat_Z. lia.
Qed.

(** A frame the real MCP clients send after the handshake: on the
    sidecar its reply, an error, goes to the session as well. *)
Example initialized_notification_reply :
  (fun resp => mcp.Code <$> mcp.Response_Error resp)
    <$> mcp.HandleMessage (mcp.NewHandler sample.echo ∅)
          (json.Parsed (json.JObject
             [("jsonrpc", json.JString "2.0");
              ("method", json.JString "notifications/initialized")]%string))
  = Some (Some (-32601)).
Proof. vm_compute. reflexivity. Qed.

End NotAParseError.

(** ** Further instances *)

Section Instances.
Import json gateway.

(** The digest of the sample credential, as any SHA-256 tool prints it. *)
Example secret_hash_value :
  sample.secret_hash
  = "744a9101f7182a6ae0d978121ff74e33cac8d2832579c0637c1c37e9bbb6c065"%string.
Proof. vm_compute. reflexivity. Qed.

(** Scenario S6: the tenant rotated from the key "secret" to the key
    "rotated"; the previous hash is honoured until 2025-01-01T00:01:00Z. *)
Definition expiry_text : string := "2025-01-01T00:01:00Z".
Definition expiry_instant : Time := 1735689660 * 1000000000.

(** The reading of [time.Parse] on that timestamp. *)
Definition parse_expiry (s : string) : option Time :=
  if String.eqb s expiry_text then Some expiry_instant else None.

Definition rotated : Connection :=
  mkConnection
    (mkConnectionConfig "conn-1" "demo" "demo.example.com" "echo"
       (computed_hash "pepper" "rotated") sample.secret_hash expiry_text
       true ∅ 3 0 "2025-01-01T00:00:00Z")
    (mcp.NewHandler sample.echo ∅) [] 0.

Example rotation_grace :
  VerifyAPIKey parse_expiry serving rotated "secret" (expiry_instant - 1) = true /\
  VerifyAPIKey parse_expiry serving rotated "secret" expiry_instant = false /\
  VerifyAPIKey parse_expiry serving rotated "secret" (expiry_instant + 1) = false /\
  VerifyAPIKey parse_expiry serving rotated "rotated" (expiry_instant + 1) = true /\
  VerifyAPIKey parse_expiry serving rotated "other" (expiry_instant - 1) = false.
Proof. vm_compute. repeat split; reflexivity. Qed.

(** The previous credential presented at the very instant of its expiry. *)
Lemma C1_VerifyAPIKey_accepts_iff_witness :
  crypto.EncodeToString
    (crypto.Sum256 (crypto.bytes_of_string (pepper serving ++ "secret")))
  <> APIKeyHash (Config rotated) /\
  parse_expiry (PrevKeyExpiry (Config rotated)) = Some expiry_instant /\
  expiry_instant <= expiry_instant /\
  VerifyAPIKey parse_expiry serving rotated "secret" expiry_instant = false.
Proof.
  assert (H1 : crypto.EncodeToString
                 (crypto.Sum256 (crypto.bytes_of_string (pepper serving ++ "secret")))
               <> APIKeyHash (Config rotated))
    by (vm_compute; discriminate).
  assert (H2 : parse_expiry (PrevKeyExpiry (Config rotated)) = Some expiry_instant)
    by reflexivity.
  assert (H3 : expiry_instant <= expiry_instant) by lia.
  split; [exact H1|]. split; [exact H2|]. split; [exact H3|].
  exact (proj2 (C1_VerifyAPIKey_accepts_iff parse_expiry serving rotated "secret"
                  expiry_instant) expiry_instant H1 H2 H3).
Defined.

(** Scenario S3 through the theorem: ceiling 3, an empty window, four
    requests one second apart. *)
Lemma C2_CheckRateLimit_sliding_window_witness :
  let ts := [1000000000; 2000000000; 3000000000] in
  let now := 4000000000 in
  Z.of_nat (length ts) = 3 /\
  one_window (ts ++ [now]) /\
  requests (sample.conn [] 0) = [] /\
  fst (decisions (ts ++ [now]) (sample.conn [] 0)) = [true; true; true; false].
Proof.
  assert (Hlen : Z.of_nat (length [1000000000; 2000000000; 3000000000]) = 3)
    by reflexivity.
  assert (Hwin : one_window ([1000000000; 2000000000; 3000000000] ++ [4000000000])).
  { intros a b Ha Hb. unfold Minute. simpl in Ha, Hb.
    repeat (destruct Ha as [<-|Ha]; [repeat (destruct Hb as [<-|Hb]; [lia|]); tauto|]).
    tauto. }
  split; [exact Hlen|]. split; [exact Hwin|]. split; [reflexivity|].
  exact (proj2
           (proj2 (proj2 (proj2 (proj2 (proj2 (proj2
              (C2_CheckRateLimit_sliding_window (sample.conn [] 0) 4000000000))))))
              [1000000000; 2000000000; 3000000000] Hlen Hwin)
           eq_refl).
Defined.

(** A revoked token: the tick that gets 401 keeps the served state. *)
Lemma C6_failed_sync_keeps_config_witness :
  let p := mkPoller "https://api.example.com" "token" 0 "" in
  snd (syncConfig sample.Registry p serving (Reply 401 "" Undecodable)) = serving.
Proof.
  refine (proj1 (C6_failed_sync_keeps_config sample.Registry
                   (mkPoller "https://api.example.com" "token" 0 "") serving
                   (Reply 401 "" Undecodable)) _).
  right. right. exists 401, ""%string, Undecodable. split; [reflexivity|].
  left. reflexivity.
Defined.

(** A successful tick applies the configuration it received. *)
Example sync_applies_config :
  let p := mkPoller "https://api.example.com" "token" 2 "" in
  let r := syncConfig sample.Registry p serving (Reply 200 "fresh" (ApiResp true next_config)) in
  token (fst r) = "fresh"%string /\ failures (fst r) = 0 /\
  version (snd r) = 2 /\ snd r = ApplyConfig sample.Registry next_config serving.
Proof. repeat split; reflexivity. Qed.

(** float64 cannot tell the ids 2^53 and 2^53 + 1 apart: a numeric id is
    echoed as the float64 it was decoded to. *)
Example large_ids_collide :
  JNumber (PrimFloat.of_uint63 (Uint63.of_Z 9007199254740993))
  = JNumber (PrimFloat.of_uint63 (Uint63.of_Z 9007199254740992)).
Proof. vm_compute. reflexivity. Qed.

(** A number outside float64 in a member that is not a field of the
    request: the decoding into the map fails, the decoding into the
    request succeeds. *)
Example big_number_in_unknown_member :
  let frame :=
    Parsed (JObject [("jsonrpc", JString "2.0"); ("method", JString "ping");
                     ("x", JBigNumber "1e999")]%string) in
  unmarshal_map frame = None /\
  mcp.HandleMessage (mcp.NewHandler sample.echo ∅) frame
  = Some (mcp.mkResponse "2.0" JNull (Some mcp.EmptyResult) None).
Proof. vm_compute. split; reflexivity. Qed.

(** X28. The protocol handler returns no response exactly for the two
    methods it knows as notifications: the frame decodes as a request,
    its version string is "2.0" and its method is initialized or
    notifications/cancelled. Whether the frame carries an id plays no
    part. *)
Lemma HandleMessage_nil_iff (h : mcp.Handler) (raw : payload) :
  mcp.HandleMessage h raw = None <->
  exists req,
    mcp.unmarshal_request raw = Some req /\
    mcp.JSONRPC req = "2.0"%string /\
    (mcp.Method req = "initialized"%string \/
     mcp.Method req = "notifications/cancelled"%string).
Proof.
  unfold mcp.HandleMessage.
  destruct (mcp.unmarshal_request raw) as [req|].
  2: { split; [discriminate | intros (req & H & _); discriminate]. }
  destruct (String.eqb_spec (mcp.JSONRPC req) "2.0") as [Hv|Hv]; simpl.
  2: { split; [discriminate | intros (req' & [= <-] & Hv' & _); contradiction]. }
  destruct (String.eqb_spec (mcp.Method req) "initialize") as [Hm|Hm].
  { split; [discriminate|].
    intros (req' & [= <-] & _ & [H|H]); rewrite Hm in H; discriminate. }
  destruct (String.eqb_spec (mcp.Method req) "initialized") as [Hm1|Hm1].
  { split; [|reflexivity]. intros _. exists req. auto. }
  destruct (String.eqb_spec (mcp.Method req) "ping") as [Hm2|Hm2].
  { split; [discriminate|].
    intros (req' & [= <-] & _ & [H|H]); rewrite Hm2 in H; discriminate. }
  destruct (String.eqb_spec (mcp.Method req) "tools/list") as [Hm3|Hm3].
  { split; [discriminate|].
    intros (req' & [= <-] & _ & [H|H]); rewrite Hm3 in H; discriminate. }
  destruct (String.eqb_spec (mcp.Method req) "tools/call") as [Hm4|Hm4].
  { split; [discriminate|].
    intros (req' & [= <-] & _ & [H|H]); rewrite Hm4 in H; discriminate. }
  destruct (String.eqb_spec (mcp.Method req) "notifications/cancelled") as [Hm5|Hm5].
  { split; [|reflexivity]. intros _. exists req. auto. }
  split; [discriminate|].
  intros (req' & [= <-] & _ & [H|H]); contradiction.
Qed.

End Instances.

(* ===================================================================== *)
(** * Further properties of the gateway state                            *)
(* ===================================================================== *)

(** ** The rolling latency ring *)

Section RollingWindow.
Import gateway.

(** One call of [RecordRequest]: the latency, the error flag and the
    reading of the clock. *)
Record Sample := mkSample {
  sample_latency : Z;
  sample_error : bool;
  sample_at : Time
}.

Definition record_all (connID : string) (samples : list Sample) (g : Gateway)
  : Gateway :=
  fold_left
    (fun g s => RecordRequest g connID (sample_latency s) (sample_error s) (sample_at s))
    samples g.

(** The last hundred of a list. *)
Definition last_100 (l : list Z) : list Z := drop (length l - 100) l.

Definition latencies_of (g : Gateway) (connID : string) : list Z :=
  match metrics g !! connID with
  | Some m => Latencies m
  | None => []
  end.

Lemma last_100_snoc (l : list Z) (x : Z) :
  (let lat := last_100 l ++ [x] in
   if (100 <? length lat)%nat then drop (length lat - 100) lat else lat)
  = last_100 (l ++ [x]).
Proof.
  unfold last_100. cbv zeta.
  rewrite !length_app, length_drop. simpl.
  destruct (Nat.ltb_spec 100 (length l - (length l - 100) + 1)) as [H|H].
  - rewrite drop_app_le by (rewrite length_drop; lia).
    rewrite drop_drop.
    rewrite drop_app_le by lia.
    f_equal. f_equal. lia.
  - replace (length l - 100)%nat with 0%nat by lia.
    replace (length l + 1 - 100)%nat with 0%nat by lia.
    reflexivity.
Qed.

Lemma latencies_of_RecordRequest (g : Gateway) (connID : string) (x : Z)
    (e : bool) (now : Time) (seen : list Z) :
  latencies_of g connID = last_100 seen ->
  latencies_of (RecordRequest g connID x e now) connID = last_100 (seen ++ [x]).
Proof.
  unfold latencies_of, RecordRequest. simpl. rewrite lookup_insert_eq. simpl.
  intros H. rewrite <- last_100_snoc, <- H.
  destruct (metrics g !! connID) as [m|]; reflexivity.
Qed.

Lemma RecordRequest_other (g : Gateway) (connID other : string) (x : Z)
    (e : bool) (now : Time) :
  other <> connID ->
  metrics (RecordRequest g connID x e now) !! other = metrics g !! other.
Proof. intros H. unfold RecordRequest. simpl. apply lookup_insert_ne. congruence. Qed.

Lemma record_all_snoc (connID : string) (samples : list Sample) (s : Sample)
    (g : Gateway) :
  record_all connID (samples ++ [s]) g
  = RecordRequest (record_all connID samples g) connID
      (sample_latency s) (sample_error s) (sample_at s).
Proof. unfold record_all. rewrite fold_left_app. reflexivity. Qed.

(** X1. After any number of recorded requests the latency ring of a tenant
    holds the last hundred latencies of its history, oldest first, where
    the history is what the ring held before followed by the recorded
    latencies in order of arrival; the time of the last request is that of
    the last recording; and no other tenant's metrics, nor the registry or
    the connection objects, are touched. *)
Theorem RecordRequest_keeps_last_hundred (g : Gateway) (connID : string)
    (samples : list Sample) :
  (length (latencies_of g connID) <= 100)%nat ->
  let g' := record_all connID samples g in
  latencies_of g' connID
  = last_100 (latencies_of g connID ++ map sample_latency samples) /\
  (forall s, last samples = Some s ->
     LastRequestAt <$> metrics g' !! connID = Some (Some (sample_at s))) /\
  (forall other, other <> connID -> metrics g' !! other = metrics g !! other) /\
  connections g' = connections g /\ heap g' = heap g.
Proof.
  intros Hlen. cbv zeta.
  induction samples as [|s samples IH] using rev_ind.
  - simpl. rewrite app_nil_r. unfold last_100.
    replace (length (latencies_of g connID) - 100)%nat with 0%nat by lia.
    repeat split; try reflexivity. intros s H. discriminate.
  - destruct IH as (IH1 & _ & IH3 & IH4 & IH5).
    rewrite record_all_snoc. repeat split.
    + rewrite map_app, app_assoc. simpl.
      apply latencies_of_RecordRequest. exact IH1.
    + intros s' Hs'. rewrite last_snoc in Hs'. injection Hs' as <-.
      unfold RecordRequest. simpl. rewrite lookup_insert_eq. reflexivity.
    + intros other Hne. rewrite RecordRequest_other by exact Hne. apply IH3, Hne.
    + exact IH4.
    + exact IH5.
Qed.

End RollingWindow.

Section RollingWindowInstance.
Import gateway.

(** A hundred and three requests of the sample tenant, with latencies
    1 to 103, recorded on top of the two latencies it already holds. *)
Definition burst : list Sample :=
  map (fun n => mkSample (Z.of_nat n) false (Z.of_nat n)) (seq 1 103).

Lemma RecordRequest_keeps_last_hundred_witness :
  (length (latencies_of serving "conn-1") <= 100)%nat /\
  latencies_of (record_all "conn-1" burst serving) "conn-1"
  = map Z.of_nat (seq 4 100).
Proof.
  split; [vm_compute; lia|].
  rewrite (proj1 (RecordRequest_keeps_last_hundred serving "conn-1" burst
                    ltac:(vm_compute; lia))).
  vm_compute. reflexivity.
Defined.

End RollingWindowInstance.

(** ** Collecting the metrics *)

Section Deltas.
Import gateway.

Variable time_Format : Time -> string.

Lemma int64_id (x : Z) : - 9223372036854775808 <= x <= 9223372036854775807 -> int64 x = x.
Proof.
  intros Hx. unfold int64, wrap.
  change (2 ^ (64 - 1)) with 9223372036854775808.
  change (2 ^ 64) with 18446744073709551616.
  rewrite Z.mod_small; lia.
Qed.

(** A tenant has something to report. *)
Definition has_delta (g : Gateway) (connID : string) : Prop :=
  exists m, metrics g !! connID = Some m /\ no_delta m = false.

Lemma collected_iff (g : Gateway) (r : MetricsReport) :
  r ∈ fst (CollectAndResetMetrics time_Format g) <->
  exists id m, metrics g !! id = Some m /\ no_delta m = false /\ r = report_of time_Format g id m.
Proof.
  unfold CollectAndResetMetrics. cbn [fst]. rewrite list_elem_of_omap. split.
  - intros ([id m] & Hin & Hf). apply elem_of_map_to_list in Hin. simpl in Hf.
    destruct (no_delta m) eqn:Hd; [discriminate|]. injection Hf as <-.
    exists id, m. auto.
  - intros (id & m & Hm & Hd & ->). exists (id, m). split.
    + apply elem_of_map_to_list, Hm.
    + simpl. rewrite Hd. reflexivity.
Qed.

Lemma collected_ids_NoDup (g : Gateway) :
  NoDup (map ConnectionID (fst (CollectAndResetMetrics time_Format g))).
Proof.
  unfold CollectAndResetMetrics. cbn [fst].
  pose proof (NoDup_fst_map_to_list (metrics g)) as Hnd.
  induction (map_to_list (metrics g)) as [|[id m] l IH]; simpl; [constructor|].
  apply NoDup_cons in Hnd as [Hid Hnd]. specialize (IH Hnd).
  destruct (no_delta m); simpl; [exact IH|].
  apply NoDup_cons. split; [|exact IH].
  intros Hin. apply Hid.
  apply list_elem_of_fmap in Hin as (r & Hr & Hin).
  apply list_elem_of_omap in Hin as ([id' m'] & Hin' & Hf). simpl in Hf.
  destruct (no_delta m'); [discriminate|]. injection Hf as <-. simpl in Hr. subst id'.
  apply list_elem_of_fmap. exists (id, m'). split; [reflexivity | exact Hin'].
Qed.

(** X2. A collection reports exactly the tenants with a non-zero counter,
    each one once: a report belongs to the result if and only if it is the
    report of a metrics entry with a request, error or auth-failure count
    other than zero, and no two reports carry the same connection id. A
    tenant with sessions but no traffic is not reported. *)
Theorem CollectAndResetMetrics_reports_exactly_the_deltas (g : Gateway) :
  (forall r, In r (fst (CollectAndResetMetrics time_Format g)) <->
     exists id m, metrics g !! id = Some m /\ no_delta m = false /\
                  r = report_of time_Format g id m) /\
  NoDup (map ConnectionID (fst (CollectAndResetMetrics time_Format g))) /\
  (forall id, In id (map ConnectionID (fst (CollectAndResetMetrics time_Format g))) <->
     has_delta g id).
Proof.
  split; [|split].
  - intros r. rewrite <- list_elem_of_In. apply collected_iff.
  - apply collected_ids_NoDup.
  - intros id. rewrite <- list_elem_of_In, list_elem_of_fmap. split.
    + intros (r & -> & Hr). apply collected_iff in Hr as (id' & m & Hm & Hd & ->).
      exists m. auto.
    + intros (m & Hm & Hd). exists (report_of time_Format g id m). split; [reflexivity|].
      apply collected_iff. eauto.
Qed.

(** The counters of a tenant; a missing entry counts as zeros. *)
Definition entry_of (g : Gateway) (connID : string) : Metrics :=
  match metrics g !! connID with
  | Some m => m
  | None => emptyMetrics
  end.

Definition errors_in (samples : list Sample) : Z :=
  Z.of_nat (length (List.filter sample_error samples)).

Lemma entry_of_RecordRequest (g : Gateway) (connID : string) (x : Z) (e : bool)
    (now : Time) :
  let m := entry_of g connID in
  let m' := entry_of (RecordRequest g connID x e now) connID in
  RequestCount m' = int64 (RequestCount m + 1) /\
  ErrorCount m' = (if e then int64 (ErrorCount m + 1) else ErrorCount m) /\
  AuthFailures m' = AuthFailures m /\
  LastRequestAt m' = Some now /\
  metrics (RecordRequest g connID x e now) !! connID = Some m'.
Proof.
  unfold entry_of, RecordRequest. simpl. rewrite lookup_insert_eq.
  destruct (metrics g !! connID); simpl; auto.
Qed.

Lemma record_all_counts (connID : string) (samples : list Sample) (g : Gateway) :
  let m := entry_of g connID in
  let m' := entry_of (record_all connID samples g) connID in
  0 <= RequestCount m -> 0 <= ErrorCount m ->
  RequestCount m + Z.of_nat (length samples) < 2 ^ 63 ->
  ErrorCount m + Z.of_nat (length samples) < 2 ^ 63 ->
  RequestCount m' = RequestCount m + Z.of_nat (length samples) /\
  ErrorCount m' = ErrorCount m + errors_in samples /\
  AuthFailures m' = AuthFailures m.
Proof.
  cbv zeta. induction samples as [|s samples IH] using rev_ind; intros Hr He Hrn Hen.
  - simpl. unfold errors_in. simpl. lia.
  - rewrite length_app in Hrn, Hen. simpl in Hrn, Hen.
    destruct IH as (IHr & IHe & IHa); [lia..|].
    rewrite record_all_snoc.
    destruct (entry_of_RecordRequest (record_all connID samples g) connID
                (sample_latency s) (sample_error s) (sample_at s))
      as (Er & Ee & Ea & _ & _).
    assert (Hle : 0 <= errors_in samples <= Z.of_nat (length samples)).
    { unfold errors_in. pose proof (List.filter_length_le sample_error samples). lia. }
    change (2 ^ 63) with 9223372036854775808 in *.
    rewrite Er, Ee, Ea, IHr, IHe, IHa, length_app. simpl.
    unfold errors_in in *. rewrite List.filter_app, length_app. simpl.
    repeat split.
    + rewrite int64_id; lia.
    + destruct (sample_error s); simpl; [rewrite int64_id|]; lia.
Qed.

Lemma collected_quiet (g : Gateway) (id : string) (m : Metrics) :
  metrics (snd (CollectAndResetMetrics time_Format g)) !! id = Some m -> no_delta m = true.
Proof.
  simpl. rewrite lookup_fmap.
  destruct (metrics g !! id) as [m0|]; simpl; [|discriminate].
  intros [= <-]. destruct (no_delta m0) eqn:H; [exact H | reflexivity].
Qed.

Lemma no_delta_zero (m : Metrics) :
  no_delta m = true ->
  RequestCount m = 0 /\ ErrorCount m = 0 /\ AuthFailures m = 0.
Proof.
  unfold no_delta. rewrite !andb_true_iff, !Z.eqb_eq. tauto.
Qed.

Lemma record_all_other (connID other : string) (samples : list Sample) (g : Gateway) :
  other <> connID ->
  metrics (record_all connID samples g) !! other = metrics g !! other.
Proof.
  intros Hne. induction samples as [|s samples IH] using rev_ind; [reflexivity|].
  rewrite record_all_snoc, RecordRequest_other by exact Hne. exact IH.
Qed.

Lemma record_all_entry (connID : string) (samples : list Sample) (g : Gateway) :
  samples <> [] ->
  metrics (record_all connID samples g) !! connID
  = Some (entry_of (record_all connID samples g) connID).
Proof.
  destruct samples as [|s samples] using rev_ind; [congruence|]. intros _.
  rewrite record_all_snoc.
  apply (entry_of_RecordRequest (record_all connID samples g) connID).
Qed.

Lemma singleton_of_NoDup {A B} (f : A -> B) (l : list A) (a : A) :
  NoDup (map f l) -> In a l -> (forall x, In x l -> f x = f a) -> l = [a].
Proof.
  intros Hnd Ha Hall. destruct l as [|x l]; [destruct Ha|].
  simpl in Hnd. apply NoDup_cons in Hnd as [Hx Hnd].
  destruct l as [|y l].
  - destruct Ha as [->|[]]. reflexivity.
  - exfalso. apply Hx. rewrite list_elem_of_In. simpl. left.
    rewrite (Hall x), (Hall y); simpl; auto.
Qed.

Lemma record_all_last (connID : string) (samples : list Sample) (s : Sample)
    (g : Gateway) :
  last samples = Some s ->
  LastRequestAt (entry_of (record_all connID samples g) connID) = Some (sample_at s).
Proof.
  destruct samples as [|s' samples] using rev_ind; [discriminate|].
  rewrite last_snoc. intros [= ->]. rewrite record_all_snoc.
  apply (entry_of_RecordRequest (record_all connID samples g) connID).
Qed.

(** X3. What a report counts is the traffic since the previous collection.
    When, after a collection, only one tenant serves requests (fewer than
    2^63 of them), the next collection is one report, for that tenant: its
    request count is the number of requests, its error count the number of
    those flagged as errors, its auth failures are zero, its P95 is that
    of the latencies in the ring, and its last request time is the RFC3339
    text of the time of the last request. *)
Theorem counters_are_deltas (g : Gateway) (connID : string)
    (samples : list Sample) (s : Sample) :
  let g1 := snd (CollectAndResetMetrics time_Format g) in
  let g2 := record_all connID samples g1 in
  last samples = Some s ->
  Z.of_nat (length samples) < 2 ^ 63 ->
  exists r,
    fst (CollectAndResetMetrics time_Format g2) = [r] /\
    ConnectionID r = connID /\
    Report_RequestCount r = Z.of_nat (length samples) /\
    Report_ErrorCount r = errors_in samples /\
    Report_AuthFailures r = 0 /\
    P95LatencyMs r = p95_of (latencies_of g2 connID) /\
    Report_LastRequestAt r = time_Format (sample_at s).
Proof.
  intros g1 g2 Hlast Hn.
  assert (Hne : samples <> []) by (intros ->; discriminate).
  assert (Hquiet : no_delta (entry_of g1 connID) = true).
  { unfold entry_of. destruct (metrics g1 !! connID) as [m|] eqn:Hm; [|reflexivity].
    eapply collected_quiet, Hm. }
  apply no_delta_zero in Hquiet as (Hr & He & Ha).
  destruct (record_all_counts connID samples g1) as (Cr & Ce & Ca);
    [fold g1; lia..|].
  fold g1 g2 in Cr, Ce, Ca. rewrite Hr in Cr. rewrite He in Ce. rewrite Ha in Ca.
  pose proof (record_all_entry connID samples g1 Hne) as Hentry. fold g2 in Hentry.
  pose proof (record_all_last connID samples s g1 Hlast) as Hat. fold g2 in Hat.
  assert (Hlive : no_delta (entry_of g2 connID) = false).
  { unfold no_delta. rewrite Cr.
    destruct samples; [congruence|]. simpl length.
    destruct (Z.eqb_spec (0 + Z.of_nat (S (length samples))) 0); [lia | reflexivity]. }
  exists (report_of time_Format g2 connID (entry_of g2 connID)).
  split; [|unfold report_of, latencies_of; simpl; rewrite Cr, Ce, Ca, Hat, Hentry;
           repeat split; lia].
  apply (singleton_of_NoDup ConnectionID).
  - apply collected_ids_NoDup.
  - apply list_elem_of_In, collected_iff. exists connID, (entry_of g2 connID). auto.
  - intros x Hx. apply list_elem_of_In, collected_iff in Hx as (id & m & Hm & Hd & ->).
    simpl. destruct (decide (id = connID)) as [->|Hother]; [reflexivity|].
    exfalso. unfold g2 in Hm. rewrite record_all_other in Hm by exact Hother.
    apply collected_quiet in Hm. congruence.
Qed.

End Deltas.

Section DeltasInstance.
Import gateway.

(** Three requests of the sample tenant, the second one an error. *)
Definition three_requests : list Sample :=
  [mkSample 7 false 3000000000; mkSample 9 true 4000000000;
   mkSample 8 false 5500000000].

Lemma counters_are_deltas_witness :
  let g2 := record_all "conn-1" three_requests
              (snd (CollectAndResetMetrics sample.time_Format serving)) in
  last three_requests = Some (mkSample 8 false 5500000000) /\
  Z.of_nat (length three_requests) < 2 ^ 63 /\
  exists r,
    fst (CollectAndResetMetrics sample.time_Format g2) = [r] /\
    ConnectionID r = "conn-1"%string /\
    Report_RequestCount r = 3 /\
    Report_ErrorCount r = 1 /\
    Report_AuthFailures r = 0 /\
    P95LatencyMs r = 9 /\
    Report_LastRequestAt r = "5"%string.
Proof.
  intros g2.
  assert (H1 : last three_requests = Some (mkSample 8 false 5500000000))
    by reflexivity.
  assert (H2 : Z.of_nat (length three_requests) < 2 ^ 63) by (vm_compute; reflexivity).
  split; [exact H1|]. split; [exact H2|].
  destruct (counters_are_deltas sample.time_Format serving "conn-1" three_requests
              (mkSample 8 false 5500000000) H1 H2)
    as (r & R1 & R2 & R3 & R4 & R5 & R6 & R7).
  exists r. split; [exact R1|]. split; [exact R2|]. split; [exact R3|].
  split; [exact R4|]. split; [exact R5|]. split; [rewrite R6; vm_compute; reflexivity|].
  rewrite R7. vm_compute. reflexivity.
Defined.

End DeltasInstance.

(** ** Reporting the metrics *)

Module reporting.
Import gateway.

(** The POST that [reportMetrics] sends to the control plane. *)
Record MetricsPush := mkMetricsPush {
  push_url : string;
  push_Authorization : string;
  push_Content_Type : string;
  push_metrics : list MetricsReport
}.

(** [reportMetrics]: one metrics tick. [request_built] tells whether
    [http.NewRequest] accepted the URL. The result is the request handed
    to the HTTP client, if any, and the gateway state left behind; what the
    control plane answers is logged and changes nothing. Encoding the
    reports cannot fail: every number in them is finite. *)
Definition reportMetrics (time_Format : Time -> string) (p : Poller) (g : Gateway)
    (request_built : bool) : option MetricsPush * Gateway :=
  let (reports, g) := CollectAndResetMetrics time_Format g in
  if (length reports =? 0)%nat then (None, g)
  else if negb request_built then (None, g)
  else
    (Some (mkMetricsPush (apiURL p ++ "/internal/gateway/metrics")
             ("Bearer " ++ token p) "application/json" reports),
     g).

End reporting.

Section Reporting.
Import gateway reporting.

Variable time_Format : Time -> string.

Lemma collected_nil_iff (g : Gateway) :
  fst (CollectAndResetMetrics time_Format g) = [] <-> (forall id, ~ has_delta g id).
Proof.
  split.
  - intros Hnil id (m & Hm & Hd).
    assert (Hin : report_of time_Format g id m ∈ fst (CollectAndResetMetrics time_Format g))
      by (apply collected_iff; eauto).
    rewrite Hnil in Hin. inversion Hin.
  - intros Hquiet. destruct (fst (CollectAndResetMetrics time_Format g)) as [|r l] eqn:Hl;
      [reflexivity|].
    assert (Hin : r ∈ fst (CollectAndResetMetrics time_Format g)) by (rewrite Hl; left).
    apply collected_iff in Hin as (id & m & Hm & Hd & _).
    exfalso. apply (Hquiet id). exists m. auto.
Qed.

(** X4. A metrics tick sends a request exactly when some tenant has a
    non-zero counter (and the URL is usable); the request carries the
    poller's current token and all the collected reports. Whether or not
    anything was sent, the tick leaves every counter at zero, so a second
    tick without traffic in between sends nothing: deltas of a push that
    failed are not retried. The tick removes no metrics entry, keeps each
    tenant's last request time, and leaves the registry and the connection
    objects alone. *)
Theorem reportMetrics_pushes_once (p : Poller) (g : Gateway) (built built' : bool) :
  let sent := fst (reportMetrics time_Format p g built) in
  let g1 := snd (reportMetrics time_Format p g built) in
  (is_Some sent <-> built = true /\ exists id, has_delta g id) /\
  (forall push, sent = Some push ->
     push_Authorization push = ("Bearer " ++ token p)%string /\
     push_metrics push = fst (CollectAndResetMetrics time_Format g)) /\
  fst (reportMetrics time_Format p g1 built') = None /\
  (forall id m, metrics g !! id = Some m ->
     exists m1, metrics g1 !! id = Some m1 /\ no_delta m1 = true /\
                LastRequestAt m1 = LastRequestAt m) /\
  (forall id, metrics g !! id = None -> metrics g1 !! id = None) /\
  connections g1 = connections g /\ heap g1 = heap g.
Proof.
  assert (Hg1 : snd (reportMetrics time_Format p g built) = snd (CollectAndResetMetrics time_Format g)).
  { unfold reportMetrics. destruct (CollectAndResetMetrics time_Format g) as [reports g0].
    destruct (length reports =? 0)%nat; [reflexivity|].
    destruct built; reflexivity. }
  cbv zeta. rewrite Hg1. split; [|split; [|split; [|split; [|split]]]].
  - unfold reportMetrics.
    pose proof (collected_nil_iff g) as Hnil.
    pose proof (collected_iff time_Format g) as Hiff.
    destruct (CollectAndResetMetrics time_Format g) as [reports g0]. cbn [fst] in Hnil, Hiff.
    destruct reports as [|r reports]; simpl.
    + split; [intros [x Hx]; discriminate|].
      intros [_ [id Hid]]. exfalso. exact (proj1 Hnil eq_refl id Hid).
    + destruct built; simpl.
      * split; [|eauto]. intros _. split; [reflexivity|].
        destruct (proj1 (Hiff r)) as (id & m & Hm & Hd & _); [left|].
        exists id, m. auto.
      * split; [intros [x Hx]; discriminate | intros [H _]; discriminate].
  - intros push. unfold reportMetrics.
    destruct (CollectAndResetMetrics time_Format g) as [reports g0]. cbn [fst].
    destruct (length reports =? 0)%nat; [discriminate|].
    destruct built; simpl; [|discriminate].
    intros [= <-]. split; reflexivity.
  - unfold reportMetrics.
    assert (Hq : fst (CollectAndResetMetrics time_Format (snd (CollectAndResetMetrics time_Format g))) = []).
    { apply collected_nil_iff. intros id (m & Hm & Hd).
      apply collected_quiet in Hm. congruence. }
    destruct (CollectAndResetMetrics time_Format (snd (CollectAndResetMetrics time_Format g))) as [reports g0].
    cbn [fst] in Hq. subst reports. reflexivity.
  - intros id m Hm. simpl. rewrite lookup_fmap, Hm. simpl.
    eexists. split; [reflexivity|].
    destruct (no_delta m) eqn:Hd; simpl; auto.
  - intros id Hm. simpl. rewrite lookup_fmap, Hm. reflexivity.
  - split; reflexivity.
Qed.

End Reporting.

(** ** The rate window over many decisions *)

Section RateWindow.
Import gateway.

Lemma ceiling_positive (c : Connection) : 0 < ceiling c.
Proof. unfold ceiling. destruct (Z.leb_spec (RateLimit (Config c)) 0); lia. Qed.

Lemma window_length (now : Time) (reqs : list Time) :
  (length (window now reqs) <= length reqs)%nat.
Proof. apply List.filter_length_le. Qed.

Lemma window_In (now t : Time) (reqs : list Time) :
  In t (window now reqs) <-> In t reqs /\ now - Minute < t.
Proof. unfold window. rewrite List.filter_In, Z.ltb_lt. reflexivity. Qed.

(** What a run of decisions leaves of a connection. *)
Lemma decisions_frame (ts : list Time) :
  forall c : Connection,
    let c' := snd (decisions ts c) in
    Z.of_nat (length (requests c'))
      <= Z.max (Z.of_nat (length (requests c))) (ceiling c) /\
    (forall t, In t (requests c') -> In t (requests c) \/ In t ts) /\
    Config c' = Config c /\ Handler c' = Handler c /\ sessions c' = sessions c.
Proof.
  induction ts as [|t ts IH]; intros c; cbv zeta; simpl.
  - repeat split; auto; lia.
  - pose proof (window_length t (requests c)) as Hlen.
    rewrite CheckRateLimit_spec.
    destruct (Z.leb_spec (ceiling c) (Z.of_nat (length (window t (requests c)))))
      as [Hfull|Hroom].
    + specialize
        (IH (mkConnection (Config c) (Handler c) (window t (requests c)) (sessions c))).
      destruct (decisions ts _) as [oks c2]. simpl in *.
      destruct IH as (IH1 & IH2 & IH3 & IH4 & IH5).
      change (ceiling (mkConnection (Config c) (Handler c) (window t (requests c))
                         (sessions c))) with (ceiling c) in IH1.
      repeat split; auto; [lia|].
      intros x Hx. destruct (IH2 x Hx) as [H|H]; [|auto].
      apply window_In in H. tauto.
    + specialize
        (IH (mkConnection (Config c) (Handler c) (window t (requests c) ++ [t])
               (sessions c))).
      destruct (decisions ts _) as [oks c2]. simpl in *.
      destruct IH as (IH1 & IH2 & IH3 & IH4 & IH5).
      change (ceiling (mkConnection (Config c) (Handler c)
                         (window t (requests c) ++ [t]) (sessions c)))
        with (ceiling c) in IH1.
      rewrite length_app in IH1. simpl in IH1.
      repeat split; auto; [lia|].
      intros x Hx. destruct (IH2 x Hx) as [H|H]; [|auto].
      apply in_app_or in H as [H|[<-|[]]]; [|auto].
      apply window_In in H. tauto.
Qed.

(** X5. The rate window is bounded: whatever the times of the decisions
    and whatever their order, after any run of decisions the window holds
    no more timestamps than the larger of the ceiling and what it held
    before the run, and only timestamps it held before or times of the
    run. In particular a window that starts within its ceiling never
    outgrows it, however many requests are refused. *)
Theorem rate_window_is_bounded (ts : list Time) (c : Connection) :
  let c' := snd (decisions ts c) in
  Z.of_nat (length (requests c'))
    <= Z.max (Z.of_nat (length (requests c))) (ceiling c) /\
  (forall t, In t (requests c') -> In t (requests c) \/ In t ts) /\
  Config c' = Config c /\ sessions c' = sessions c.
Proof.
  destruct (decisions_frame ts c) as (H1 & H2 & H3 & _ & H5). auto.
Qed.

(** X6. Refusals do not prolong a block. Once every timestamp of the
    window and every request made since, admitted or refused, is at least
    60 seconds old, the next request is admitted, and the window then
    holds that request alone. *)
Theorem quiet_minute_readmits (ts : list Time) (c : Connection) (now : Time) :
  (forall t, In t (requests c) \/ In t ts -> t <= now - Minute) ->
  CheckRateLimit (snd (decisions ts c)) now
  = (true, mkConnection (Config c) (Handler c) [now] (sessions c)).
Proof.
  intros Hold.
  destruct (decisions_frame ts c) as (_ & Hin & Hc & Hh & Hs).
  rewrite CheckRateLimit_spec.
  assert (Hnil : window now (requests (snd (decisions ts c))) = []).
  { destruct (window now _) as [|x l] eqn:Hw; [reflexivity|].
    assert (Hx : In x (window now (requests (snd (decisions ts c)))))
      by (rewrite Hw; left; reflexivity).
    apply window_In in Hx as [Hx Hlate].
    specialize (Hold x (Hin x Hx)). lia. }
  rewrite Hnil. simpl.
  assert (Hceil : ceiling (snd (decisions ts c)) = ceiling c)
    by (unfold ceiling; rewrite Hc; reflexivity).
  pose proof (ceiling_positive c).
  change (Z.of_nat 0) with 0.
  destruct (Z.leb_spec (ceiling (snd (decisions ts c))) 0); [lia|].
  rewrite Hc, Hh, Hs. reflexivity.
Qed.

End RateWindow.

Section RateWindowInstance.
Import gateway.

(** The sample tenant (ceiling 3) refuses two of five requests made within
    two seconds, and admits the one made a minute after the last of them. *)
Lemma quiet_minute_readmits_witness :
  let ts := [3000000000; 3500000000; 4000000000; 4500000000; 5000000000] in
  let c := sample.conn [] 0 in
  (forall t, In t (requests c) \/ In t ts -> t <= 65000000000 - Minute) /\
  fst (decisions ts c) = [true; true; true; false; false] /\
  CheckRateLimit (snd (decisions ts c)) 65000000000
  = (true, mkConnection (Config c) (Handler c) [65000000000] (sessions c)).
Proof.
  intros ts c.
  assert (H : forall t, In t (requests c) \/ In t ts -> t <= 65000000000 - Minute).
  { intros t [[]|Ht]. unfold ts in Ht. simpl in Ht. unfold Minute.
    repeat (destruct Ht as [<-|Ht]; [lia|]). destruct Ht. }
  split; [exact H|]. split; [vm_compute; reflexivity|].
  exact (quiet_minute_readmits ts c 65000000000 H).
Defined.

End RateWindowInstance.

(** ** What a configuration registers *)

Section Registering.
Import gateway.

Variable Registry : gmap string profiles.Profile.

(** Every pointer of the registry is allocated. *)
Definition allocated (g : Gateway) : Prop :=
  forall d l, connections g !! d = Some l -> is_Some (heap g !! l).

(** An entry can be served: its profile is registered, or its domain is
    served already by an object of that profile. *)
Definition serviceable (g : Gateway) (cc : ConnectionConfig) : Prop :=
  is_Some (Registry !! Profile cc) \/
  exists l c, connections g !! Domain cc = Some l /\ heap g !! l = Some c /\
              Profile (Config c) = Profile cc.

Definition put (st : applying) (cc : ConnectionConfig) (l : loc) (c : Connection)
  : applying :=
  mkApplying (<[Domain cc := l]> (newConns st)) (<[l := c]> (a_heap st))
    (ensure_metrics (ID cc) (a_metrics st)).

(** The four ways an iteration of the loop can go. *)
Inductive iteration (old : gmap string loc) (st : applying) (x : ConnectionConfig)
  : applying -> Prop :=
| it_disabled : Enabled x = false -> iteration old st x st
| it_reuse (l : loc) (e : Connection) :
    Enabled x = true ->
    old !! Domain x = Some l -> a_heap st !! l = Some e ->
    Profile (Config e) = Profile x ->
    iteration old st x
      (put st x l (mkConnection x (mcp.UpdateEnvVars (Handler e) (EnvVars x))
                     (requests e) (sessions e)))
| it_create (p : profiles.Profile) :
    Enabled x = true ->
    (forall l e, old !! Domain x = Some l -> a_heap st !! l = Some e ->
                 Profile (Config e) <> Profile x) ->
    Registry !! Profile x = Some p ->
    iteration old st x
      (put st x (fresh (dom (a_heap st)))
         (mkConnection x (mcp.NewHandler p (EnvVars x)) [] 0))
| it_skip :
    Enabled x = true ->
    (forall l e, old !! Domain x = Some l -> a_heap st !! l = Some e ->
                 Profile (Config e) <> Profile x) ->
    Registry !! Profile x = None ->
    iteration old st x st.

Lemma apply_one_iteration (old : gmap string loc) (st : applying)
    (x : ConnectionConfig) :
  iteration old st x (apply_one Registry old st x).
Proof.
  unfold apply_one. destruct (Enabled x) eqn:Hen; simpl; [|constructor; exact Hen].
  assert (Hnone :
    (forall l e, old !! Domain x = Some l -> a_heap st !! l = Some e ->
                 Profile (Config e) <> Profile x) ->
    iteration old st x
      match profiles.Get Registry (Profile x) with
      | Some p =>
          mkApplying (<[Domain x := fresh (dom (a_heap st))]> (newConns st))
            (<[fresh (dom (a_heap st)) :=
                 mkConnection x (mcp.NewHandler p (EnvVars x)) [] 0]> (a_heap st))
            (ensure_metrics (ID x) (a_metrics st))
      | None => st
      end).
  { intros Hno. unfold profiles.Get.
    destruct (Registry !! Profile x) as [p|] eqn:Hp.
    - exact (it_create old st x p Hen Hno Hp).
    - exact (it_skip old st x Hen Hno Hp). }
  destruct (existing_at old (a_heap st) (Domain x)) as [[l e]|] eqn:Hex.
  - apply existing_at_Some in Hex as [Hl He].
    destruct (String.eqb_spec (Profile (Config e)) (Profile x)) as [Hp|Hp].
    + exact (it_reuse old st x l e Hen Hl He Hp).
    + apply Hnone. intros l' e' Hl' He'. congruence.
  - apply Hnone. intros l e Hl He.
    assert (existing_at old (a_heap st) (Domain x) = Some (l, e))
      by (apply existing_at_Some; auto).
    congruence.
Qed.

(** Objects allocated before the apply stay allocated and keep the
    profile selector of their configuration. *)
Definition profiles_kept (g : Gateway) (st : applying) : Prop :=
  forall l c, heap g !! l = Some c ->
    exists c', a_heap st !! l = Some c' /\ Profile (Config c') = Profile (Config c).

Lemma profiles_kept_step (g : Gateway) (old : gmap string loc) (st : applying)
    (x : ConnectionConfig) :
  profiles_kept g st -> profiles_kept g (apply_one Registry old st x).
Proof.
  intros H l c Hl. destruct (H l c Hl) as (c1 & Hc1 & Hp1).
  destruct (apply_one_frame Registry old st x l c1 Hc1) as (c2 & Hc2 & Hlive).
  exists c2. split; [exact Hc2|]. unfold live in Hlive.
  injection Hlive as _ _ _ Hp. congruence.
Qed.

Lemma profiles_kept_init (g : Gateway) :
  profiles_kept g (mkApplying ∅ (heap g) (metrics g)).
Proof. intros l c Hl. exists c. auto. Qed.

Lemma profiles_kept_fresh (g : Gateway) (st : applying) :
  profiles_kept g st -> heap g !! fresh (dom (a_heap st)) = None.
Proof.
  intros H. destruct (heap g !! fresh (dom (a_heap st))) as [c|] eqn:Hc; [|reflexivity].
  destruct (H _ c Hc) as (c' & Hc' & _).
  exfalso. eapply fresh_not_allocated; [exact Hc' | reflexivity].
Qed.

(** The registry under construction holds the domains of the serviceable
    enabled entries met so far. *)
Definition registered_so_far (g : Gateway) (pre : list ConnectionConfig)
    (st : applying) : Prop :=
  forall d, is_Some (newConns st !! d) <->
    exists cc, In cc pre /\ Enabled cc = true /\ Domain cc = d /\ serviceable g cc.

Lemma registered_step (g : Gateway) (pre : list ConnectionConfig) (st : applying)
    (x : ConnectionConfig) :
  allocated g ->
  profiles_kept g st ->
  registered_so_far g pre st ->
  registered_so_far g (pre ++ [x]) (apply_one Registry (connections g) st x).
Proof.
  intros Halloc Hkept Hreg d.
  assert (Hsame : ~ (Enabled x = true /\ serviceable g x) ->
            (is_Some (newConns st !! d) <->
             exists cc, In cc (pre ++ [x]) /\ Enabled cc = true /\ Domain cc = d /\
                        serviceable g cc)).
  { intros Hx. rewrite (Hreg d). split.
    - intros (cc & Hin & H). exists cc. split; [apply in_or_app; auto | exact H].
    - intros (cc & Hin & Hen & Hd & Hs). apply in_app_or in Hin as [Hin|[<-|[]]].
      + exists cc. auto.
      + exfalso. apply Hx. auto. }
  assert (Hput : forall l c, Enabled x = true -> serviceable g x ->
            (is_Some (newConns (put st x l c) !! d) <->
             exists cc, In cc (pre ++ [x]) /\ Enabled cc = true /\ Domain cc = d /\
                        serviceable g cc)).
  { intros l c Hen Hs. unfold put. simpl.
    destruct (decide (Domain x = d)) as [Hd|Hd].
    - rewrite Hd, lookup_insert_eq. split; [|eauto].
      intros _. exists x. split; [apply in_or_app; right; left; reflexivity | auto].
    - rewrite lookup_insert_ne by exact Hd. rewrite (Hreg d). split.
      + intros (cc & Hin & H). exists cc. split; [apply in_or_app; auto | exact H].
      + intros (cc & Hin & Hen' & Hd' & Hs').
        apply in_app_or in Hin as [Hin|[<-|[]]]; [|contradiction].
        exists cc. auto. }
  destruct (apply_one_iteration (connections g) st x) as [Hen|l e Hen Hl He Hp|p Hen Hno Hp|Hen Hno Hp].
  - apply Hsame. intros [H _]. congruence.
  - apply Hput; [exact Hen|]. right.
    destruct (Halloc _ _ Hl) as [c0 Hc0].
    destruct (Hkept _ _ Hc0) as (c' & Hc' & Hp').
    exists l, c0. repeat split; [exact Hl | exact Hc0 | congruence].
  - apply Hput; [exact Hen|]. left. eauto.
  - apply Hsame. intros [_ [[p Hp']|(l & c & Hl & Hc & Hpc)]]; [congruence|].
    destruct (Hkept _ _ Hc) as (c' & Hc' & Hp').
    apply (Hno l c' Hl Hc'). congruence.
Qed.

Lemma registered_fold (g : Gateway) (ccs : list ConnectionConfig) :
  allocated g ->
  forall (pre : list ConnectionConfig) (st : applying),
    profiles_kept g st ->
    registered_so_far g pre st ->
    registered_so_far g (pre ++ ccs)
      (fold_left (apply_one Registry (connections g)) ccs st).
Proof.
  intros Halloc. induction ccs as [|x ccs IH]; intros pre st Hkept Hreg; simpl.
  - rewrite app_nil_r. exact Hreg.
  - replace (pre ++ x :: ccs) with ((pre ++ [x]) ++ ccs)
      by (rewrite <- app_assoc; reflexivity).
    apply IH; [apply profiles_kept_step, Hkept | apply registered_step; assumption].
Qed.

(** X7. After a configuration was applied, a domain is registered if and
    only if the configuration has an enabled entry for it that can be
    served: one whose profile is in the profile registry, or whose domain
    the gateway served before with an object of that same profile. So a
    tenant that the new configuration lacks or disables is no longer
    routed, and an entry with an unknown profile registers nothing. *)
Theorem ApplyConfig_registers_the_enabled_entries
    (cfg : GatewayConfig) (g : Gateway) (d : string) :
  allocated g ->
  (is_Some (connections (ApplyConfig Registry cfg g) !! d) <->
   exists cc, In cc (Connections cfg) /\ Enabled cc = true /\ Domain cc = d /\
              serviceable g cc).
Proof.
  intros Halloc. unfold ApplyConfig. simpl.
  apply (registered_fold g (Connections cfg) Halloc []).
  - apply profiles_kept_init.
  - intros d'. simpl. rewrite lookup_empty. split.
    + intros [x Hx]. discriminate.
    + intros (cc & [] & _).
Qed.

(** *** A tenant that starts afresh *)

Section Fresh.

Variables (g : Gateway) (d : string) (cc : ConnectionConfig) (p : profiles.Profile).

Hypothesis Halloc : allocated g.
Hypothesis Hknown : Registry !! Profile cc = Some p.
Hypothesis Hswitch : forall l c,
  connections g !! d = Some l -> heap g !! l = Some c ->
  Profile (Config c) <> Profile cc.

Definition created : Connection :=
  mkConnection cc (mcp.NewHandler p (EnvVars cc)) [] 0.

Definition fresh_inv (st : applying) (seen : bool) : Prop :=
  profiles_kept g st /\
  (seen = true ->
   exists l, newConns st !! d = Some l /\ heap g !! l = None /\
             a_heap st !! l = Some created).

Lemma fresh_step (st : applying) (seen : bool) (x : ConnectionConfig) :
  (is_entry d x = true -> x = cc) ->
  fresh_inv st seen ->
  fresh_inv (apply_one Registry (connections g) st x) (seen || is_entry d x).
Proof.
  intros Hx [Hkept Hseen]. split; [apply profiles_kept_step, Hkept|].
  unfold is_entry in *.
  destruct (apply_one_iteration (connections g) st x)
    as [Hen|l e Hen Hl He Hp|q Hen Hno Hq|Hen Hno Hq]; rewrite Hen in *; simpl in *.
  - rewrite orb_false_r. exact Hseen.
  - destruct (String.eqb_spec (Domain x) d) as [Hd|Hd].
    + exfalso. specialize (Hx eq_refl). subst x.
      rewrite Hd in Hl. destruct (Halloc _ _ Hl) as [c0 Hc0].
      destruct (Hkept _ _ Hc0) as (c' & Hc' & Hp').
      apply (Hswitch l c0 Hl Hc0). congruence.
    + rewrite orb_false_r. intros Hs. destruct (Hseen Hs) as (l' & H1 & H2 & H3).
      exists l'. rewrite !lookup_insert_ne; [auto | |exact Hd].
      intros ->. destruct (Halloc _ _ Hl) as [c0 Hc0]. congruence.
  - destruct (String.eqb_spec (Domain x) d) as [Hd|Hd].
    + specialize (Hx eq_refl). subst x. rewrite orb_true_r. intros _.
      exists (fresh (dom (a_heap st))). rewrite Hd, !lookup_insert_eq.
      split; [reflexivity|]. split; [apply profiles_kept_fresh, Hkept|].
      unfold created. congruence.
    + rewrite orb_false_r. intros Hs. destruct (Hseen Hs) as (l' & H1 & H2 & H3).
      exists l'. rewrite !lookup_insert_ne; [auto | |exact Hd].
      intros E. eapply fresh_not_allocated; [exact H3 | exact E].
  - destruct (String.eqb_spec (Domain x) d) as [Hd|Hd].
    + specialize (Hx eq_refl). subst x. congruence.
    + rewrite orb_false_r. exact Hseen.
Qed.

Lemma fresh_fold (ccs : list ConnectionConfig) :
  forall (st : applying) (seen : bool),
    (forall x, In x ccs -> is_entry d x = true -> x = cc) ->
    fresh_inv st seen ->
    fresh_inv (fold_left (apply_one Registry (connections g)) ccs st)
              (seen || existsb (is_entry d) ccs).
Proof.
  induction ccs as [|x ccs IH]; intros st seen Huniq Hinv; simpl.
  - rewrite orb_false_r. exact Hinv.
  - rewrite orb_assoc. apply IH.
    + intros y Hy. apply Huniq. right. exact Hy.
    + apply fresh_step; [|exact Hinv]. apply Huniq. left. reflexivity.
Qed.

End Fresh.

(** X8. A tenant that is new, or whose profile changed, starts afresh. If
    the configuration has one enabled entry [cc] for a domain, with a
    registered profile, and the gateway does not serve that domain with
    an object of that profile, then after the apply the domain is served
    by a newly allocated object: its configuration is [cc], its handler is
    new, its rate window is empty and its session counter is zero. What
    the previous object of the domain had counted is not carried over. *)
Theorem ApplyConfig_new_tenant_starts_afresh
    (cfg : GatewayConfig) (g : Gateway) (d : string) (cc : ConnectionConfig)
    (p : profiles.Profile) :
  allocated g ->
  In cc (Connections cfg) -> Enabled cc = true -> Domain cc = d ->
  (forall x, In x (Connections cfg) -> Enabled x = true -> Domain x = d -> x = cc) ->
  Registry !! Profile cc = Some p ->
  (forall l c, connections g !! d = Some l -> heap g !! l = Some c ->
               Profile (Config c) <> Profile cc) ->
  let g' := ApplyConfig Registry cfg g in
  exists l, connections g' !! d = Some l /\ heap g !! l = None /\
            heap g' !! l = Some (mkConnection cc (mcp.NewHandler p (EnvVars cc)) [] 0).
Proof.
  intros Halloc Hin Hen Hd Huniq Hp Hswitch. unfold ApplyConfig. simpl.
  destruct (fresh_fold g d cc p Halloc Hp Hswitch (Connections cfg)
              (mkApplying ∅ (heap g) (metrics g)) false) as [_ H].
  - intros x Hx Hentry. unfold is_entry in Hentry.
    apply andb_prop in Hentry as [He Hdx]. apply String.eqb_eq in Hdx. auto.
  - split; [apply profiles_kept_init | discriminate].
  - apply H. simpl. apply existsb_exists. exists cc. split; [exact Hin|].
    unfold is_entry. rewrite Hen, Hd, String.eqb_refl. reflexivity.
Qed.

End Registering.

Section RegisteringInstances.
Import gateway.

Definition moved_config : GatewayConfig := mkGatewayConfig "srv" "gw" "pepper" [moved] 3.

Lemma allocated_serving : allocated serving.
Proof.
  intros d l H. unfold serving in H. simpl in H.
  apply lookup_singleton_Some in H as [_ <-]. vm_compute. eauto.
Qed.

Lemma ApplyConfig_registers_the_enabled_entries_witness :
  allocated serving /\
  (is_Some (connections (ApplyConfig sample.Registry moved_config serving)
              !! "demo.example.com"%string) <->
   exists cc, In cc (Connections moved_config) /\ Enabled cc = true /\
              Domain cc = "demo.example.com"%string /\
              serviceable sample.Registry serving cc).
Proof.
  split; [exact allocated_serving|].
  exact (ApplyConfig_registers_the_enabled_entries sample.Registry moved_config
           serving "demo.example.com" allocated_serving).
Defined.

(** With the profile echo2 unknown, the apply drops the tenant. *)
Example unknown_profile_drops_the_tenant :
  connections (ApplyConfig sample.Registry moved_config serving) = ∅.
Proof. vm_compute. reflexivity. Qed.

Lemma ApplyConfig_new_tenant_starts_afresh_witness :
  let g' := ApplyConfig two_names moved_config serving in
  heap serving !! 1%positive = Some (sample.conn [1000000000; 2000000000] 1) /\
  exists l, connections g' !! "demo.example.com"%string = Some l /\
            heap serving !! l = None /\
            heap g' !! l = Some (mkConnection moved (mcp.NewHandler sample.echo ∅) [] 0).
Proof.
  split; [vm_compute; reflexivity|].
  apply (ApplyConfig_new_tenant_starts_afresh two_names moved_config serving
           "demo.example.com" moved sample.echo allocated_serving).
  - left. reflexivity.
  - reflexivity.
  - reflexivity.
  - intros x [<-|[]] _ _. reflexivity.
  - vm_compute. reflexivity.
  - intros l c Hl Hc. unfold serving in Hl. simpl in Hl.
    apply lookup_singleton_Some in Hl as [_ <-].
    vm_compute in Hc. injection Hc as <-. vm_compute. discriminate.
Defined.

End RegisteringInstances.

(** ** The poller over many ticks *)

Section Polling.
Import gateway.

Variable Registry : gmap string profiles.Profile.

Definition run_syncs (replies : list SyncReply) (pg : Poller * Gateway)
  : Poller * Gateway :=
  fold_left (fun pg r => syncConfig Registry (fst pg) (snd pg) r) replies pg.

(** X9. The registry is well formed at all times: starting from the empty
    gateway of [New], after any sequence of sync ticks, whatever the
    control plane answered and whatever configurations it sent, every
    pointer of the registry refers to an allocated connection object and
    no two domains share an object. *)
Theorem registry_well_formed_after_any_syncs (replies : list SyncReply) (p : Poller) :
  well_formed (snd (run_syncs replies (p, New))).
Proof.
  assert (H : forall pg, well_formed (snd pg) -> well_formed (snd (run_syncs replies pg))).
  { induction replies as [|r replies IH]; intros pg Hpg; simpl; [exact Hpg|].
    apply IH. rewrite syncConfig_gateway.
    destruct r as [| |status tok body]; try exact Hpg.
    destruct status as [|q|q]; try exact Hpg.
    repeat (destruct q as [q|q|]; try exact Hpg).
    destruct body as [| |[|] data]; try exact Hpg.
    apply well_formed_ApplyConfig, Hpg. }
  apply H, well_formed_New.
Qed.

(** A tick that counts as a failure: the transport failed, or a reply came
    with a status other than 200 and 304. *)
Definition failing (r : SyncReply) : Prop :=
  r = TransportError \/
  exists status tok body, r = Reply status tok body /\ status <> 200 /\ status <> 304.

(** The [X-Gateway-Token] header of a reply, empty when there is none. *)
Definition header_token (r : SyncReply) : string :=
  match r with
  | Reply _ tok _ => tok
  | _ => ""%string
  end.

(** The last non-empty token of a run of replies, or [tok] when none. *)
Definition latest_token (tok : string) (replies : list SyncReply) : string :=
  fold_left (fun t r => if String.eqb (header_token r) "" then t else header_token r)
    replies tok.

Lemma syncConfig_Reply (p : Poller) (g : Gateway) (status : Z) (tok : string)
    (body : SyncBody) :
  fst (syncConfig Registry p g (Reply status tok body))
  = with_failures (if String.eqb tok "" then p else with_token p tok)
      (if (status =? 304) || (status =? 200) then 0 else int64 (failures p + 1)).
Proof.
  unfold syncConfig.
  destruct (String.eqb tok ""); simpl;
    destruct (status =? 304); simpl; try reflexivity;
    destruct (status =? 200); simpl;
    try (destruct body as [| |[|] data]; reflexivity);
    destruct ((status =? 401) || (status =? 403)); reflexivity.
Qed.

Lemma syncConfig_poller (p : Poller) (g : Gateway) (r : SyncReply) :
  let p' := fst (syncConfig Registry p g r) in
  token p' = (if String.eqb (header_token r) "" then token p else header_token r) /\
  apiURL p' = apiURL p /\ traefikDir p' = traefikDir p /\
  (r = RequestError -> failures p' = failures p) /\
  (failing r -> failures p' = int64 (failures p + 1)) /\
  (forall status tok body, r = Reply status tok body ->
     status = 200 \/ status = 304 -> failures p' = 0).
Proof.
  destruct r as [| |status tok body]; cbv zeta.
  - simpl. repeat split; auto; try discriminate.
    intros [H|(s & t & b & H & _)]; discriminate.
  - simpl. repeat split; auto; discriminate.
  - rewrite syncConfig_Reply. cbn [header_token].
    split; [destruct (String.eqb tok ""); reflexivity|].
    split; [destruct (String.eqb tok ""); reflexivity|].
    split; [destruct (String.eqb tok ""); reflexivity|].
    split; [discriminate|]. split.
    + intros [H|(s & t & b & [= -> -> ->] & Hs1 & Hs2)]; [discriminate|].
      destruct (Z.eqb_spec s 304); [contradiction|].
      destruct (Z.eqb_spec s 200); [contradiction|].
      destruct (String.eqb t ""); reflexivity.
    + intros s t b [= -> -> ->] [->| ->]; reflexivity.
Qed.

Lemma run_syncs_token (replies : list SyncReply) :
  forall pg, token (fst (run_syncs replies pg)) = latest_token (token (fst pg)) replies.
Proof.
  induction replies as [|r replies IH]; intros pg; simpl; [reflexivity|].
  rewrite IH. f_equal. apply syncConfig_poller.
Qed.

Lemma run_syncs_failing (replies : list SyncReply) :
  forall pg,
    Forall failing replies ->
    0 <= failures (fst pg) ->
    failures (fst pg) + Z.of_nat (length replies) < 2 ^ 63 ->
    failures (fst (run_syncs replies pg)) = failures (fst pg) + Z.of_nat (length replies).
Proof.
  induction replies as [|r replies IH]; intros pg Hall H0 Hlt; simpl; [lia|].
  apply Forall_cons in Hall as [Hr Hall].
  simpl length in Hlt. change (2 ^ 63) with 9223372036854775808 in *.
  destruct (syncConfig_poller (fst pg) (snd pg) r) as (_ & _ & _ & _ & Hf & _).
  specialize (Hf Hr). rewrite int64_id in Hf by lia.
  rewrite IH; [|exact Hall|..]; rewrite Hf; lia.
Qed.

(** X10. The failure counter of the poller counts consecutive failures. A
    reply with status 200 or 304 sets it to zero, whatever its body (a 200
    whose body cannot be decoded resets it too, though nothing is
    applied); after such a reply, [k] ticks that each fail (a transport
    failure, or any other status) leave it at [k]. Throughout, the token
    of the poller is the last non-empty [X-Gateway-Token] header received,
    on whatever status it came, and the original token if none came. *)
Theorem failures_count_consecutive_failures (p : Poller) (g : Gateway)
    (status : Z) (tok : string) (body : SyncBody) (replies : list SyncReply) :
  status = 200 \/ status = 304 ->
  Forall failing replies ->
  Z.of_nat (length replies) < 2 ^ 63 ->
  let p' := fst (run_syncs (Reply status tok body :: replies) (p, g)) in
  failures p' = Z.of_nat (length replies) /\
  token p' = latest_token (token p) (Reply status tok body :: replies).
Proof.
  intros Hs Hall Hlt. cbv zeta. split; [|apply run_syncs_token].
  change (run_syncs (Reply status tok body :: replies) (p, g))
    with (run_syncs replies (syncConfig Registry p g (Reply status tok body))).
  destruct (syncConfig_poller p g (Reply status tok body)) as (_ & _ & _ & _ & _ & Hz).
  specialize (Hz status tok body eq_refl Hs).
  rewrite run_syncs_failing; [rewrite Hz; lia | exact Hall | rewrite Hz; lia |
                              rewrite Hz; lia].
Qed.

End Polling.

Section PollingInstance.
Import gateway.

(** A 200 with a body that cannot be decoded, then a transport failure
    and a 401 that carries a token. *)
Lemma failures_count_consecutive_failures_witness :
  let p := mkPoller "https://api" "t0" 7 "" in
  let rs := [TransportError; Reply 401 "t1" ReadFailed] in
  (200 = 200 \/ 200 = 304) /\ Forall failing rs /\
  Z.of_nat (length rs) < 2 ^ 63 /\
  failures (fst (run_syncs sample.Registry (Reply 200 "" Undecodable :: rs) (p, serving)))
  = 2 /\
  token (fst (run_syncs sample.Registry (Reply 200 "" Undecodable :: rs) (p, serving)))
  = "t1"%string.
Proof.
  intros p rs.
  assert (H1 : 200 = 200 \/ 200 = 304) by (left; reflexivity).
  assert (H2 : Forall failing rs).
  { apply Forall_cons. split; [left; reflexivity|].
    apply Forall_cons. split; [|apply Forall_nil; exact I].
    right. exists 401, "t1"%string, ReadFailed. repeat split; lia. }
  assert (H3 : Z.of_nat (length rs) < 2 ^ 63) by (vm_compute; reflexivity).
  split; [exact H1|]. split; [exact H2|]. split; [exact H3|].
  exact (failures_count_consecutive_failures sample.Registry p serving 200 ""
           Undecodable rs H1 H2 H3).
Defined.

End PollingInstance.

(** ** The protocol handler *)

Section Protocol.
Import json mcp.

(** The methods [HandleMessage] knows. *)
Definition known_methods : list string :=
  ["initialize"; "initialized"; "ping"; "tools/list"; "tools/call";
   "notifications/cancelled"]%string.

(** The code of the JSON-RPC error of a reply, if it has one. *)
Definition error_code (reply : option JSONRPCResponse) : option Z :=
  match reply with
  | Some resp => Code <$> Response_Error resp
  | None => None
  end.

(** Result and error exclude each other, and one of them is there. *)
Definition result_xor_error (resp : JSONRPCResponse) : Prop :=
  (is_Some (Response_Result resp) /\ Response_Error resp = None) \/
  (Response_Result resp = None /\ is_Some (Response_Error resp)).

Lemma handleToolsCall_shape (h : Handler) (req : JSONRPCRequest) :
  let resp := handleToolsCall h req in
  Response_JSONRPC resp = "2.0"%string /\ Response_ID resp = ID req /\
  result_xor_error resp /\
  (forall e, Response_Error resp = Some e -> Code e = InvalidParams) /\
  (is_Some (Response_Error resp) <-> unmarshal_ToolCallParams (Params req) = None).
Proof.
  unfold handleToolsCall, result_xor_error.
  destruct (unmarshal_ToolCallParams (Params req)) as [params|]; simpl.
  - destruct (profiles.CallTool _ _ _ _); simpl;
      (repeat split; eauto; try discriminate; intros [x Hx]; discriminate).
  - split; [reflexivity|]. split; [reflexivity|]. split; [right; eauto|].
    split; [intros e [= <-]; reflexivity|]. split; eauto.
Qed.

Lemma handleInitialize_shape (req : JSONRPCRequest) :
  let resp := handleInitialize req in
  Response_JSONRPC resp = "2.0"%string /\ Response_ID resp = ID req /\
  result_xor_error resp /\
  (forall e, Response_Error resp = Some e -> Code e = InvalidParams) /\
  (is_Some (Response_Error resp) <-> exists v, refused_version req v).
Proof.
  cbv zeta. destruct (handleInitialize_cases req) as [(v & Hv & Hid & Hres & Hcode)|[Hno Heq]].
  - destruct (Response_Error (handleInitialize req)) as [e|] eqn:He; [|discriminate].
    simpl in Hcode. injection Hcode as Hcode.
    repeat split; eauto.
    + unfold handleInitialize.
      destruct (match Params req with JNull => None | _ => _ end); reflexivity.
    + right. rewrite He. eauto.
    + intros e' [= <-]. exact Hcode.
  - rewrite Heq. unfold initialize_success, result_xor_error. simpl.
    repeat split; eauto; try discriminate.
    + intros [x Hx]. discriminate.
    + intros [v Hv]. exfalso. exact (Hno v Hv).
Qed.

(** X11. Every response of the protocol handler is well formed: its
    version string is "2.0"; it carries a result or an error and never
    both; its id is the id of the request, or null when the frame is not a
    request at all; and its error code, when it has one, is one of
    ParseError, InvalidRequest, MethodNotFound and InvalidParams, and is
    ParseError exactly when the frame did not decode. The handler never
    answers InternalError. *)
Theorem HandleMessage_response_is_well_formed (h : Handler) (raw : payload)
    (resp : JSONRPCResponse) :
  HandleMessage h raw = Some resp ->
  Response_JSONRPC resp = "2.0"%string /\
  result_xor_error resp /\
  Response_ID resp = match unmarshal_request raw with
                     | Some req => ID req
                     | None => JNull
                     end /\
  (forall e, Response_Error resp = Some e ->
     In (Code e) [ParseError; InvalidRequest; MethodNotFound; InvalidParams] /\
     (Code e = ParseError <-> unmarshal_request raw = None)).
Proof.
  unfold HandleMessage, result_xor_error.
  destruct (unmarshal_request raw) as [req|].
  2: { intros [= <-]. split; [reflexivity|].
       split; [right; split; [reflexivity | eexists; reflexivity]|].
       split; [reflexivity|]. intros e [= <-]. split; [simpl; auto | tauto]. }
  assert (Hinit := handleInitialize_shape req).
  assert (Hcall := handleToolsCall_shape h req).
  cbv zeta in Hinit, Hcall. unfold result_xor_error in Hinit, Hcall.
  destruct Hinit as (I1 & I2 & I3 & I4 & _).
  destruct Hcall as (T1 & T2 & T3 & T4 & _).
  assert (Herror : forall code msg resp',
            Some (mkResponse "2.0" (ID req) None (Some (mkError code msg))) = Some resp' ->
            In code [ParseError; InvalidRequest; MethodNotFound; InvalidParams] ->
            code <> ParseError ->
            Response_JSONRPC resp' = "2.0"%string /\
            (is_Some (Response_Result resp') /\ Response_Error resp' = None \/
             Response_Result resp' = None /\ is_Some (Response_Error resp')) /\
            Response_ID resp' = ID req /\
            (forall e, Response_Error resp' = Some e ->
               In (Code e) [ParseError; InvalidRequest; MethodNotFound; InvalidParams] /\
               (Code e = ParseError <-> Some req = None))).
  { intros code msg resp' [= <-] Hin Hne. split; [reflexivity|].
    split; [right; split; [reflexivity | eexists; reflexivity]|].
    split; [reflexivity|]. intros e [= <-]. split; [exact Hin|].
    split; [intros; contradiction | discriminate]. }
  assert (Hresult : forall resp0 resp',
            Some resp0 = Some resp' ->
            Response_JSONRPC resp0 = "2.0"%string ->
            Response_ID resp0 = ID req ->
            (is_Some (Response_Result resp0) /\ Response_Error resp0 = None \/
             Response_Result resp0 = None /\ is_Some (Response_Error resp0)) ->
            (forall e, Response_Error resp0 = Some e -> Code e = InvalidParams) ->
            Response_JSONRPC resp' = "2.0"%string /\
            (is_Some (Response_Result resp') /\ Response_Error resp' = None \/
             Response_Result resp' = None /\ is_Some (Response_Error resp')) /\
            Response_ID resp' = ID req /\
            (forall e, Response_Error resp' = Some e ->
               In (Code e) [ParseError; InvalidRequest; MethodNotFound; InvalidParams] /\
               (Code e = ParseError <-> Some req = None))).
  { intros resp0 resp' [= <-] H1 H2 H3 H4. split; [exact H1|]. split; [exact H3|].
    split; [exact H2|]. intros e He. rewrite (H4 e He).
    split; [simpl; auto | split; discriminate]. }
  destruct (negb (String.eqb (JSONRPC req) "2.0")).
  { intros H. eapply Herror; [exact H | simpl; auto | discriminate]. }
  destruct (String.eqb (Method req) "initialize").
  { intros H. eapply Hresult; [exact H | assumption..]. }
  destruct (String.eqb (Method req) "initialized"); [discriminate|].
  destruct (String.eqb (Method req) "ping").
  { intros H. eapply Hresult; [exact H | try reflexivity..].
    - left. split; [eexists; reflexivity | reflexivity].
    - intros e [=]. }
  destruct (String.eqb (Method req) "tools/list").
  { intros H. eapply Hresult; [exact H | try reflexivity..].
    - left. split; [eexists; reflexivity | reflexivity].
    - intros e [=]. }
  destruct (String.eqb (Method req) "tools/call").
  { intros H. eapply Hresult; [exact H | assumption..]. }
  destruct (String.eqb (Method req) "notifications/cancelled"); [discriminate|].
  intros H. eapply Herror; [exact H | simpl; auto | discriminate].
Qed.

Ltac settle_refusal :=
  simpl;
  repeat first [ progress intros
               | match goal with
                 | |- _ /\ _ => split
                 | |- _ <-> _ => split
                 | |- ~ _ => intro
                 end ];
  simpl in *;
  repeat match goal with
         | H : _ /\ _ |- _ => destruct H
         | H : is_Some None |- _ => destruct H as [? ?]; discriminate
         end;
  try discriminate; try congruence; try contradiction;
  try match goal with
      | H : ~ (_ \/ _) |- _ => solve [exfalso; apply H; auto 10]
      end;
  repeat match goal with
         | H : _ \/ _ |- _ => destruct H
         | H : _ /\ _ |- _ => destruct H
         | H : is_Some None |- _ => destruct H as [? ?]; discriminate
         end;
  try discriminate; try congruence; try contradiction; eauto.

(** X12. How a decoded request is refused. Its reply carries
    InvalidRequest exactly when its version string is not "2.0", whatever
    its method; MethodNotFound exactly when the version is "2.0" and the
    method is none of the six known ones (the match is exact, so a method
    name in another letter case is not found); and InvalidParams exactly
    when the version is "2.0" and either the method is initialize with a
    protocol version that is refused, or the method is tools/call with
    params that do not decode as tool call parameters. *)
Theorem refusals_are_classified (h : Handler) (raw : payload) (req : JSONRPCRequest) :
  unmarshal_request raw = Some req ->
  let code := error_code (HandleMessage h raw) in
  (code = Some InvalidRequest <-> JSONRPC req <> "2.0"%string) /\
  (code = Some MethodNotFound <->
   JSONRPC req = "2.0"%string /\ ~ In (Method req) known_methods) /\
  (code = Some InvalidParams <->
   JSONRPC req = "2.0"%string /\
   ((Method req = "initialize"%string /\ exists v, refused_version req v) \/
    (Method req = "tools/call"%string /\
     unmarshal_ToolCallParams (Params req) = None))).
Proof.
  intros Hdec. cbv zeta. unfold HandleMessage, known_methods, error_code. rewrite Hdec.
  assert (Hinit := handleInitialize_shape req).
  assert (Hcall := handleToolsCall_shape h req).
  cbv zeta in Hinit, Hcall.
  destruct Hinit as (_ & _ & _ & I4 & I5).
  destruct Hcall as (_ & _ & _ & T4 & T5).
  rewrite <- I5, <- T5. clear I5 T5.
  destruct (String.eqb_spec (JSONRPC req) "2.0") as [Hv|Hv]; simpl.
  2: { settle_refusal. }
  destruct (String.eqb_spec (Method req) "initialize") as [Hm|Hm].
  { destruct (Response_Error (handleInitialize req)) as [e|] eqn:He; simpl;
      [rewrite (I4 e eq_refl)|]; settle_refusal. }
  destruct (String.eqb_spec (Method req) "initialized") as [Hm1|Hm1];
    [settle_refusal|].
  destruct (String.eqb_spec (Method req) "ping") as [Hm2|Hm2]; [settle_refusal|].
  destruct (String.eqb_spec (Method req) "tools/list") as [Hm3|Hm3];
    [settle_refusal|].
  destruct (String.eqb_spec (Method req) "tools/call") as [Hm4|Hm4].
  { destruct (Response_Error (handleToolsCall h req)) as [e|] eqn:He; simpl;
      [rewrite (T4 e eq_refl)|]; settle_refusal. }
  destruct (String.eqb_spec (Method req) "notifications/cancelled") as [Hm5|Hm5];
    settle_refusal.
Qed.

(** X13. A tool that fails does not make a JSON-RPC error. For a
    tools/call request whose params decode, the tool named in them is
    called with the decoded arguments and the handler's environment; the
    reply is a result with one text block, holding the text the tool
    returned, or "Error: " followed by the message of its error with the
    flag [isError] set; and the serving layer, which counts a response as
    an error only when it carries a JSON-RPC error, counts neither. *)
Theorem tool_failure_is_reported_as_result (h : Handler) (raw : payload)
    (req : JSONRPCRequest) (params : ToolCallParams) :
  unmarshal_request raw = Some req ->
  JSONRPC req = "2.0"%string ->
  Method req = "tools/call"%string ->
  unmarshal_ToolCallParams (Params req) = Some params ->
  let outcome :=
    profiles.CallTool (profile h) (ToolCallParams_Name params)
      (ToolCallParams_Arguments params) (envVars h) in
  let block :=
    match outcome with
    | inl text => mkToolCallResult [mkContentBlock "text" text] false
    | inr err => mkToolCallResult [mkContentBlock "text" ("Error: " ++ err)] true
    end in
  HandleMessage h raw = Some (mkResponse "2.0" (ID req) (Some (OfToolCall block)) None) /\
  server.is_error (HandleMessage h raw) = false.
Proof.
  intros Hdec Hv Hm Hp. cbv zeta.
  assert (H : HandleMessage h raw = Some (handleToolsCall h req)).
  { unfold HandleMessage. rewrite Hdec, Hv, Hm. reflexivity. }
  rewrite H. unfold handleToolsCall. rewrite Hp.
  destruct (profiles.CallTool _ _ _ _); split; reflexivity.
Qed.

End Protocol.

Section ProtocolInstances.
Import json mcp.

(** A profile whose tool always fails. *)
Definition broken : profiles.Profile :=
  profiles.mkProfile "broken"
    [profiles.mkTool "fail" "Always fails" (JObject [])]
    (fun name _ _ => inr ("unknown tool: " ++ name)%string).

(** A request for a method spelled in another letter case. *)
Definition capital_ping : payload :=
  Parsed (JObject [("jsonrpc", JString "2.0"); ("id", JString "a");
                   ("method", JString "Ping")]%string).

(** A call of the tool named fail. *)
Definition call_fail : payload :=
  Parsed (JObject [("jsonrpc", JString "2.0"); ("id", JString "b");
                   ("method", JString "tools/call");
                   ("params", JObject [("name", JString "fail")])]%string).

Lemma HandleMessage_response_is_well_formed_witness :
  let h := NewHandler sample.echo ∅ in
  let resp := mkResponse "2.0" (JString "a") None
                (Some (mkError MethodNotFound "Method not found: Ping")) in
  HandleMessage h capital_ping = Some resp /\
  Response_JSONRPC resp = "2.0"%string /\
  result_xor_error resp /\
  Response_ID resp = match unmarshal_request capital_ping with
                     | Some req => ID req
                     | None => JNull
                     end /\
  (forall e, Response_Error resp = Some e ->
     In (Code e) [ParseError; InvalidRequest; MethodNotFound; InvalidParams] /\
     (Code e = ParseError <-> unmarshal_request capital_ping = None)).
Proof.
  intros h resp.
  assert (H : HandleMessage h capital_ping = Some resp) by (vm_compute; reflexivity).
  split; [exact H|].
  exact (HandleMessage_response_is_well_formed h capital_ping resp H).
Defined.

Lemma refusals_are_classified_witness :
  let h := NewHandler sample.echo ∅ in
  let req := mkRequest "2.0" (JString "a") "Ping" JNull in
  unmarshal_request capital_ping = Some req /\
  error_code (HandleMessage h capital_ping) = Some MethodNotFound /\
  (error_code (HandleMessage h capital_ping) = Some MethodNotFound <->
   JSONRPC req = "2.0"%string /\ ~ In (Method req) known_methods).
Proof.
  intros h req.
  assert (H : unmarshal_request capital_ping = Some req) by (vm_compute; reflexivity).
  split; [exact H|]. split; [vm_compute; reflexivity|].
  exact (proj1 (proj2 (refusals_are_classified h capital_ping req H))).
Defined.

Lemma tool_failure_is_reported_as_result_witness :
  let h := NewHandler broken ∅ in
  let req := mkRequest "2.0" (JString "b") "tools/call"
               (JObject [("name", JString "fail")]%string) in
  unmarshal_request call_fail = Some req /\
  unmarshal_ToolCallParams (Params req) = Some (mkToolCallParams "fail" JNull) /\
  HandleMessage h call_fail
  = Some (mkResponse "2.0" (JString "b")
            (Some (OfToolCall
                     (mkToolCallResult
                        [mkContentBlock "text" "Error: unknown tool: fail"] true)))
            None) /\
  server.is_error (HandleMessage h call_fail) = false.
Proof.
  intros h req.
  assert (H1 : unmarshal_request call_fail = Some req) by (vm_compute; reflexivity).
  assert (H2 : unmarshal_ToolCallParams (Params req)
               = Some (mkToolCallParams "fail" JNull)) by (vm_compute; reflexivity).
  split; [exact H1|]. split; [exact H2|].
  exact (tool_failure_is_reported_as_result h call_fail req
           (mkToolCallParams "fail" JNull) H1 eq_refl eq_refl H2).
Defined.

(** Params with two members that select the field Arguments, as the Go
    map of the request holds them, in key order: the second object is
    stored into the map of the first, whose other entries stay. *)
Example arguments_are_merged :
  unmarshal_ToolCallParams
    (JObject [("Arguments", JObject [("a", JString "x"); ("c", JString "1")]);
              ("arguments", JObject [("b", JString "y"); ("c", JString "2")]);
              ("name", JString "fail")]%string)
  = Some (mkToolCallParams "fail"
            (JObject [("a", JString "x"); ("b", JString "y");
                      ("c", JString "2")]%string)).
Proof. vm_compute. reflexivity. Qed.

(** A null between the two sets the field to nil, and the second object
    is stored into a new map. *)
Example arguments_after_null :
  unmarshal_ToolCallParams
    (JObject [("ARGUMENTS", JObject [("a", JString "x")]);
              ("Arguments", JNull);
              ("arguments", JObject [("b", JString "y")])]%string)
  = Some (mkToolCallParams "" (JObject [("b", JString "y")]%string)).
Proof. vm_compute. reflexivity. Qed.

End ProtocolInstances.

(** ** The authentication gate *)

Section Gate.
Import gateway server.

Variable time_Parse : string -> option Time.

Lemma prefix_app (p s : string) :
  String.prefix p s = true <-> exists k, s = (p ++ k)%string.
Proof.
  revert s. induction p as [|a p IH]; intros s.
  - split; [intros _; exists s; reflexivity | intros _; destruct s; reflexivity].
  - destruct s as [|b s]; simpl.
    + split; [discriminate | intros [k Hk]; discriminate].
    + destruct (Ascii.ascii_dec a b) as [->|Hne].
      * rewrite IH. split; intros [k Hk]; exists k.
        -- rewrite Hk. reflexivity.
        -- change (String b s = String b (p ++ k)%string) in Hk. congruence.
      * split; [discriminate|]. intros [k Hk].
        change (String b s = String a (p ++ k)%string) in Hk. congruence.
Qed.

Lemma substring_all (s : string) : String.substring 0 (String.length s) s = s.
Proof. induction s as [|a s IH]; simpl; [reflexivity | rewrite IH; reflexivity]. Qed.

Lemma substring_after (p k : string) :
  String.substring (String.length p) (String.length (p ++ k) - String.length p) (p ++ k)
  = k.
Proof.
  induction p as [|a p IH].
  - change ("" ++ k)%string with k. simpl. rewrite Nat.sub_0_r. apply substring_all.
  - change (String a p ++ k)%string with (String a (p ++ k)). exact IH.
Qed.

(** [strings.TrimPrefix(auth, "Bearer ")] on a header with the prefix. *)
Lemma bearer_key (key : string) :
  String.substring 7 (String.length ("Bearer " ++ key) - 7) ("Bearer " ++ key) = key.
Proof. exact (substring_after "Bearer " key). Qed.

Definition unauthorized : Response := http_Error "Unauthorized" StatusUnauthorized.
Definition rate_limited : Response :=
  http_Error "Rate limit exceeded" StatusTooManyRequests.

(** A request without a key that verifies is answered 401. *)
Lemma gate_refuses (g : Gateway) (conn : loc) (c : Connection)
    (r : Request) (clk : Clock) :
  (forall key,
      Authorization r = ("Bearer " ++ key)%string ->
      VerifyAPIKey time_Parse g c key (verify_now clk) = false) ->
  authenticateRequest time_Parse g conn c r clk
  = (inl unauthorized, RecordAuthFailure g (ID (Config c))).
Proof.
  intros Hbad. unfold authenticateRequest.
  destruct (String.eqb (Authorization r) "") eqn:Hempty; simpl; [reflexivity|].
  destruct (String.prefix "Bearer " (Authorization r)) eqn:Hp; simpl; [|reflexivity].
  apply prefix_app in Hp as [key Hkey].
  rewrite Hkey, bearer_key. rewrite (Hbad key Hkey). reflexivity.
Qed.

(** X14. The three outcomes of the authentication gate. A request whose
    Authorization header is "Bearer " followed by a key that verifies goes
    on to the rate limiter: it passes or is answered 429 as the limiter
    decides, the connection object is left as the limiter leaves it, and
    the metrics are not touched (a 429 counts neither as a request nor as
    an auth failure). Every other request (no header, another scheme or
    letter case, a key that does not verify) is answered 401: one auth
    failure is recorded for the tenant, and neither the rate window nor
    any other part of the connection object changes. *)
Theorem authenticateRequest_outcomes (g : Gateway) (conn : loc) (c : Connection)
    (r : Request) (clk : Clock) :
  let out := authenticateRequest time_Parse g conn c r clk in
  (forall key,
     Authorization r = ("Bearer " ++ key)%string ->
     VerifyAPIKey time_Parse g c key (verify_now clk) = true ->
     let decision := CheckRateLimit c (limit_now clk) in
     fst out = (if fst decision then inr tt else inl rate_limited) /\
     snd out = store_conn g conn (snd decision) /\
     metrics (snd out) = metrics g) /\
  ((forall key,
      Authorization r = ("Bearer " ++ key)%string ->
      VerifyAPIKey time_Parse g c key (verify_now clk) = false) ->
   fst out = inl unauthorized /\
   snd out = RecordAuthFailure g (ID (Config c)) /\
   heap (snd out) = heap g).
Proof.
  cbv zeta. split.
  - intros key Hauth Hkey. unfold authenticateRequest.
    rewrite Hauth, bearer_key, Hkey.
    assert (Hp : String.prefix "Bearer " ("Bearer " ++ key) = true)
      by (apply prefix_app; eauto).
    rewrite Hp. simpl.
    destruct (CheckRateLimit c (limit_now clk)) as [[|] c']; simpl; auto.
  - intros Hbad. rewrite (gate_refuses g conn c r clk Hbad). simpl. auto.
Qed.

(** A run of requests on one tenant, each one through the gate on the
    object as the previous one left it. *)
Definition gate_run (conn : loc) (rs : list (Request * Clock)) (g : Gateway)
  : list (Response + unit) * Gateway :=
  fold_left
    (fun acc rc =>
       match heap (snd acc) !! conn with
       | Some c =>
           let out := authenticateRequest time_Parse (snd acc) conn c (fst rc) (snd rc) in
           (fst acc ++ [fst out], snd out)
       | None => acc
       end)
    rs ([], g).

(** The request carries no key that verifies. *)
Definition wrong_key (g : Gateway) (c : Connection) (rc : Request * Clock) : Prop :=
  forall key,
    Authorization (fst rc) = ("Bearer " ++ key)%string ->
    VerifyAPIKey time_Parse g c key (verify_now (snd rc)) = false.

Lemma VerifyAPIKey_RecordAuthFailure (g : Gateway) (id : string) (c : Connection)
    (key : string) (now : Time) :
  VerifyAPIKey time_Parse (RecordAuthFailure g id) c key now
  = VerifyAPIKey time_Parse g c key now.
Proof. reflexivity. Qed.

Lemma AuthFailures_RecordAuthFailure (g : Gateway) (id : string) :
  AuthFailures (entry_of (RecordAuthFailure g id) id)
  = int64 (AuthFailures (entry_of g id) + 1).
Proof.
  unfold entry_of, RecordAuthFailure. simpl. rewrite lookup_insert_eq.
  destruct (metrics g !! id); reflexivity.
Qed.

Lemma gate_run_wrong_keys (conn : loc) (c : Connection) (rs : list (Request * Clock)) :
  forall (acc : list (Response + unit)) (g0 g : Gateway),
    heap g = heap g0 -> pepper g = pepper g0 ->
    heap g0 !! conn = Some c ->
    Forall (wrong_key g0 c) rs ->
    0 <= AuthFailures (entry_of g (ID (Config c))) ->
    AuthFailures (entry_of g (ID (Config c))) + Z.of_nat (length rs) < 2 ^ 63 ->
    let out := fold_left
      (fun acc rc =>
         match heap (snd acc) !! conn with
         | Some c =>
             let out := authenticateRequest time_Parse (snd acc) conn c (fst rc) (snd rc) in
             (fst acc ++ [fst out], snd out)
         | None => acc
         end) rs (acc, g) in
    fst out = acc ++ repeat (inl unauthorized) (length rs) /\
    heap (snd out) = heap g0 /\
    connections (snd out) = connections g /\
    AuthFailures (entry_of (snd out) (ID (Config c)))
    = AuthFailures (entry_of g (ID (Config c))) + Z.of_nat (length rs).
Proof.
  induction rs as [|rc rs IH]; intros acc g0 g Hheap Hpep Hc Hall H0 Hlt; cbv zeta.
  - simpl. rewrite app_nil_r. repeat split; auto; lia.
  - apply Forall_cons in Hall as [Hrc Hall].
    simpl fold_left. cbn [snd fst]. rewrite Hheap, Hc.
    rewrite (gate_refuses g conn c (fst rc) (snd rc)).
    2: { intros key Hkey. unfold VerifyAPIKey. rewrite Hpep. apply (Hrc key Hkey). }
    cbv zeta. cbn [fst snd].
    simpl length in Hlt. change (2 ^ 63) with 9223372036854775808 in *.
    pose proof (AuthFailures_RecordAuthFailure g (ID (Config c))) as Hcount.
    rewrite int64_id in Hcount by lia.
    specialize (IH (acc ++ [inl unauthorized]) g0 (RecordAuthFailure g (ID (Config c)))).
    cbv zeta in IH. destruct IH as (I1 & I2 & I3 & I4); auto; try (rewrite Hcount; lia).
    rewrite I1, I2, I3, I4, Hcount, <- app_assoc. simpl length.
    repeat split; auto. lia.
Qed.

(** X15. Requests with a wrong key are not rate limited. However many
    requests without a verifying key reach a tenant, and however fast,
    each one is answered 401 and none 429; the run leaves the connection
    objects, and so the rate window, exactly as they were, and adds one to
    the tenant's auth-failure counter per request. *)
Theorem wrong_keys_are_never_rate_limited (g : Gateway) (conn : loc) (c : Connection)
    (rs : list (Request * Clock)) :
  heap g !! conn = Some c ->
  Forall (wrong_key g c) rs ->
  0 <= AuthFailures (entry_of g (ID (Config c))) ->
  AuthFailures (entry_of g (ID (Config c))) + Z.of_nat (length rs) < 2 ^ 63 ->
  let out := gate_run conn rs g in
  fst out = repeat (inl unauthorized) (length rs) /\
  heap (snd out) = heap g /\
  connections (snd out) = connections g /\
  AuthFailures (entry_of (snd out) (ID (Config c)))
  = AuthFailures (entry_of g (ID (Config c))) + Z.of_nat (length rs).
Proof.
  intros Hc Hall H0 Hlt.
  exact (gate_run_wrong_keys conn c rs [] g g eq_refl eq_refl Hc Hall H0 Hlt).
Qed.

End Gate.

Section GateInstance.
Import gateway server.

(** Three requests on the sample tenant: a wrong key, no header at all,
    and the right key under a scheme in lower case. *)
Definition knocks : list (Request * Clock) :=
  [(mkRequest "Bearer wrong" "" "" [], sample_http.clock);
   (mkRequest "" "" "" [], sample_http.clock);
   (mkRequest "bearer secret" "" "" [], sample_http.clock)].

Lemma knocks_wrong :
  Forall (wrong_key sample_http.time_Parse serving
            (sample.conn [1000000000; 2000000000] 1)) knocks.
Proof.
  unfold knocks. repeat (apply Forall_cons; split); [| | |apply Forall_nil; exact I].
  - intros key Hkey. cbv [fst Authorization String.append] in Hkey.
    injection Hkey as <-. vm_compute. reflexivity.
  - intros key Hkey. cbv [fst Authorization String.append] in Hkey. discriminate.
  - intros key Hkey. cbv [fst Authorization String.append] in Hkey. discriminate.
Qed.

Lemma wrong_keys_are_never_rate_limited_witness :
  let c := sample.conn [1000000000; 2000000000] 1 in
  let out := gate_run sample_http.time_Parse 1%positive knocks serving in
  heap serving !! 1%positive = Some c /\
  fst out = repeat (inl unauthorized) 3 /\
  heap (snd out) = heap serving /\
  AuthFailures (entry_of (snd out) "conn-1") = 3.
Proof.
  intros c out.
  assert (H1 : heap serving !! 1%positive = Some c) by (vm_compute; reflexivity).
  assert (H2 : 0 <= AuthFailures (entry_of serving (ID (Config c))))
    by (vm_compute; discriminate).
  assert (H3 : AuthFailures (entry_of serving (ID (Config c)))
               + Z.of_nat (length knocks) < 2 ^ 63) by (vm_compute; reflexivity).
  destruct (wrong_keys_are_never_rate_limited sample_http.time_Parse serving
              1%positive c knocks H1 knocks_wrong H2 H3) as (R1 & R2 & _ & R4).
  split; [exact H1|]. split; [exact R1|]. split; [exact R2|]. exact R4.
Defined.

End GateInstance.

(** ** Request bodies and the two POST handlers *)

Section Bodies.
Import json gateway server.

Variable time_Parse : string -> option Time.
Variable decode : list Byte.byte -> payload.

(** What the reader delivers: the bytes of its reads up to and including
    the first read that comes with an error. *)
Fixpoint delivered (reads : list (list Byte.byte * bool)) : list Byte.byte :=
  match reads with
  | [] => []
  | (chunk, err) :: rest => chunk ++ (if err then [] else delivered rest)
  end.

Lemma readBody_delivered (reads : list (list Byte.byte * bool)) :
  forall body : list Byte.byte,
    (forall result, readBody reads body = Some result ->
                    result = body ++ delivered reads) /\
    (Z.of_nat (length (body ++ delivered reads)) <= 1024 * 1024 ->
     readBody reads body = Some (body ++ delivered reads)).
Proof.
  induction reads as [|[chunk err] reads IH]; intros body; simpl.
  - rewrite app_nil_r. split; [intros result [= <-]; reflexivity | reflexivity].
  - destruct err.
    + rewrite app_nil_r. split; [intros result [= <-]; reflexivity | reflexivity].
    + destruct (IH (body ++ chunk)) as [IH1 IH2].
      rewrite <- app_assoc in IH1, IH2.
      destruct (Z.gtb_spec (Z.of_nat (length (body ++ chunk))) (1024 * 1024))
        as [Hbig|Hsmall].
      * split; [discriminate|]. intros Hlen.
        rewrite app_assoc, length_app in Hlen. lia.
      * split; [exact IH1 | exact IH2].
Qed.

(** X16. The body a handler works on is what the client sent. Whenever
    the read loop returns a body, it is exactly the bytes the reader
    delivered, in order, whatever the sizes of the reads; and a body of at
    most 1 MiB is never refused, so the reply "Request too large" is given
    only to bodies over 1 MiB. *)
Theorem readBody_returns_the_delivered_bytes (reads : list (list Byte.byte * bool)) :
  (forall body, readBody reads [] = Some body -> body = delivered reads) /\
  (Z.of_nat (length (delivered reads)) <= 1024 * 1024 ->
   readBody reads [] = Some (delivered reads)) /\
  (readBody reads [] = None -> Z.of_nat (length (delivered reads)) > 1024 * 1024).
Proof.
  destruct (readBody_delivered reads []) as [H1 H2]. simpl in H1, H2.
  split; [exact H1|]. split; [exact H2|].
  intros Hnone.
  destruct (Z_le_gt_dec (Z.of_nat (length (delivered reads))) (1024 * 1024))
    as [Hle|Hgt]; [|exact Hgt].
  rewrite (H2 Hle) in Hnone. discriminate.
Qed.

Lemma authenticateRequest_frame (g : Gateway) (conn : loc) (c : Connection)
    (r : Request) (clk : Clock) :
  let out := authenticateRequest time_Parse g conn c r clk in
  let g' := snd out in
  connections g' = connections g /\ pepper g' = pepper g /\ version g' = version g /\
  (forall l, l <> conn -> heap g' !! l = heap g !! l) /\
  (heap g' !! conn = heap g !! conn \/
   exists c', heap g' !! conn = Some c' /\ Config c' = Config c /\
              Handler c' = Handler c /\ gateway.sessions c' = gateway.sessions c) /\
  (forall denied, fst out = inl denied ->
     StatusCode denied = StatusUnauthorized \/
     StatusCode denied = StatusTooManyRequests).
Proof.
  cbv zeta. unfold authenticateRequest.
  destruct (String.eqb (Authorization r) "" || _); simpl.
  { repeat split; auto. intros denied [= <-]. auto. }
  destruct (negb (VerifyAPIKey _ _ _ _ _)); simpl.
  { repeat split; auto. intros denied [= <-]. auto. }
  pose proof (CheckRateLimit_spec c (limit_now clk)) as Hspec.
  destruct (CheckRateLimit c (limit_now clk)) as [ok c'].
  assert (Hc' : Config c' = Config c /\ Handler c' = Handler c /\
                gateway.sessions c' = gateway.sessions c).
  { destruct (ceiling c <=? _) in Hspec; injection Hspec as _ ->; auto. }
  destruct ok; simpl.
  - split; [reflexivity|]. split; [reflexivity|]. split; [reflexivity|].
    split; [intros l Hl; apply lookup_insert_ne; congruence|].
    split; [right; exists c'; rewrite lookup_insert_eq; auto|].
    intros denied [=].
  - split; [reflexivity|]. split; [reflexivity|]. split; [reflexivity|].
    split; [intros l Hl; apply lookup_insert_ne; congruence|].
    split; [right; exists c'; rewrite lookup_insert_eq; auto|].
    intros denied [= <-]. auto.
Qed.

(** X17. POST /mcp keeps no session. Whatever the request, the handler
    leaves the session registry as it found it, and it changes neither
    the domain registry nor the pepper or the version, nor any connection
    object other than the one it serves. The session id of a 200 reply is
    the id the request carried, taken as it is, or a newly minted one that
    is kept nowhere. *)
Theorem handleStreamableHTTP_keeps_no_session (s : Server) (conn : loc)
    (c : Connection) (r : Request) (clk : Clock) :
  let o := handleStreamableHTTP time_Parse decode s conn c r clk in
  server.sessions (after o) = server.sessions s /\
  connections (gw (after o)) = connections (gw s) /\
  pepper (gw (after o)) = pepper (gw s) /\
  version (gw (after o)) = version (gw s) /\
  (forall l, l <> conn -> heap (gw (after o)) !! l = heap (gw s) !! l) /\
  (StatusCode (reply o) = StatusOK ->
   Header_Get (Header (reply o)) "mcp-session-id"
   = if String.eqb (mcp_session_id r) ""
     then generateSessionID (mint_UnixNano clk) (mint_UnixMicro clk)
     else mcp_session_id r).
Proof.
  cbv zeta. unfold handleStreamableHTTP.
  destruct (authenticateRequest_frame (gw s) conn c r clk)
    as (F1 & F2 & F3 & F4 & _ & F6).
  destruct (authenticateRequest time_Parse (gw s) conn c r clk) as [[denied|[]] g];
    simpl in F1, F2, F3, F4, F6.
  - simpl. split; [reflexivity|]. split; [exact F1|]. split; [exact F2|].
    split; [exact F3|]. split; [exact F4|].
    intros H. destruct (F6 denied eq_refl) as [E|E]; rewrite E in H; discriminate.
  - destruct (readBody (Body r) []) as [body|]; simpl.
    2: { split; [reflexivity|]. split; [exact F1|]. split; [exact F2|].
         split; [exact F3|]. split; [exact F4|]. discriminate. }
    destruct (match unmarshal_map (decode body) with
              | Some rawMsg => negb (has_key "id" rawMsg)
              | None => false
              end); simpl.
    { split; [reflexivity|]. split; [exact F1|]. split; [exact F2|].
      split; [exact F3|]. split; [exact F4|]. discriminate. }
    destruct (mcp.HandleMessage (Handler c) (decode body)) as [resp|]; simpl.
    + split; [reflexivity|]. split; [exact F1|]. split; [exact F2|].
      split; [exact F3|]. split; [exact F4|]. intros _. reflexivity.
    + split; [reflexivity|]. split; [exact F1|]. split; [exact F2|].
      split; [exact F3|]. split; [exact F4|]. discriminate.
Qed.

(** X18. A message for no session is refused before anything is read. A
    POST /message that passed the gate but names no session is answered
    400, and one that names a session that is not registered is answered
    404; in both cases the body is not read, the protocol handler is not
    called, no request is recorded in the metrics and no session changes,
    while the request stays counted in the rate window. *)
Theorem message_without_session_is_refused (s : Server) (conn : loc)
    (c : Connection) (r : Request) (clk : Clock) (g : Gateway) :
  authenticateRequest time_Parse (gw s) conn c r clk = (inr tt, g) ->
  sessionId r = ""%string \/ server.sessions s !! sessionId r = None ->
  let o := handleSSEMessage time_Parse decode s conn c r clk in
  reply o = (if String.eqb (sessionId r) ""
             then http_Error "Missing sessionId" StatusBadRequest
             else http_Error "Session not found" StatusNotFound) /\
  handled o = [] /\
  after o = with_gw s g /\
  metrics g = metrics (gw s) /\
  (exists c', heap g !! conn = Some c' /\
              requests c' = window (limit_now clk) (requests c) ++ [limit_now clk]).
Proof.
  intros Hauth Hnone. cbv zeta. unfold handleSSEMessage. rewrite Hauth.
  assert (Hgate : metrics g = metrics (gw s) /\
            exists c', heap g !! conn = Some c' /\
              requests c' = window (limit_now clk) (requests c) ++ [limit_now clk]).
  { unfold authenticateRequest in Hauth.
    destruct (String.eqb (Authorization r) "" || _); [discriminate|].
    destruct (negb (VerifyAPIKey _ _ _ _ _)); [discriminate|].
    rewrite CheckRateLimit_spec in Hauth.
    destruct (ceiling c <=? _); simpl in Hauth; [discriminate|].
    injection Hauth as <-. simpl. split; [reflexivity|].
    eexists. rewrite lookup_insert_eq. split; reflexivity. }
  destruct (String.eqb_spec (sessionId r) "") as [He|He].
  - simpl. tauto.
  - destruct Hnone as [H|H]; [contradiction|]. rewrite H. simpl. tauto.
Qed.

End Bodies.

Section BodiesInstance.
Import json gateway server.

(** The sample request, naming a session that does not exist. *)
Lemma message_without_session_is_refused_witness :
  let r := mkRequest "Bearer secret" "" "s_2" [] in
  let c := sample.conn [1000000000; 2000000000] 1 in
  let o := handleSSEMessage sample_http.time_Parse sample_http.decode
             sample_http.running 1%positive c r sample_http.clock in
  authenticateRequest sample_http.time_Parse (gw sample_http.running) 1%positive c r
    sample_http.clock = (inr tt, sample_http.admitted) /\
  StatusCode (reply o) = StatusNotFound /\ handled o = [].
Proof.
  intros r c o.
  assert (H1 : authenticateRequest sample_http.time_Parse (gw sample_http.running)
                 1%positive c r sample_http.clock = (inr tt, sample_http.admitted))
    by (vm_compute; reflexivity).
  assert (H2 : sessionId r = ""%string \/
               server.sessions sample_http.running !! sessionId r = None)
    by (right; vm_compute; reflexivity).
  destruct (message_without_session_is_refused sample_http.time_Parse
              sample_http.decode sample_http.running 1%positive c r sample_http.clock
              sample_http.admitted H1 H2) as (R1 & R2 & _).
  split; [exact H1|]. split; [|exact R2].
  unfold o. rewrite R1. reflexivity.
Defined.

End BodiesInstance.

(* ===================================================================== *)
(** * internal/server: routing and the event streams                     *)
(* ===================================================================== *)

Module transport.
Import gateway server.

Definition StatusNoContent : Z := 204.
Definition StatusInternalServerError : Z := 500.
Definition StatusServiceUnavailable : Z := 503.

(** What is written to an event stream. *)
Inductive Frame : Type :=
| Endpoint (messageURL : string)          (* event: endpoint *)
| Message (msg : mcp.JSONRPCResponse)     (* event: message *)
| Ping.                                   (* : ping *)

(** A running [handleSSE]: the [conn] it was called with, and whether the
    channel [done] of the session it created is closed. The registry entry
    of a session goes away when the session is deleted, while its handler
    still holds the object; the state of the channel is kept here. *)
Record Running := mkRunning {
  conn_of : loc;
  done_closed : bool
}.

(** The server together with its running [handleSSE] calls, each under
    the id of its session. [generateSessionID] is taken not to repeat the
    id of a call that is still running. *)
Record State := mkState {
  srv : Server;
  running : gmap string Running
}.

(** What a handler did with a request: it replied and returned (having
    given [handled] to the protocol handler), or it started to stream, or
    it panicked. *)
Inductive Served : Type :=
| Replied (reply : Response) (st : State) (handled : list (list Byte.byte))
| EventStream (sessionID : string) (headers : list (string * string))
    (first : Frame) (st : State)
| KeepAlive (headers : list (string * string)) (st : State)
| Panicked (st : State).

Definition state_of (v : Served) : State :=
  match v with
  | Replied _ st _ => st
  | EventStream _ _ _ st => st
  | KeepAlive _ st => st
  | Panicked st => st
  end.

Definition of_outcome (st : State) (o : Outcome) : Served :=
  Replied (reply o) (mkState (after o) (running st)) (handled o).

(** What the router needs of an [http.Request] besides what the handlers
    read. *)
Record HttpRequest := mkHttpRequest {
  Host : string;
  URL_Path : string;
  HTTP_Method : string;
  request : Request
}.

Definition sse_headers : list (string * string) :=
  [("Content-Type", "text/event-stream"); ("Cache-Control", "no-cache");
   ("Connection", "keep-alive"); ("Access-Control-Allow-Origin", "*")]%string.

Definition stream_headers : list (string * string) :=
  [("Content-Type", "text/event-stream"); ("Cache-Control", "no-cache");
   ("Connection", "keep-alive")]%string.

Section Routes.

Variable time_Parse : string -> option Time.
Variable decode : list Byte.byte -> json.payload.

(** [handleSSE], up to the first flush: GET /sse. [flusher] tells whether
    the response writer is an [http.Flusher]. The object [conn] points to
    is read again after the gate, which may have written its window. *)
Definition handleSSE (st : State) (conn : loc) (c : Connection) (r : Request)
    (clk : Clock) (flusher : bool) : Served :=
  let s := srv st in
  match authenticateRequest time_Parse (gw s) conn c r clk with
  | (inl denied, g) => Replied denied (mkState (with_gw s g) (running st)) []
  | (inr _, g) =>
      let c := match heap g !! conn with Some c' => c' | None => c end in
      if negb (CheckConcurrency c) then
        Replied (http_Error "Too many concurrent sessions" StatusServiceUnavailable)
          (mkState (with_gw s g) (running st)) []
      else if negb flusher then
        Replied (http_Error "Streaming not supported" StatusInternalServerError)
          (mkState (with_gw s g) (running st)) []
      else
        let sessionID := generateSessionID (mint_UnixNano clk) (mint_UnixMicro clk) in
        let session := mkSession sessionID (ID (Config c)) [] false in
        EventStream sessionID sse_headers
          (Endpoint ("/message?sessionId=" ++ sessionID))
          (mkState
             (mkServer (store_conn g conn (IncrementSessions c))
                (<[sessionID := session]> (sessions s)))
             (<[sessionID := mkRunning conn false]> (running st)))
  end.

(** [handleStreamableSSE]: GET /mcp, a stream of pings. *)
Definition handleStreamableSSE (st : State) (conn : loc) (c : Connection)
    (r : Request) (clk : Clock) (flusher : bool) : Served :=
  let s := srv st in
  match authenticateRequest time_Parse (gw s) conn c r clk with
  | (inl denied, g) => Replied denied (mkState (with_gw s g) (running st)) []
  | (inr _, g) =>
      if negb flusher then
        Replied (http_Error "Streaming not supported" StatusInternalServerError)
          (mkState (with_gw s g) (running st)) []
      else KeepAlive stream_headers (mkState (with_gw s g) (running st))
  end.

(** [handleStreamableDelete]: DELETE /mcp, session termination. Closing a
    channel that is closed already panics. *)
Definition handleStreamableDelete (st : State) (r : Request) : Served :=
  let s := srv st in
  let sessionID := mcp_session_id r in
  let no_content := mkResponse StatusNoContent [] NoBody in
  if String.eqb sessionID "" then Replied no_content st []
  else
    match sessions s !! sessionID with
    | None => Replied no_content st []
    | Some _ =>
        let unregistered := mkServer (gw s) (delete sessionID (sessions s)) in
        match running st !! sessionID with
        | Some run =>
            if done_closed run then Panicked st
            else
              Replied no_content
                (mkState unregistered
                   (<[sessionID := mkRunning (conn_of run) true]> (running st)))
                []
        | None => Replied no_content (mkState unregistered (running st)) []
        end
    end.

(** [strings.Index(host, ":")] and the slice [host[:idx]]. *)
Definition strip_port (host : string) : string :=
  match String.index 0 ":" host with
  | Some (S idx) => String.substring 0 (S idx) host
  | _ => host
  end.

(** [handleRequest]: the router behind every path but /health. *)
Definition handleRequest (st : State) (q : HttpRequest) (clk : Clock)
    (flusher : bool) : Served :=
  let host := strip_port (Host q) in
  let not_found := Replied (http_Error "Not Found" StatusNotFound) st [] in
  match GetConnection (gw (srv st)) host with
  | None => not_found
  | Some conn =>
      match heap (gw (srv st)) !! conn with
      | None => not_found      (* no pointer of the registry dangles *)
      | Some c =>
          let path := URL_Path q in
          let method := HTTP_Method q in
          if String.eqb path "/sse" && String.eqb method "GET" then
            handleSSE st conn c (request q) clk flusher
          else if String.eqb path "/message" && String.eqb method "POST" then
            of_outcome st
              (handleSSEMessage time_Parse decode (srv st) conn c (request q) clk)
          else if String.eqb path "/mcp" && String.eqb method "POST" then
            of_outcome st
              (handleStreamableHTTP time_Parse decode (srv st) conn c (request q) clk)
          else if String.eqb path "/mcp" && String.eqb method "GET" then
            handleStreamableSSE st conn c (request q) clk flusher
          else if String.eqb path "/mcp" && String.eqb method "DELETE" then
            handleStreamableDelete st (request q)
          else not_found
      end
  end.

End Routes.

(** The case [msg := <-session.Messages] of the loop of [handleSSE]: the
    oldest payload of the buffer is taken and written as a frame. [None]
    when the case is not ready. What the channel of a session that was
    deleted still holds is not followed. *)
Definition receive (st : State) (sessionID : string) : option (Frame * State) :=
  let s := srv st in
  match sessions s !! sessionID with
  | Some sess =>
      match Messages sess with
      | msg :: rest =>
          let sess' := mkSession (Session_ID sess) (ConnID sess) rest (done sess) in
          Some (Message msg,
                mkState (mkServer (gw s) (<[sessionID := sess']> (sessions s)))
                  (running st))
      | [] => None
      end
  | None => None
  end.

(** How a call of [handleSSE] ends. *)
Inductive Exit : Type :=
| Returned (st : State)
| Panic (st : State).

(** The deferred function of [handleSSE], run when the loop returns:
    [close(session.done)], which panics on a closed channel and so skips
    the rest, then the removal from the registry and the decrement. *)
Definition handleSSE_deferred (st : State) (sessionID : string) : Exit :=
  match running st !! sessionID with
  | None => Returned st
  | Some run =>
      let rest := delete sessionID (running st) in
      if done_closed run then Panic (mkState (srv st) rest)
      else
        let s := srv st in
        let g :=
          match heap (gw s) !! conn_of run with
          | Some c => store_conn (gw s) (conn_of run) (DecrementSessions c)
          | None => gw s
          end in
        Returned (mkState (mkServer g (delete sessionID (sessions s))) rest)
  end.

End transport.

(** ** The life of an SSE session *)

Section Streams.
Import gateway server transport.

Variable time_Parse : string -> option Time.
Variable decode : list Byte.byte -> json.payload.

Lemma gate_passed (g : Gateway) (conn : loc) (c : Connection) (r : Request)
    (clk : Clock) (g' : Gateway) :
  authenticateRequest time_Parse g conn c r clk = (inr tt, g') ->
  exists c1,
    g' = store_conn g conn c1 /\ heap g' !! conn = Some c1 /\
    Config c1 = Config c /\ Handler c1 = Handler c /\
    gateway.sessions c1 = gateway.sessions c /\
    requests c1 = window (limit_now clk) (requests c) ++ [limit_now clk].
Proof.
  unfold authenticateRequest.
  destruct (String.eqb (Authorization r) "" || _); [discriminate|].
  destruct (negb (VerifyAPIKey _ _ _ _ _)); [discriminate|].
  rewrite CheckRateLimit_spec.
  destruct (ceiling c <=? _); simpl; [discriminate|].
  intros [= <-]. eexists. split; [reflexivity|]. simpl.
  rewrite lookup_insert_eq. repeat split; reflexivity.
Qed.

Lemma store_conn_twice (g : Gateway) (l : loc) (c1 c2 : Connection) :
  store_conn (store_conn g l c1) l c2 = store_conn g l c2.
Proof. unfold store_conn. simpl. rewrite insert_insert_eq. reflexivity. Qed.

Lemma store_conn_same (g : Gateway) (l : loc) (c : Connection) :
  heap g !! l = Some c -> store_conn g l c = g.
Proof.
  intros H. unfold store_conn. rewrite (insert_id _ _ _ H). destruct g. reflexivity.
Qed.

Lemma Decrement_Increment (c : Connection) :
  0 <= gateway.sessions c < 2147483647 ->
  DecrementSessions (IncrementSessions c) = c.
Proof.
  intros H. unfold DecrementSessions, IncrementSessions. simpl.
  rewrite (int32_id (gateway.sessions c + 1)) by lia.
  destruct (Z.gtb_spec (gateway.sessions c + 1) 0) as [_|Hle]; [|lia].
  replace (gateway.sessions c + 1 - 1) with (gateway.sessions c) by lia.
  rewrite int32_id by lia. destruct c. reflexivity.
Qed.

(** What a call of [handleSSE] that starts to stream has done. *)
Lemma handleSSE_streaming (st : State) (conn : loc) (c : Connection) (r : Request)
    (clk : Clock) (flusher : bool) (id : string) (hs : list (string * string))
    (first : Frame) (st1 : State) :
  handleSSE time_Parse st conn c r clk flusher = EventStream id hs first st1 ->
  exists g c1,
    authenticateRequest time_Parse (gw (srv st)) conn c r clk = (inr tt, g) /\
    heap g !! conn = Some c1 /\ Config c1 = Config c /\
    gateway.sessions c1 = gateway.sessions c /\
    CheckConcurrency c1 = true /\ flusher = true /\
    id = generateSessionID (mint_UnixNano clk) (mint_UnixMicro clk) /\
    hs = sse_headers /\
    first = Endpoint ("/message?sessionId=" ++ id) /\
    st1 = mkState
            (mkServer (store_conn g conn (IncrementSessions c1))
               (<[id := mkSession id (ID (Config c1)) [] false]>
                  (server.sessions (srv st))))
            (<[id := mkRunning conn false]> (running st)).
Proof.
  unfold handleSSE.
  destruct (authenticateRequest time_Parse (gw (srv st)) conn c r clk)
    as [[denied|[]] g] eqn:Hauth; [discriminate|].
  destruct (gate_passed _ _ _ _ _ _ Hauth) as (c1 & _ & Hc1 & HC & _ & Hs & _).
  rewrite Hc1.
  destruct (CheckConcurrency c1) eqn:Hcc; simpl; [|discriminate].
  destruct flusher; simpl; [|discriminate].
  intros [= <- <- <- <-]. exists g, c1. repeat split; auto.
Qed.

(** X19. A session that ends with its stream leaves nothing behind. When
    GET /sse starts to stream under a new session id, the first frame
    tells the client where to post ("/message?sessionId=" and the id),
    the session is registered with an empty buffer, and the session
    counter of the tenant is one higher. When the handler then returns
    because the client went away, the deferred clean-up removes the
    session and gives the counter back: the state is what the
    authentication gate alone would have left. *)
Theorem stream_attach_and_return_cancel (st : State) (conn : loc) (c : Connection)
    (r : Request) (clk : Clock) (id : string) (hs : list (string * string))
    (first : Frame) (st1 : State) :
  handleSSE time_Parse st conn c r clk true = EventStream id hs first st1 ->
  server.sessions (srv st) !! id = None ->
  running st !! id = None ->
  0 <= gateway.sessions c < 2147483647 ->
  first = Endpoint ("/message?sessionId=" ++ id) /\
  server.sessions (srv st1) !! id = Some (mkSession id (ID (Config c)) [] false) /\
  (exists c1, heap (gw (srv st1)) !! conn = Some c1 /\
              gateway.sessions c1 = gateway.sessions c + 1) /\
  handleSSE_deferred st1 id
  = Returned
      (mkState
         (with_gw (srv st)
            (snd (authenticateRequest time_Parse (gw (srv st)) conn c r clk)))
         (running st)).
Proof.
  intros Hstream Hnew Hrun Hrange.
  destruct (handleSSE_streaming _ _ _ _ _ _ _ _ _ _ Hstream)
    as (g & c1 & Hauth & Hc1 & HC & Hs & _ & _ & _ & _ & -> & ->).
  rewrite Hauth. simpl snd.
  split; [reflexivity|]. split; [simpl; rewrite lookup_insert_eq, HC; reflexivity|].
  split.
  - exists (IncrementSessions c1). simpl. rewrite lookup_insert_eq.
    split; [reflexivity|]. simpl. rewrite Hs. apply int32_id. lia.
  - unfold handleSSE_deferred. simpl. rewrite !lookup_insert_eq. simpl.
    rewrite store_conn_twice, Decrement_Increment by lia.
    rewrite (store_conn_same g conn c1 Hc1).
    rewrite !delete_insert_id by assumption. reflexivity.
Qed.

(** X20. A session ended by DELETE leaks its slot. When a streaming
    session is terminated by DELETE /mcp, the request is answered 204 and
    the session leaves the registry; the handler of the stream then
    returns, its deferred clean-up closes a channel that is closed
    already and panics, and the decrement that comes after is never run:
    the session counter of the tenant stays one higher than before the
    session, for good. *)
Theorem deleted_session_keeps_its_slot (st : State) (conn : loc) (c : Connection)
    (r del : Request) (clk : Clock) (id : string) (hs : list (string * string))
    (first : Frame) (st1 : State) :
  handleSSE time_Parse st conn c r clk true = EventStream id hs first st1 ->
  server.sessions (srv st) !! id = None ->
  running st !! id = None ->
  0 <= gateway.sessions c < 2147483647 ->
  mcp_session_id del = id ->
  exists st2 st3 c3,
    handleStreamableDelete st1 del
    = Replied (mkResponse StatusNoContent [] NoBody) st2 [] /\
    server.sessions (srv st2) = server.sessions (srv st) /\
    handleSSE_deferred st2 id = Panic st3 /\
    server.sessions (srv st3) = server.sessions (srv st) /\
    running st3 = running st /\
    heap (gw (srv st3)) !! conn = Some c3 /\
    gateway.sessions c3 = gateway.sessions c + 1.
Proof.
  intros Hstream Hnew Hrun Hrange Hdel.
  destruct (handleSSE_streaming _ _ _ _ _ _ _ _ _ _ Hstream)
    as (g & c1 & Hauth & Hc1 & HC & Hs & _ & _ & Hid & _ & _ & ->).
  unfold handleStreamableDelete. rewrite Hdel. simpl.
  assert (Hne : String.eqb id "" = false).
  { apply String.eqb_neq. rewrite Hid. apply generateSessionID_not_empty. }
  rewrite Hne, !lookup_insert_eq. simpl.
  eexists. eexists. exists (IncrementSessions c1).
  split; [reflexivity|]. simpl.
  split; [apply delete_insert_id; exact Hnew|].
  unfold handleSSE_deferred. simpl. rewrite lookup_insert_eq. simpl.
  split; [reflexivity|]. simpl.
  split; [apply delete_insert_id; exact Hnew|].
  split; [rewrite delete_insert_eq, delete_insert_id by exact Hrun; reflexivity|].
  rewrite lookup_insert_eq. split; [reflexivity|].
  simpl. rewrite Hs. apply int32_id. lia.
Qed.

(** X21. The concurrency ceiling. For a request that passes the gate, GET
    /sse starts a session exactly when the session counter of the tenant
    is below its ceiling, which is the configured one, or 10 when none or
    a non-positive one is configured. At the ceiling the reply is 503, no
    session is registered and the counter does not move. *)
Theorem handleSSE_respects_the_ceiling (st : State) (conn : loc) (c : Connection)
    (r : Request) (clk : Clock) (g : Gateway) :
  authenticateRequest time_Parse (gw (srv st)) conn c r clk = (inr tt, g) ->
  let ceiling := if MaxConcurrency (Config c) <=? 0 then 10
                 else MaxConcurrency (Config c) in
  (ceiling <= gateway.sessions c ->
   handleSSE time_Parse st conn c r clk true
   = Replied (http_Error "Too many concurrent sessions" StatusServiceUnavailable)
       (mkState (with_gw (srv st) g) (running st)) []) /\
  (gateway.sessions c < ceiling ->
   exists id st1,
     handleSSE time_Parse st conn c r clk true
     = EventStream id sse_headers (Endpoint ("/message?sessionId=" ++ id)) st1 /\
     is_Some (server.sessions (srv st1) !! id)).
Proof.
  intros Hauth. cbv zeta.
  destruct (gate_passed _ _ _ _ _ _ Hauth) as (c1 & _ & Hc1 & HC & _ & Hs & _).
  unfold handleSSE. rewrite Hauth, Hc1.
  unfold CheckConcurrency, effective_limit. rewrite HC, Hs.
  split; intros Hcmp.
  - destruct (Z.ltb_spec (gateway.sessions c)
                (if MaxConcurrency (Config c) <=? 0 then 10
                 else MaxConcurrency (Config c))); [lia | reflexivity].
  - destruct (Z.ltb_spec (gateway.sessions c)
                (if MaxConcurrency (Config c) <=? 0 then 10
                 else MaxConcurrency (Config c))); [|lia].
    simpl. eexists. eexists. split; [reflexivity|].
    simpl. rewrite lookup_insert_eq. eauto.
Qed.

End Streams.

Module sample_stream.
Import gateway server transport.

(** The sample server with no session, and a GET /sse with the sample
    credential. *)
Definition idle : State := mkState (mkServer serving ∅) ∅.

Definition attach : Request := mkRequest "Bearer secret" "" "" [].

Definition tenant : Connection := sample.conn [1000000000; 2000000000] 1.

Definition opened : Served :=
  handleSSE sample_http.time_Parse idle 1%positive tenant attach sample_http.clock true.

Definition sid : string := "s_1700000000000000000_0".

(** The sample tenant with ten sessions, its default ceiling. *)
Definition busy_tenant : Connection := sample.conn [1000000000; 2000000000] 10.

Definition busy : State :=
  mkState (mkServer (store_conn serving 1%positive busy_tenant) ∅) ∅.

End sample_stream.

Section StreamsInstances.
Import gateway server transport sample_stream.

Lemma opened_streams :
  opened = EventStream sid sse_headers (Endpoint ("/message?sessionId=" ++ sid))
             (state_of opened).
Proof. vm_compute. reflexivity. Qed.

Lemma stream_attach_and_return_cancel_witness :
  opened = EventStream sid sse_headers (Endpoint ("/message?sessionId=" ++ sid))
             (state_of opened) /\
  0 <= gateway.sessions tenant < 2147483647 /\
  handleSSE_deferred (state_of opened) sid
  = Returned (mkState (mkServer sample_http.admitted ∅) ∅).
Proof.
  assert (Hrange : 0 <= gateway.sessions tenant < 2147483647) by (vm_compute; split; [discriminate | reflexivity]).
  split; [exact opened_streams|]. split; [exact Hrange|].
  destruct (stream_attach_and_return_cancel sample_http.time_Parse idle 1%positive
              tenant attach sample_http.clock sid sse_headers
              (Endpoint ("/message?sessionId=" ++ sid)) (state_of opened)
              opened_streams eq_refl eq_refl Hrange) as (_ & _ & _ & H).
  rewrite H. vm_compute. reflexivity.
Defined.

Lemma deleted_session_keeps_its_slot_witness :
  opened = EventStream sid sse_headers (Endpoint ("/message?sessionId=" ++ sid))
             (state_of opened) /\
  0 <= gateway.sessions tenant < 2147483647 /\
  exists st2 st3 c3,
    handleStreamableDelete (state_of opened) (mkRequest "" sid "" [])
    = Replied (mkResponse StatusNoContent [] NoBody) st2 [] /\
    handleSSE_deferred st2 sid = Panic st3 /\
    heap (gw (srv st3)) !! 1%positive = Some c3 /\
    gateway.sessions c3 = 2.
Proof.
  assert (Hrange : 0 <= gateway.sessions tenant < 2147483647) by (vm_compute; split; [discriminate | reflexivity]).
  split; [exact opened_streams|]. split; [exact Hrange|].
  destruct (deleted_session_keeps_its_slot sample_http.time_Parse idle 1%positive
              tenant attach (mkRequest "" sid "" []) sample_http.clock sid sse_headers
              (Endpoint ("/message?sessionId=" ++ sid)) (state_of opened)
              opened_streams eq_refl eq_refl Hrange eq_refl)
    as (st2 & st3 & c3 & H1 & _ & H3 & _ & _ & H6 & H7).
  exists st2, st3, c3. auto.
Defined.

Lemma handleSSE_respects_the_ceiling_witness :
  let out := authenticateRequest sample_http.time_Parse (gw (srv busy)) 1%positive
               busy_tenant attach sample_http.clock in
  out = (inr tt, snd out) /\
  10 <= gateway.sessions busy_tenant /\
  handleSSE sample_http.time_Parse busy 1%positive busy_tenant attach
    sample_http.clock true
  = Replied (http_Error "Too many concurrent sessions" StatusServiceUnavailable)
      (mkState (with_gw (srv busy) (snd out)) (running busy)) [].
Proof.
  intros out.
  assert (H1 : out = (inr tt, snd out)) by (vm_compute; reflexivity).
  assert (H2 : 10 <= gateway.sessions busy_tenant) by (vm_compute; discriminate).
  split; [exact H1|]. split; [exact H2|].
  exact (proj1 (handleSSE_respects_the_ceiling sample_http.time_Parse busy 1%positive
                  busy_tenant attach sample_http.clock (snd out) H1) H2).
Defined.

End StreamsInstances.

(** ** Routing *)

Section Routing.
Import gateway server transport.

Variable time_Parse : string -> option Time.
Variable decode : list Byte.byte -> json.payload.

(** The text holds a colon. *)
Fixpoint has_colon (s : string) : bool :=
  match s with
  | EmptyString => false
  | String a s' => Ascii.eqb a ":" || has_colon s'
  end.

Lemma prefix_colon (a : ascii) (s : string) :
  String.prefix ":" (String a s) = Ascii.eqb a ":".
Proof.
  change (String.prefix ":" (String a s))
    with (if Ascii.ascii_dec ":" a then String.prefix "" s else false).
  destruct (Ascii.ascii_dec ":" a) as [<-|Hne].
  - destruct s; reflexivity.
  - symmetry. apply Ascii.eqb_neq. congruence.
Qed.

Lemma index_no_colon (s : string) :
  has_colon s = false -> String.index 0 ":" s = None.
Proof.
  induction s as [|a s IH]; [reflexivity|].
  change (has_colon (String a s)) with (Ascii.eqb a ":" || has_colon s).
  intros H. apply orb_false_elim in H as [Ha Hs].
  change (String.index 0 ":" (String a s))
    with (if String.prefix ":" (String a s) then Some 0%nat
          else match String.index 0 ":" s with
               | Some n => Some (S n)
               | None => None
               end).
  rewrite prefix_colon, Ha, (IH Hs). reflexivity.
Qed.

Lemma index_first_colon (h rest : string) :
  has_colon h = false ->
  String.index 0 ":" (h ++ String ":" rest) = Some (String.length h).
Proof.
  induction h as [|a h IH].
  - intros _. change ("" ++ String ":" rest)%string with (String ":" rest).
    change (String.index 0 ":" (String ":" rest))
      with (if String.prefix ":" (String ":" rest) then Some 0%nat
            else match String.index 0 ":" rest with
                 | Some n => Some (S n)
                 | None => None
                 end).
    rewrite prefix_colon. reflexivity.
  - change (has_colon (String a h)) with (Ascii.eqb a ":" || has_colon h).
    intros H. apply orb_false_elim in H as [Ha Hs].
    change (String a h ++ String ":" rest)%string
      with (String a (h ++ String ":" rest)).
    change (String.index 0 ":" (String a (h ++ String ":" rest)))
      with (if String.prefix ":" (String a (h ++ String ":" rest)) then Some 0%nat
            else match String.index 0 ":" (h ++ String ":" rest) with
                 | Some n => Some (S n)
                 | None => None
                 end).
    rewrite prefix_colon, Ha, (IH Hs). reflexivity.
Qed.

Lemma substring_prefix (h k : string) :
  String.substring 0 (String.length h) (h ++ k) = h.
Proof.
  induction h as [|a h IH].
  - change ("" ++ k)%string with k. destruct k; reflexivity.
  - change (String a h ++ k)%string with (String a (h ++ k)).
    simpl. rewrite IH. reflexivity.
Qed.

Lemma strip_port_spec (h port : string) :
  has_colon h = false ->
  strip_port h = h /\
  (h <> ""%string -> strip_port (h ++ String ":" port) = h) /\
  strip_port (String ":" port) = String ":" port.
Proof.
  intros Hh. unfold strip_port. split; [rewrite (index_no_colon h Hh); reflexivity|].
  split.
  - intros Hne. rewrite (index_first_colon h port Hh).
    destruct h as [|a h]; [contradiction|].
    change (String.length (String a h)) with (S (String.length h)).
    apply (substring_prefix (String a h)).
  - change (String.index 0 ":" (String ":" port))
      with (if String.prefix ":" (String ":" port) then Some 0%nat
            else match String.index 0 ":" port with
                 | Some n => Some (S n)
                 | None => None
                 end).
    rewrite prefix_colon. reflexivity.
Qed.

Definition with_host (q : HttpRequest) (host : string) : HttpRequest :=
  mkHttpRequest host (URL_Path q) (HTTP_Method q) (request q).

(** X22. The router serves a tenant under its domain with or without a
    port. A request whose Host header is a domain followed by a colon and
    anything is handled exactly as the same request with the bare domain,
    when the domain is not empty and holds no colon; the tenant is looked
    up under what precedes the first colon. *)
Theorem handleRequest_ignores_the_port (st : State) (q : HttpRequest) (clk : Clock)
    (flusher : bool) (domain port : string) :
  has_colon domain = false ->
  domain <> ""%string ->
  Host q = (domain ++ String ":" port)%string ->
  handleRequest time_Parse decode st q clk flusher
  = handleRequest time_Parse decode st (with_host q domain) clk flusher.
Proof.
  intros Hc Hne Hhost. unfold handleRequest. simpl.
  destruct (strip_port_spec domain port Hc) as (H1 & H2 & _).
  rewrite Hhost, (H2 Hne), H1. reflexivity.
Qed.

(** X23. Ending a session needs no credentials and no tenant. A DELETE
    /mcp that reaches any registered domain and names a registered
    session ends that session: the reply is 204, the session leaves the
    registry and the channel of its stream is closed. Neither the
    Authorization header nor the tenant of the session is looked at, and
    the gateway state (rate windows, metrics) is not touched. Repeating
    the request is answered 204 again and changes nothing. *)
Theorem delete_needs_no_credentials (st : State) (q : HttpRequest) (clk : Clock)
    (flusher : bool) (conn : loc) (c : Connection) (sess : Session) (run : Running) :
  let id := mcp_session_id (request q) in
  GetConnection (gw (srv st)) (strip_port (Host q)) = Some conn ->
  heap (gw (srv st)) !! conn = Some c ->
  URL_Path q = "/mcp"%string -> HTTP_Method q = "DELETE"%string ->
  id <> ""%string ->
  server.sessions (srv st) !! id = Some sess ->
  running st !! id = Some run -> done_closed run = false ->
  exists st',
    handleRequest time_Parse decode st q clk flusher
    = Replied (mkResponse StatusNoContent [] NoBody) st' [] /\
    gw (srv st') = gw (srv st) /\
    server.sessions (srv st') = delete id (server.sessions (srv st)) /\
    running st' = <[id := mkRunning (conn_of run) true]> (running st) /\
    handleRequest time_Parse decode st' q clk flusher
    = Replied (mkResponse StatusNoContent [] NoBody) st' [].
Proof.
  intros id Hconn Hc Hpath Hmethod Hid Hsess Hrun Hopen.
  assert (Hroute : forall st0,
            gw (srv st0) = gw (srv st) ->
            handleRequest time_Parse decode st0 q clk flusher
            = handleStreamableDelete st0 (request q)).
  { intros st0 Hgw. unfold handleRequest, GetConnection in *.
    rewrite Hgw, Hconn, Hc, Hpath, Hmethod. reflexivity. }
  rewrite (Hroute st eq_refl). unfold handleStreamableDelete. fold id.
  destruct (String.eqb_spec id "") as [E|_]; [contradiction|].
  rewrite Hsess, Hrun, Hopen.
  eexists. split; [reflexivity|]. simpl.
  split; [reflexivity|]. split; [reflexivity|]. split; [reflexivity|].
  rewrite Hroute by reflexivity. unfold handleStreamableDelete. fold id. simpl.
  destruct (String.eqb_spec id "") as [E|_]; [contradiction|].
  rewrite lookup_delete_eq. reflexivity.
Qed.

(** The configuration side of a gateway is kept: the domain registry, the
    pepper and the version are the same, and every connection object is
    still there with the same configuration record and handler. *)
Definition config_kept (g g' : Gateway) : Prop :=
  connections g' = connections g /\ pepper g' = pepper g /\ version g' = version g /\
  forall l c, heap g !! l = Some c ->
    exists c', heap g' !! l = Some c' /\ Config c' = Config c /\ Handler c' = Handler c.

Lemma config_kept_refl (g : Gateway) : config_kept g g.
Proof. repeat split; eauto. Qed.

Lemma config_kept_trans (g1 g2 g3 : Gateway) :
  config_kept g1 g2 -> config_kept g2 g3 -> config_kept g1 g3.
Proof.
  intros (A1 & A2 & A3 & A4) (B1 & B2 & B3 & B4).
  split; [congruence|]. split; [congruence|]. split; [congruence|].
  intros l c Hl. destruct (A4 l c Hl) as (c' & Hc' & E1 & E2).
  destruct (B4 l c' Hc') as (c'' & Hc'' & E3 & E4).
  exists c''. split; [exact Hc''|]. split; congruence.
Qed.

Lemma config_kept_store (g : Gateway) (l : loc) (c c' : Connection) :
  heap g !! l = Some c -> Config c' = Config c -> Handler c' = Handler c ->
  config_kept g (store_conn g l c').
Proof.
  intros Hl HC HH. split; [reflexivity|]. split; [reflexivity|]. split; [reflexivity|].
  intros l0 c0 Hl0. simpl. destruct (decide (l = l0)) as [<-|Hne].
  - rewrite lookup_insert_eq. exists c'. split; [reflexivity|].
    assert (c0 = c) by congruence. subst c0. auto.
  - rewrite lookup_insert_ne by exact Hne. eauto.
Qed.

Lemma config_kept_RecordRequest (g : Gateway) (id : string) (x : Z) (e : bool)
    (now : Time) :
  config_kept g (RecordRequest g id x e now).
Proof. repeat split; eauto. Qed.

Lemma config_kept_gate (g : Gateway) (conn : loc) (c : Connection) (r : Request)
    (clk : Clock) :
  heap g !! conn = Some c ->
  config_kept g (snd (authenticateRequest time_Parse g conn c r clk)).
Proof.
  intros Hc.
  destruct (authenticateRequest_frame time_Parse g conn c r clk)
    as (F1 & F2 & F3 & F4 & F5 & _).
  split; [exact F1|]. split; [exact F2|]. split; [exact F3|].
  intros l c0 Hl. destruct (decide (l = conn)) as [->|Hne].
  - assert (c0 = c) by congruence. subst c0.
    destruct F5 as [Hsame|(c' & Hc' & E1 & E2 & _)].
    + exists c. split; [congruence | auto].
    + exists c'. auto.
  - exists c0. split; [rewrite F4 by exact Hne; exact Hl | auto].
Qed.

Lemma config_kept_message (s : Server) (conn : loc) (c : Connection) (r : Request)
    (clk : Clock) :
  heap (gw s) !! conn = Some c ->
  config_kept (gw s) (gw (after (handleSSEMessage time_Parse decode s conn c r clk))).
Proof.
  intros Hc. pose proof (config_kept_gate (gw s) conn c r clk Hc) as Hgate.
  unfold handleSSEMessage.
  destruct (authenticateRequest time_Parse (gw s) conn c r clk) as [[denied|[]] g];
    simpl in Hgate; [exact Hgate|].
  destruct (String.eqb (sessionId r) ""); [exact Hgate|].
  destruct (server.sessions s !! sessionId r); [|exact Hgate].
  destruct (readBody (Body r) []); [|exact Hgate].
  simpl. eapply config_kept_trans; [exact Hgate | apply config_kept_RecordRequest].
Qed.

Lemma config_kept_mcp (s : Server) (conn : loc) (c : Connection) (r : Request)
    (clk : Clock) :
  heap (gw s) !! conn = Some c ->
  config_kept (gw s)
    (gw (after (handleStreamableHTTP time_Parse decode s conn c r clk))).
Proof.
  intros Hc. pose proof (config_kept_gate (gw s) conn c r clk Hc) as Hgate.
  unfold handleStreamableHTTP.
  destruct (authenticateRequest time_Parse (gw s) conn c r clk) as [[denied|[]] g];
    simpl in Hgate; [exact Hgate|].
  destruct (readBody (Body r) []) as [body|]; [|exact Hgate].
  destruct (match json.unmarshal_map (decode body) with
            | Some rawMsg => negb (json.has_key "id" rawMsg)
            | None => false
            end); [exact Hgate|].
  destruct (mcp.HandleMessage (Handler c) (decode body)); simpl;
    (eapply config_kept_trans; [exact Hgate | apply config_kept_RecordRequest]).
Qed.

Lemma config_kept_sse (st : State) (conn : loc) (c : Connection) (r : Request)
    (clk : Clock) (flusher : bool) :
  heap (gw (srv st)) !! conn = Some c ->
  config_kept (gw (srv st))
    (gw (srv (state_of (handleSSE time_Parse st conn c r clk flusher)))).
Proof.
  intros Hc. pose proof (config_kept_gate (gw (srv st)) conn c r clk Hc) as Hgate.
  unfold handleSSE.
  destruct (authenticateRequest time_Parse (gw (srv st)) conn c r clk)
    as [[denied|[]] g] eqn:Hauth; simpl in Hgate; [exact Hgate|].
  destruct (gate_passed _ _ _ _ _ _ _ Hauth) as (c1 & _ & Hc1 & HC & HH & _).
  rewrite Hc1.
  destruct (negb (CheckConcurrency c1)); [exact Hgate|].
  destruct (negb flusher); [exact Hgate|].
  simpl. eapply config_kept_trans; [exact Hgate|].
  apply (config_kept_store g conn c1); [exact Hc1 | reflexivity | reflexivity].
Qed.

Lemma config_kept_keepalive (st : State) (conn : loc) (c : Connection) (r : Request)
    (clk : Clock) (flusher : bool) :
  heap (gw (srv st)) !! conn = Some c ->
  config_kept (gw (srv st))
    (gw (srv (state_of (handleStreamableSSE time_Parse st conn c r clk flusher)))).
Proof.
  intros Hc. pose proof (config_kept_gate (gw (srv st)) conn c r clk Hc) as Hgate.
  unfold handleStreamableSSE.
  destruct (authenticateRequest time_Parse (gw (srv st)) conn c r clk)
    as [[denied|[]] g]; simpl in Hgate; [exact Hgate|].
  destruct (negb flusher); exact Hgate.
Qed.

Lemma config_kept_delete (st : State) (r : Request) :
  gw (srv (state_of (handleStreamableDelete st r))) = gw (srv st).
Proof.
  unfold handleStreamableDelete.
  destruct (String.eqb (mcp_session_id r) ""); [reflexivity|].
  destruct (server.sessions (srv st) !! mcp_session_id r); [|reflexivity].
  destruct (running st !! mcp_session_id r) as [run|]; [|reflexivity].
  destruct (done_closed run); reflexivity.
Qed.

(** X24. No request changes the configuration. Whatever request the
    router is given, on whatever path and with whatever credentials, the
    state it leaves has the same domain registry, pepper and version, and
    every connection object is still there with the configuration record
    and the handler it had: the data plane writes rate windows, session
    counters, metrics and sessions, and nothing else. *)
Theorem handleRequest_keeps_the_configuration (st : State) (q : HttpRequest)
    (clk : Clock) (flusher : bool) :
  config_kept (gw (srv st))
    (gw (srv (state_of (handleRequest time_Parse decode st q clk flusher)))).
Proof.
  unfold handleRequest, GetConnection.
  destruct (connections (gw (srv st)) !! strip_port (Host q)) as [conn|];
    [|apply config_kept_refl].
  destruct (heap (gw (srv st)) !! conn) as [c|] eqn:Hc; [|apply config_kept_refl].
  destruct (String.eqb (URL_Path q) "/sse" && String.eqb (HTTP_Method q) "GET").
  { apply config_kept_sse, Hc. }
  destruct (String.eqb (URL_Path q) "/message" && String.eqb (HTTP_Method q) "POST").
  { apply config_kept_message, Hc. }
  destruct (String.eqb (URL_Path q) "/mcp" && String.eqb (HTTP_Method q) "POST").
  { apply config_kept_mcp, Hc. }
  destruct (String.eqb (URL_Path q) "/mcp" && String.eqb (HTTP_Method q) "GET").
  { apply config_kept_keepalive, Hc. }
  destruct (String.eqb (URL_Path q) "/mcp" && String.eqb (HTTP_Method q) "DELETE").
  { rewrite config_kept_delete. apply config_kept_refl. }
  apply config_kept_refl.
Qed.

End Routing.

Section RoutingInstances.
Import gateway server transport sample_stream.

(** A POST /mcp of the sample tenant, sent to port 8080. *)
Definition to_port : HttpRequest :=
  mkHttpRequest "demo.example.com:8080" "/mcp" "POST"
    (mkRequest "Bearer secret" "" "" (sample_http.at_once sample_http.ping_text)).

Lemma handleRequest_ignores_the_port_witness :
  has_colon "demo.example.com" = false /\
  "demo.example.com"%string <> ""%string /\
  handleRequest sample_http.time_Parse sample_http.decode idle to_port
    sample_http.clock true
  = handleRequest sample_http.time_Parse sample_http.decode idle
      (with_host to_port "demo.example.com") sample_http.clock true.
Proof.
  assert (H1 : has_colon "demo.example.com" = false) by reflexivity.
  assert (H2 : "demo.example.com"%string <> ""%string) by discriminate.
  split; [exact H1|]. split; [exact H2|].
  exact (handleRequest_ignores_the_port sample_http.time_Parse sample_http.decode
           idle to_port sample_http.clock true "demo.example.com" "8080"
           H1 H2 eq_refl).
Defined.

(** A DELETE /mcp without credentials that names the open session. *)
Definition hang_up : HttpRequest :=
  mkHttpRequest "demo.example.com" "/mcp" "DELETE" (mkRequest "" sid "" []).

Lemma delete_needs_no_credentials_witness :
  let st := state_of opened in
  Authorization (request hang_up) = ""%string /\
  server.sessions (srv st) !! sid = Some (mkSession sid "conn-1" [] false) /\
  running st !! sid = Some (mkRunning 1%positive false) /\
  exists st',
    handleRequest sample_http.time_Parse sample_http.decode st hang_up
      sample_http.clock true
    = Replied (mkResponse StatusNoContent [] NoBody) st' [] /\
    gw (srv st') = gw (srv st) /\
    server.sessions (srv st') !! sid = None.
Proof.
  intros st.
  assert (H1 : server.sessions (srv st) !! sid = Some (mkSession sid "conn-1" [] false))
    by (vm_compute; reflexivity).
  assert (H2 : running st !! sid = Some (mkRunning 1%positive false))
    by (vm_compute; reflexivity).
  assert (H3 : GetConnection (gw (srv st)) (strip_port (Host hang_up))
               = Some 1%positive) by (vm_compute; reflexivity).
  assert (H4 : heap (gw (srv st)) !! 1%positive
               = Some (sample.conn [100000000000] 2)) by (vm_compute; reflexivity).
  assert (H5 : mcp_session_id (request hang_up) <> ""%string) by discriminate.
  split; [reflexivity|]. split; [exact H1|]. split; [exact H2|].
  destruct (delete_needs_no_credentials sample_http.time_Parse sample_http.decode
              st hang_up sample_http.clock true 1%positive
              (sample.conn [100000000000] 2) (mkSession sid "conn-1" [] false)
              (mkRunning 1%positive false) H3 H4 eq_refl eq_refl H5 H1 H2 eq_refl)
    as (st' & R1 & R2 & R3 & _).
  exists st'. split; [exact R1|]. split; [exact R2|].
  rewrite R3. apply lookup_delete_eq.
Defined.

End RoutingInstances.

(** ** The two streams and the message buffer *)

Section Delivery.
Import gateway server transport.

Variable time_Parse : string -> option Time.
Variable decode : list Byte.byte -> json.payload.

(** X25. The stream of GET /mcp is not counted. Whatever the request,
    the handler registers no session and leaves every session counter as
    it was; it never answers 503, and a request that passes the gate is
    given its stream of pings even when the tenant is at its concurrency
    ceiling. *)
Theorem keepalive_stream_is_not_counted (st : State) (conn : loc) (c : Connection)
    (r : Request) (clk : Clock) (flusher : bool) :
  heap (gw (srv st)) !! conn = Some c ->
  let v := handleStreamableSSE time_Parse st conn c r clk flusher in
  server.sessions (srv (state_of v)) = server.sessions (srv st) /\
  running (state_of v) = running st /\
  (forall l c0, heap (gw (srv st)) !! l = Some c0 ->
     exists c', heap (gw (srv (state_of v))) !! l = Some c' /\
                gateway.sessions c' = gateway.sessions c0) /\
  (forall reply st' h, v = Replied reply st' h ->
     StatusCode reply <> StatusServiceUnavailable) /\
  (forall g, authenticateRequest time_Parse (gw (srv st)) conn c r clk = (inr tt, g) ->
     flusher = true ->
     v = KeepAlive stream_headers (mkState (with_gw (srv st) g) (running st))).
Proof.
  intros Hc. cbv zeta. unfold handleStreamableSSE.
  destruct (authenticateRequest_frame time_Parse (gw (srv st)) conn c r clk)
    as (_ & _ & _ & F4 & F5 & F6).
  assert (Hcount : forall l c0, heap (gw (srv st)) !! l = Some c0 ->
            exists c', heap (snd (authenticateRequest time_Parse (gw (srv st))
                                    conn c r clk)) !! l = Some c' /\
                       gateway.sessions c' = gateway.sessions c0).
  { intros l c0 Hl. destruct (decide (l = conn)) as [->|Hne].
    - assert (c0 = c) by congruence. subst c0.
      destruct F5 as [Hsame|(c' & Hc' & _ & _ & Hs)].
      + exists c. split; [congruence | reflexivity].
      + exists c'. auto.
    - exists c0. split; [rewrite F4 by exact Hne; exact Hl | reflexivity]. }
  destruct (authenticateRequest time_Parse (gw (srv st)) conn c r clk)
    as [[denied|[]] g]; simpl in Hcount, F6.
  - simpl. split; [reflexivity|]. split; [reflexivity|]. split; [exact Hcount|].
    split; [|discriminate].
    intros reply st' h [= <- _ _] E.
    destruct (F6 denied eq_refl) as [H|H]; rewrite H in E; discriminate.
  - destruct flusher; simpl.
    + split; [reflexivity|]. split; [reflexivity|]. split; [exact Hcount|].
      split; [discriminate|]. intros g' [= <-] _. reflexivity.
    + split; [reflexivity|]. split; [reflexivity|]. split; [exact Hcount|].
      split; [|discriminate]. intros reply st' h [= <- _ _]. discriminate.
Qed.

(** The payloads a stream takes from its buffer in [n] turns of its loop,
    as frames, and the state after. *)
Fixpoint receive_all (n : nat) (st : State) (sessionID : string)
  : list Frame * State :=
  match n with
  | O => ([], st)
  | S n' =>
      match receive st sessionID with
      | Some (frame, st') =>
          let (frames, st'') := receive_all n' st' sessionID in
          (frame :: frames, st'')
      | None => ([], st)
      end
  end.

Lemma receive_all_buffer (msgs : list mcp.JSONRPCResponse) :
  forall (st : State) (id : string) (sess : Session),
    server.sessions (srv st) !! id = Some sess ->
    Messages sess = msgs ->
    fst (receive_all (length msgs) st id) = map Message msgs /\
    receive (snd (receive_all (length msgs) st id)) id = None.
Proof.
  induction msgs as [|m msgs IH]; intros st id sess Hsess Hmsgs; simpl.
  - split; [reflexivity|]. unfold receive. rewrite Hsess, Hmsgs. reflexivity.
  - unfold receive at 1 3. rewrite Hsess, Hmsgs.
    set (st' := mkState _ _).
    destruct (IH st' id (mkSession (Session_ID sess) (ConnID sess) msgs (done sess)))
      as [I1 I2]; [unfold st'; simpl; apply lookup_insert_eq | reflexivity |].
    destruct (receive_all (length msgs) st' id) as [frames st'']. simpl in *.
    split; [f_equal; exact I1 | exact I2].
Qed.

(** X26. A response posted to a session reaches its stream, in order. For
    a POST /message that passed the gate, names a registered session whose
    buffer holds fewer than 64 payloads, and carries a frame the protocol
    handler answers, the reply is 202, and the stream of that session then
    writes the payloads that were waiting, oldest first, followed by the
    response, and nothing more. The tenant the session belongs to is not
    compared with the tenant the request was sent to. *)
Theorem posted_response_reaches_the_stream (st : State) (conn : loc) (c : Connection)
    (r : Request) (clk : Clock) (g : Gateway) (sess : Session)
    (body : list Byte.byte) (resp : mcp.JSONRPCResponse) :
  authenticateRequest time_Parse (gw (srv st)) conn c r clk = (inr tt, g) ->
  sessionId r <> ""%string ->
  server.sessions (srv st) !! sessionId r = Some sess ->
  readBody (Body r) [] = Some body ->
  mcp.HandleMessage (Handler c) (decode body) = Some resp ->
  (length (Messages sess) < 64)%nat ->
  exists st1,
    of_outcome st (handleSSEMessage time_Parse decode (srv st) conn c r clk)
    = Replied (mkResponse StatusAccepted [] NoBody) st1 [body] /\
    fst (receive_all (S (length (Messages sess))) st1 (sessionId r))
    = map Message (Messages sess) ++ [Message resp] /\
    receive (snd (receive_all (S (length (Messages sess))) st1 (sessionId r)))
      (sessionId r) = None.
Proof.
  intros Hauth Hid Hsess Hread Hresp Hroom.
  rewrite (handleSSEMessage_read time_Parse decode (srv st) conn c r clk g sess body
             Hauth Hid Hsess Hread).
  set (sess' := mkSession (Session_ID sess) (ConnID sess) (Messages sess ++ [resp])
                  (done sess)).
  assert (Hsend : try_send sess resp = sess').
  { unfold try_send.
    destruct (Nat.ltb_spec (length (Messages sess)) 64) as [_|Hfull];
      [reflexivity | lia]. }
  cbv zeta. rewrite Hresp, Hsend. unfold of_outcome. cbn [reply after handled].
  eexists. split; [reflexivity|].
  match goal with
  | |- context [receive_all _ ?s _] => set (st1 := s)
  end.
  destruct (receive_all_buffer (Messages sess ++ [resp]) st1 (sessionId r) sess')
    as [R1 R2]; [unfold st1; simpl; apply lookup_insert_eq | reflexivity |].
  rewrite length_app, Nat.add_1_r in R1, R2.
  rewrite R1, map_app. split; [reflexivity | exact R2].
Qed.

(** X27. A full buffer loses the response without a trace. When the
    buffer of the session holds 64 payloads, the response to a POST
    /message is dropped: the session is left as it was, and still the
    reply is 202 and the request is recorded in the metrics as any other,
    so neither the client nor the control plane can tell. *)
Theorem full_buffer_drops_the_response (st : State) (conn : loc) (c : Connection)
    (r : Request) (clk : Clock) (g : Gateway) (sess : Session)
    (body : list Byte.byte) (resp : mcp.JSONRPCResponse) :
  authenticateRequest time_Parse (gw (srv st)) conn c r clk = (inr tt, g) ->
  sessionId r <> ""%string ->
  server.sessions (srv st) !! sessionId r = Some sess ->
  readBody (Body r) [] = Some body ->
  mcp.HandleMessage (Handler c) (decode body) = Some resp ->
  (64 <= length (Messages sess))%nat ->
  handleSSEMessage time_Parse decode (srv st) conn c r clk
  = mkOutcome (mkResponse StatusAccepted [] NoBody)
      (mkServer
         (RecordRequest g (ID (Config c)) (latency_ms clk) (is_error (Some resp))
            (record_now clk))
         (server.sessions (srv st)))
      [body].
Proof.
  intros Hauth Hid Hsess Hread Hresp Hfull.
  rewrite (handleSSEMessage_read time_Parse decode (srv st) conn c r clk g sess body
             Hauth Hid Hsess Hread).
  cbv zeta. rewrite Hresp. unfold try_send.
  destruct (Nat.ltb_spec (length (Messages sess)) 64) as [Hroom|_]; [lia|].
  rewrite (insert_id _ _ _ Hsess). reflexivity.
Qed.

End Delivery.

Module sample_delivery.
Import gateway server transport.

(** The reply of the protocol handler to the sample ping. *)
Definition pong : mcp.JSONRPCResponse :=
  mcp.mkResponse "2.0" json.JNull (Some mcp.EmptyResult) None.

(** The sample server with its session, and the same with the buffer of
    the session full. *)
Definition listening : State := mkState sample_http.running ∅.

Definition flooded_session : Session := mkSession "s_1" "conn-1" (repeat pong 64) false.

Definition flooded : State :=
  mkState (mkServer serving {[ "s_1"%string := flooded_session ]}) ∅.

Definition ping : Request := sample_http.post (sample_http.at_once sample_http.ping_text).

Definition ping_body : list Byte.byte := list_byte_of_string sample_http.ping_text.

End sample_delivery.

Section DeliveryInstances.
Import gateway server transport sample_stream sample_delivery.

Lemma keepalive_stream_is_not_counted_witness :
  let v := handleStreamableSSE sample_http.time_Parse busy 1%positive busy_tenant
             attach sample_http.clock true in
  heap (gw (srv busy)) !! 1%positive = Some busy_tenant /\
  CheckConcurrency busy_tenant = false /\
  v = KeepAlive stream_headers (state_of v) /\
  server.sessions (srv (state_of v)) = server.sessions (srv busy).
Proof.
  intros v.
  assert (H : heap (gw (srv busy)) !! 1%positive = Some busy_tenant)
    by (vm_compute; reflexivity).
  split; [exact H|]. split; [vm_compute; reflexivity|].
  split; [vm_compute; reflexivity|].
  exact (proj1 (keepalive_stream_is_not_counted sample_http.time_Parse busy 1%positive
                  busy_tenant attach sample_http.clock true H)).
Defined.

Lemma ping_is_answered :
  mcp.HandleMessage (Handler tenant) (sample_http.decode ping_body) = Some pong.
Proof. vm_compute. reflexivity. Qed.

Lemma posted_response_reaches_the_stream_witness :
  let sess := mkSession "s_1" "conn-1" [] false in
  (length (Messages sess) < 64)%nat /\
  exists st1,
    of_outcome listening
      (handleSSEMessage sample_http.time_Parse sample_http.decode (srv listening)
         1%positive tenant ping sample_http.clock)
    = Replied (mkResponse StatusAccepted [] NoBody) st1 [ping_body] /\
    fst (receive_all 1 st1 "s_1") = [Message pong] /\
    receive (snd (receive_all 1 st1 "s_1")) "s_1" = None.
Proof.
  intros sess.
  assert (H : (length (Messages sess) < 64)%nat) by (simpl; lia).
  split; [exact H|].
  exact (posted_response_reaches_the_stream sample_http.time_Parse sample_http.decode
           listening 1%positive tenant ping sample_http.clock sample_http.admitted
           sess ping_body pong
           (sample_http.authenticated (sample_http.at_once sample_http.ping_text))
           ltac:(discriminate) eq_refl eq_refl ping_is_answered H).
Defined.

Lemma full_buffer_drops_the_response_witness :
  (64 <= length (Messages flooded_session))%nat /\
  handleSSEMessage sample_http.time_Parse sample_http.decode (srv flooded)
    1%positive tenant ping sample_http.clock
  = mkOutcome (mkResponse StatusAccepted [] NoBody)
      (mkServer
         (RecordRequest sample_http.admitted "conn-1" 5 false 100000000005)
         (server.sessions (srv flooded)))
      [ping_body].
Proof.
  assert (H : (64 <= length (Messages flooded_session))%nat)
    by (vm_compute; lia).
  split; [exact H|].
  exact (full_buffer_drops_the_response sample_http.time_Parse sample_http.decode
           flooded 1%positive tenant ping sample_http.clock sample_http.admitted
           flooded_session ping_body pong
           (sample_http.authenticated (sample_http.at_once sample_http.ping_text))
           ltac:(discriminate) eq_refl eq_refl ping_is_answered H).
Defined.

End DeliveryInstances.

(* ===================================================================== *)
(** * internal/profiles: the memory profile                              *)
(* ===================================================================== *)

Module memory.
Import json.

(** A store: its data and its persistence path (empty = in memory only).
    [None] is the nil map: it reads as an empty map, and writing to it
    panics. *)
Record memStore := mkMemStore {
  data : option (gmap string string);
  path : string
}.

(** [memStores]: the stores of the process, keyed by the store identity.
    A store is reachable through this map alone, so the map holds the
    objects themselves. *)
Abbreviation Stores := (gmap string memStore) (only parsing).

(** [env[k]]: the value of a Go map, empty for a missing key. *)
Definition env_get (env : gmap string string) (k : string) : string :=
  match env !! k with
  | Some v => v
  | None => ""%string
  end.

(** What a read of [store.data] sees: a nil map has no entry. *)
Definition entries (s : memStore) : gmap string string :=
  match data s with
  | Some d => d
  | None => ∅
  end.

(** The line feed. *)
Definition newline : string := String (Ascii.ascii_of_nat 10) EmptyString.

(** [sort.Strings]: insertion into a list sorted in byte order. *)
Fixpoint insert_key (k : string) (keys : list string) : list string :=
  match keys with
  | [] => [k]
  | k' :: rest => if String.ltb k' k then k' :: insert_key k rest else k :: keys
  end.

Definition sort_Strings (keys : list string) : list string :=
  foldr insert_key [] keys.

(** What a call of a tool does: it returns its text ([inl], with a nil
    error) or the message of its error ([inr]), or it panics. *)
Inductive Outcome : Type :=
| Returns (result : string + string)
| Panics.

Section Profile.

(** Go's standard library: the formatting [%v] of a value that is not a
    string; [strconv.Atoi] ([None] is its error); and what [os.ReadFile]
    followed by [json.Unmarshal(data, &s.data)] leave in the data of a new
    store: [None] when the file cannot be read, and otherwise the map
    after the decoding, which is the nil map [Some None] for a file that
    holds null. *)
Variable fmt_v : value -> string.
Variable Atoi : string -> option Z.
Variable ReadFile : string -> option (option (gmap string string)).

(** [getStr]: the member as a string; [args] is a Go map, nil for [JNull]. *)
Definition getStr (args : value) (key : string) : string :=
  let member :=
    match args with
    | JObject m => assoc key m
    | _ => None
    end in
  match member with
  | None => ""%string
  | Some (JString s) => s
  | Some v => fmt_v v
  end.

(** [getMemStore]: the store of an environment, created on first use. The
    identity of a store is its [PERSIST_PATH] alone. *)
Definition getMemStore (env : gmap string string) (stores : Stores)
  : string * memStore * Stores :=
  let path := env_get env "PERSIST_PATH" in
  let key := if String.eqb path "" then "_default_"%string else path in
  match stores !! key with
  | Some s => (key, s, stores)
  | None =>
      let loaded :=
        if String.eqb path "" then Some ∅
        else match ReadFile path with
             | Some d => d
             | None => Some ∅
             end in
      let s := mkMemStore loaded path in
      (key, s, <[key := s]> stores)
  end.

Definition maxEntries_of (env : gmap string string) : Z :=
  let me := env_get env "MAX_ENTRIES" in
  if String.eqb me "" then 10000
  else match Atoi me with
       | Some n => n
       | None => 10000
       end.

Definition has (d : gmap string string) (k : string) : bool :=
  match d !! k with
  | Some _ => true
  | None => false
  end.

(** [MemoryProfile.CallTool]. [persist] writes a file that is not read
    again, and is left out. *)
Definition CallTool (name : string) (args : value) (env : gmap string string)
    (stores : Stores) : Outcome * Stores :=
  let '(id, store, stores) := getMemStore env stores in
  let maxEntries := maxEntries_of env in
  let with_data (d : gmap string string) : Stores :=
    <[id := mkMemStore (Some d) (path store)]> stores in
  if String.eqb name "store" then
    let key := getStr args "key" in
    let v := getStr args "value" in
    if String.eqb key "" || String.eqb v "" then
      (Returns (inr "key and value are required"%string), stores)
    else if negb (has (entries store) key)
            && (Z.of_nat (size (entries store)) >=? maxEntries) then
      (Returns
         (inr ("maximum entries (" ++ server.fmt_d maxEntries ++ ") reached")%string),
       stores)
    else
      match data store with
      | None => (Panics, stores)      (* assignment to entry in nil map *)
      | Some d =>
          (Returns
             (inl ("Stored '" ++ key ++ "' ("
                     ++ server.fmt_d (Z.of_nat (String.length v)) ++ " bytes)")%string),
           with_data (<[key := v]> d))
      end
  else if String.eqb name "retrieve" then
    let key := getStr args "key" in
    if String.eqb key "" then (Returns (inr "key is required"%string), stores)
    else
      match entries store !! key with
      | None => (Returns (inl ("Key '" ++ key ++ "' not found")%string), stores)
      | Some v => (Returns (inl v), stores)
      end
  else if String.eqb name "list_keys" then
    let prefix := getStr args "prefix" in
    let keys :=
      sort_Strings
        (List.filter (fun k => String.eqb prefix "" || String.prefix prefix k)
           (map fst (map_to_list (entries store)))) in
    if (length keys =? 0)%nat then (Returns (inl "No keys found"%string), stores)
    else
      (Returns
         (inl ("Keys (" ++ server.fmt_d (Z.of_nat (length keys)) ++ "):" ++ newline
                 ++ String.concat newline keys)%string),
       stores)
  else if String.eqb name "delete" then
    let key := getStr args "key" in
    if String.eqb key "" then (Returns (inr "key is required"%string), stores)
    else if negb (has (entries store) key) then
      (Returns (inl ("Key '" ++ key ++ "' not found")%string), stores)
    else
      (Returns (inl ("Deleted '" ++ key ++ "'")%string),
       with_data (delete key (entries store)))
  else if String.eqb name "clear" then
    (Returns
       (inl ("Cleared " ++ server.fmt_d (Z.of_nat (size (entries store)))
               ++ " entries")%string),
     with_data ∅)
  else (Returns (inr ("unknown tool: " ++ name)%string), stores).

End Profile.

End memory.

(** ** The memory profile *)

Section MemoryStore.
Import json memory.

Variable fmt_v : value -> string.
Variable Atoi : string -> option Z.
Variable ReadFile : string -> option (option (gmap string string)).

(** The store an environment selects, and the data a read of it sees. *)
Definition store_of (env : gmap string string) (stores : gmap string memStore)
  : memStore :=
  snd (fst (getMemStore ReadFile env stores)).

Definition data_of (env : gmap string string) (stores : gmap string memStore)
  : gmap string string :=
  entries (store_of env stores).

Lemma getMemStore_again (env env' : gmap string string)
    (stores : gmap string memStore) (d : gmap string string) :
  env_get env' "PERSIST_PATH" = env_get env "PERSIST_PATH" ->
  let '(id, store, stores1) := getMemStore ReadFile env stores in
  getMemStore ReadFile env' (<[id := mkMemStore (Some d) (path store)]> stores1)
  = (id, mkMemStore (Some d) (path store),
     <[id := mkMemStore (Some d) (path store)]> stores1).
Proof.
  intros Hpath. unfold getMemStore. rewrite Hpath.
  set (key := if String.eqb (env_get env "PERSIST_PATH") "" then _ else _).
  destruct (stores !! key) as [s|]; cbv beta iota zeta; fold key;
    rewrite lookup_insert_eq; reflexivity.
Qed.

Lemma getMemStore_same (env : gmap string string) (stores : gmap string memStore) :
  let '(id, store, stores1) := getMemStore ReadFile env stores in
  getMemStore ReadFile env stores1 = (id, store, stores1).
Proof.
  unfold getMemStore.
  set (key := if String.eqb (env_get env "PERSIST_PATH") "" then _ else _).
  destruct (stores !! key) as [s|] eqn:Hs; cbv beta iota zeta; fold key.
  - rewrite Hs. reflexivity.
  - rewrite lookup_insert_eq. reflexivity.
Qed.

(** What the tool store does with a key and a value it accepts. *)
Lemma CallTool_store_accepts (args : value) (env : gmap string string)
    (stores : gmap string memStore) (k v : string) :
  getStr fmt_v args "key" = k -> getStr fmt_v args "value" = v ->
  k <> ""%string -> v <> ""%string ->
  has (data_of env stores) k = true \/
  Z.of_nat (size (data_of env stores)) < maxEntries_of Atoi env ->
  CallTool fmt_v Atoi ReadFile "store" args env stores
  = let '(id, store, stores1) := getMemStore ReadFile env stores in
    match data store with
    | None => (Panics, stores1)
    | Some d =>
        (Returns
           (inl ("Stored '" ++ k ++ "' ("
                   ++ server.fmt_d (Z.of_nat (String.length v)) ++ " bytes)")%string),
         <[id := mkMemStore (Some (<[k := v]> d)) (path store)]> stores1)
    end.
Proof.
  intros Hk Hv Hkne Hvne Hroom. unfold data_of, store_of in Hroom. unfold CallTool.
  destruct (getMemStore ReadFile env stores) as [[id store] stores1].
  cbn [fst snd] in Hroom. simpl String.eqb. rewrite Hk, Hv.
  destruct (String.eqb_spec k "") as [E|_]; [contradiction|].
  destruct (String.eqb_spec v "") as [E|_]; [contradiction|].
  cbn [orb].
  assert (Hfull : negb (has (entries store) k)
                  && (Z.of_nat (size (entries store)) >=? maxEntries_of Atoi env)
                  = false).
  { destruct Hroom as [H|H]; [rewrite H; reflexivity|].
    apply andb_false_iff. right. rewrite Z.geb_leb. apply Z.leb_gt. exact H. }
  rewrite Hfull. reflexivity.
Qed.

(** X29. A stored value is retrieved by everyone who shares the store.
    Let the tool store be called with a key and a value that are not
    empty, the key being there already or the store holding fewer entries
    than MAX_ENTRIES (10000 when unset or not a number). If the map of the
    store is not nil, the call returns "Stored ..." and the tool retrieve
    then returns that value for that key, through any handler whose
    environment has the same PERSIST_PATH: the identity of a store is its
    path alone, so tenants without a path all share one store. If the map
    is nil, as the decoding of a persistence file that holds null leaves
    it, the call panics. *)
Theorem stored_value_is_retrieved (args args' : value)
    (env env' : gmap string string) (stores : gmap string memStore) (k v : string) :
  getStr fmt_v args "key" = k -> getStr fmt_v args "value" = v ->
  k <> ""%string -> v <> ""%string ->
  has (data_of env stores) k = true \/
  Z.of_nat (size (data_of env stores)) < maxEntries_of Atoi env ->
  getStr fmt_v args' "key" = k ->
  env_get env' "PERSIST_PATH" = env_get env "PERSIST_PATH" ->
  let out := CallTool fmt_v Atoi ReadFile "store" args env stores in
  (data (store_of env stores) = None -> fst out = Panics) /\
  (data (store_of env stores) <> None ->
   fst out
   = Returns (inl ("Stored '" ++ k ++ "' ("
                     ++ server.fmt_d (Z.of_nat (String.length v)) ++ " bytes)")%string) /\
   CallTool fmt_v Atoi ReadFile "retrieve" args' env' (snd out)
   = (Returns (inl v), snd out)).
Proof.
  intros Hk Hv Hkne Hvne Hroom Hk' Hpath. cbv zeta.
  rewrite (CallTool_store_accepts args env stores k v Hk Hv Hkne Hvne Hroom).
  pose proof (getMemStore_again env env' stores) as Hagain.
  unfold store_of.
  destruct (getMemStore ReadFile env stores) as [[id store] stores1].
  cbn [fst snd]. destruct (data store) as [d|].
  - split; [discriminate|]. intros _. cbn [fst snd]. split; [reflexivity|].
    unfold CallTool. rewrite (Hagain (<[k := v]> d) Hpath).
    simpl String.eqb. rewrite Hk'.
    destruct (String.eqb_spec k "") as [E|_]; [contradiction|].
    unfold entries. cbn [data]. rewrite lookup_insert_eq. reflexivity.
  - split; [reflexivity | congruence].
Qed.

(** X30. A full store refuses new keys and nothing else. When the store
    holds MAX_ENTRIES entries or more, storing under a key that is not
    there is refused with the error "maximum entries (n) reached" and the
    data stay as they were, while a key that is there can still be given
    a new value, and the number of entries does not change. *)
Theorem full_store_refuses_new_keys (args : value) (env : gmap string string)
    (stores : gmap string memStore) (k v : string) :
  getStr fmt_v args "key" = k -> getStr fmt_v args "value" = v ->
  k <> ""%string -> v <> ""%string ->
  maxEntries_of Atoi env <= Z.of_nat (size (data_of env stores)) ->
  let out := CallTool fmt_v Atoi ReadFile "store" args env stores in
  (has (data_of env stores) k = false ->
   fst out = Returns (inr ("maximum entries (" ++ server.fmt_d (maxEntries_of Atoi env)
                             ++ ") reached")%string) /\
   data_of env (snd out) = data_of env stores) /\
  (has (data_of env stores) k = true ->
   fst out
   = Returns (inl ("Stored '" ++ k ++ "' ("
                     ++ server.fmt_d (Z.of_nat (String.length v)) ++ " bytes)")%string) /\
   data_of env (snd out) = <[k := v]> (data_of env stores) /\
   size (data_of env (snd out)) = size (data_of env stores)).
Proof.
  intros Hk Hv Hkne Hvne Hfull. cbv zeta.
  unfold data_of, store_of in *.
  pose proof (getMemStore_again env env stores) as Hagain.
  pose proof (getMemStore_same env stores) as Hsame.
  assert (Hout :
    CallTool fmt_v Atoi ReadFile "store" args env stores
    = let '(id, store, stores1) := getMemStore ReadFile env stores in
      if has (entries store) k
      then match data store with
           | None => (Panics, stores1)
           | Some d =>
               (Returns
                  (inl ("Stored '" ++ k ++ "' ("
                          ++ server.fmt_d (Z.of_nat (String.length v))
                          ++ " bytes)")%string),
                <[id := mkMemStore (Some (<[k := v]> d)) (path store)]> stores1)
           end
      else (Returns (inr ("maximum entries (" ++ server.fmt_d (maxEntries_of Atoi env)
                            ++ ") reached")%string), stores1)).
  { unfold CallTool.
    destruct (getMemStore ReadFile env stores) as [[id store] stores1].
    cbn [fst snd] in Hfull. simpl String.eqb. rewrite Hk, Hv.
    destruct (String.eqb_spec k "") as [E|_]; [contradiction|].
    destruct (String.eqb_spec v "") as [E|_]; [contradiction|].
    cbn [orb].
    assert (Hge : (Z.of_nat (size (entries store)) >=? maxEntries_of Atoi env) = true)
      by (rewrite Z.geb_leb; apply Z.leb_le; exact Hfull).
    rewrite Hge, andb_true_r. destruct (has (entries store) k); reflexivity. }
  rewrite Hout.
  destruct (getMemStore ReadFile env stores) as [[id store] stores1].
  cbn [fst snd] in *.
  split; intros Hhas; rewrite Hhas; cbn [fst snd].
  - split; [reflexivity|]. rewrite Hsame. reflexivity.
  - unfold entries in Hhas |- *. destruct (data store) as [d|]; [|discriminate].
    cbn [fst snd]. split; [reflexivity|].
    rewrite (Hagain (<[k := v]> d) eq_refl).
    cbn [fst snd data]. split; [reflexivity|].
    unfold has in Hhas. destruct (d !! k) as [old|] eqn:Hold; [|discriminate].
    rewrite <- (insert_delete_id d k old Hold) at 2.
    rewrite <- insert_delete_eq.
    rewrite !map_size_insert_None by apply lookup_delete_eq. reflexivity.
Qed.

End MemoryStore.

Module sample_memory.
Import json memory.

(** Stand-ins for the standard library on the sample inputs: nothing but
    strings is formatted, only "1" is parsed, and the one file there is,
    at /data/null.json, holds null. *)
Definition fmt_v (v : value) : string := ""%string.

Definition Atoi (s : string) : option Z :=
  if String.eqb s "1" then Some 1 else None.

Definition ReadFile (p : string) : option (option (gmap string string)) :=
  if String.eqb p "/data/null.json" then Some None else None.

Definition remember : value :=
  JObject [("key", JString "a"); ("value", JString "b")]%string.

Definition recall : value := JObject [("key", JString "a")]%string.

(** The environments of two tenants, neither with a persistence path. *)
Definition first_tenant : gmap string string := ∅.
Definition second_tenant : gmap string string := {[ "TZ"%string := "UTC"%string ]}.

(** A tenant whose persistence file holds null. *)
Definition null_file : gmap string string :=
  {[ "PERSIST_PATH"%string := "/data/null.json"%string ]}.

(** A store limited to one entry, which it holds. *)
Definition one_entry : gmap string string := {[ "MAX_ENTRIES"%string := "1"%string ]}.

Definition filled : gmap string memStore :=
  {[ "_default_"%string := mkMemStore (Some {[ "a"%string := "b"%string ]}) "" ]}.

Definition another : value :=
  JObject [("key", JString "c"); ("value", JString "d")]%string.

End sample_memory.

Section MemoryStoreInstances.
Import json memory sample_memory.

Lemma stored_value_is_retrieved_witness :
  let out := CallTool fmt_v Atoi ReadFile "store" remember first_tenant ∅ in
  env_get second_tenant "PERSIST_PATH" = env_get first_tenant "PERSIST_PATH" /\
  data (store_of ReadFile first_tenant ∅) <> None /\
  fst out = Returns (inl "Stored 'a' (1 bytes)"%string) /\
  CallTool fmt_v Atoi ReadFile "retrieve" recall second_tenant (snd out)
  = (Returns (inl "b"%string), snd out).
Proof.
  intros out.
  assert (Hpath : env_get second_tenant "PERSIST_PATH"
                  = env_get first_tenant "PERSIST_PATH") by (vm_compute; reflexivity).
  assert (Hroom : has (data_of ReadFile first_tenant ∅) "a" = true \/
                  Z.of_nat (size (data_of ReadFile first_tenant ∅))
                  < maxEntries_of Atoi first_tenant)
    by (right; vm_compute; reflexivity).
  assert (Hmap : data (store_of ReadFile first_tenant ∅) <> None)
    by (vm_compute; discriminate).
  split; [exact Hpath|]. split; [exact Hmap|].
  exact (proj2 (stored_value_is_retrieved fmt_v Atoi ReadFile remember recall
                  first_tenant second_tenant ∅ "a" "b" eq_refl eq_refl
                  ltac:(discriminate) ltac:(discriminate) Hroom eq_refl Hpath) Hmap).
Defined.

(** A store whose persistence file holds null: the first write panics. *)
Example null_file_store_panics :
  data (store_of ReadFile null_file ∅) = None /\
  fst (CallTool fmt_v Atoi ReadFile "store" remember null_file ∅) = Panics /\
  fst (CallTool fmt_v Atoi ReadFile "retrieve" recall null_file ∅)
  = Returns (inl "Key 'a' not found"%string).
Proof. vm_compute. repeat split; reflexivity. Qed.

Lemma full_store_refuses_new_keys_witness :
  let out := CallTool fmt_v Atoi ReadFile "store" another one_entry filled in
  maxEntries_of Atoi one_entry <= Z.of_nat (size (data_of ReadFile one_entry filled)) /\
  has (data_of ReadFile one_entry filled) "c" = false /\
  fst out = Returns (inr "maximum entries (1) reached"%string) /\
  data_of ReadFile one_entry (snd out) = data_of ReadFile one_entry filled.
Proof.
  intros out.
  assert (Hfull : maxEntries_of Atoi one_entry
                  <= Z.of_nat (size (data_of ReadFile one_entry filled)))
    by (vm_compute; discriminate).
  assert (Hnew : has (data_of ReadFile one_entry filled) "c" = false)
    by (vm_compute; reflexivity).
  split; [exact Hfull|]. split; [exact Hnew|].
  exact (proj1 (full_store_refuses_new_keys fmt_v Atoi ReadFile another one_entry
                  filled "c" "d" eq_refl eq_refl ltac:(discriminate)
                  ltac:(discriminate) Hfull) Hnew).
Defined.

End MemoryStoreInstances.
